(** * Pickle codec, chain keys and key-backup import of mautrix-go

    A shallow embedding of
      - crypto/goolm/ratchet/chain.go            (chainKey, senderChain,
                                                   receiverChain, messageKey)
      - crypto/goolm/ratchet/skipped_message.go  (skippedMessageKey)
      - crypto/keybackup.go                      (key-backup trust and import)

    Conventions.
      - A Go [[]byte] is a [list byte]; a function that writes into a slice
        takes the old contents and returns the new contents.  A sub-slice
        [target[n:]] shares its backing array with [target]: a write through
        it is a write into [target] at offset [n] ([on_suffix]).
      - A Go [uint32] is a [Z] with the wrap-around written out ([wrap32]).
      - A Go method with a pointer receiver takes the receiver's old value
        and returns the new one next to its results.
      - A Go [(n, err)] result is a [result]: [Ok n] for [(n, nil)],
        [Err e] for [(0, e)], and [Fault] for a run-time panic.
      - A Go map that is only ranged over is the list of its entries in the
        order of that iteration, which Go leaves unspecified: what is proved
        for every list holds for every order.
      - The collaborators of the OlmMachine (client, crypto store, state
        store, olm) are the fields of the class [Machine]; the calls made to
        them and the log lines written are recorded as a list of [event]s. *)

From Stdlib Require Import String Ascii ZArith List Bool Lia Permutation.
From Stdlib Require Import Strings.Byte.
Import ListNotations.
Open Scope Z_scope.

(** ** Errors and results *)

Inductive error : Type :=
| ErrValueTooShort                       (* olm.ErrValueTooShort *)
| ErrCrossSigningPubkeysNotCached
| ErrorString (msg : string)             (* an error known by its message *)
| Errorf (context : string) (e : error). (* fmt.Errorf("<context>%w", e) *)

Inductive result (A : Type) : Type :=
| Ok (a : A)
| Err (e : error)
| Fault.

Arguments Ok {A} a.
Arguments Err {A} e.
Arguments Fault {A}.

(** ** Bytes, slices and 32-bit integers *)

Definition wrap32 (z : Z) : Z := z mod 2 ^ 32.

(* Go's conversion byte(v): the low eight bits. *)
Definition byte_of_Z (z : Z) : byte :=
  match Byte.of_N (Z.to_N (z mod 256)) with
  | Some b => b
  | None => x00
  end.

Definition Z_of_byte (b : byte) : Z := Z.of_N (Byte.to_N b).

(* make([]byte, n) *)
Definition make (n : nat) : list byte := repeat x00 n.

(* The builtin copy(dst, src): the new contents of dst and the count. *)
Definition copy (dst src : list byte) : list byte * nat :=
  let n := Nat.min (length dst) (length src) in
  (firstn n src ++ skipn n dst, n).

(* s[n:], which faults when n is past the end of s. *)
Definition slice_from (n : nat) (s : list byte) : option (list byte) :=
  if (n <=? length s)%nat then Some (skipn n s) else None.

(* s[:n], which faults when n is past the end of s. *)
Definition slice_to (n : nat) (s : list byte) : option (list byte) :=
  if (n <=? length s)%nat then Some (firstn n s) else None.

(* Run a writer on target[off:] and put what it wrote back at offset off. *)
Definition on_suffix {A : Type} (off : nat)
    (f : list byte -> list byte * result A) (target : list byte)
  : list byte * result A :=
  match slice_from off target with
  | None => (target, Fault)
  | Some tail =>
      let (tail', r) := f tail in (firstn off target ++ tail', r)
  end.

(** ** libolmpickle *)

Module libolmpickle.

(** Modelled from the spec: the package libolmpickle is not part of the
    sources at hand.  Spec 4.1: "a 32-bit counter occupies a fixed-width
    big-endian ... slot": the 32 bits take four bytes. *)
Definition PickleUInt32Length : nat := 4.

Definition be32_encode (v : Z) : list byte :=
  [ byte_of_Z (v / 2 ^ 24); byte_of_Z (v / 2 ^ 16);
    byte_of_Z (v / 2 ^ 8); byte_of_Z v ].

Definition be32_decode (bs : list byte) : Z :=
  match bs with
  | b0 :: b1 :: b2 :: b3 :: _ =>
      Z_of_byte b0 * 2 ^ 24 + Z_of_byte b1 * 2 ^ 16
      + Z_of_byte b2 * 2 ^ 8 + Z_of_byte b3
  | _ => 0
  end.

(** Modelled from the spec: PickleUInt32 writes the counter into the first
    four bytes of the target and returns the width of the slot.  A target
    with fewer than four bytes has no room for the slot: the write runs
    past the end of the slice, which is a run-time panic ([None]). *)
Definition PickleUInt32 (value : Z) (target : list byte)
  : option (list byte * nat) :=
  if (length target <? PickleUInt32Length)%nat then None
  else Some (be32_encode value ++ skipn PickleUInt32Length target,
             PickleUInt32Length).

(** Modelled from the spec: UnpickleUInt32 reads the counter back from the
    first four bytes.  A truncated buffer is reported as the value-too-short
    error wrapped by the helper's own prefix, with the zero value for the
    counter and for the count, as Go functions do. *)
Definition UnpickleUInt32 (value : list byte) : Z * nat * option error :=
  if (length value <? PickleUInt32Length)%nat
  then (0, 0%nat, Some (Errorf "unpickle uint32: " ErrValueTooShort))
  else (be32_decode value, PickleUInt32Length, None).

(** Modelled from the spec: "fixed-length key material is copied
    verbatim"; PickleBytes copies the value to the front of the target and
    returns the number of bytes copied. *)
Definition PickleBytes (value target : list byte) : list byte * nat :=
  copy target value.

(* isZeroByteSlice: every byte of the slice is zero. *)
Definition isZeroByteSlice (bs : list byte) : bool :=
  forallb (fun b => Byte.eqb b x00) bs.

(** Modelled from the spec: UnpickleBytes reads the first [length] bytes of
    the buffer and reports them with their count.  Bytes that are all zero
    are the pickle of a value that was not set: they are read as nil, the
    count being [length] all the same.  A truncated buffer is reported as
    the value-too-short error wrapped by the helper's own prefix. *)
Definition UnpickleBytes (value : list byte) (length : nat)
  : list byte * nat * option error :=
  if (List.length value <? length)%nat
  then ([], 0%nat, Some (Errorf "unpickle bytes: " ErrValueTooShort))
  else
    let resp := firstn length value in
    if isZeroByteSlice resp then ([], length, None)
    else (resp, length, None).

End libolmpickle.

(** ** crypto.Curve25519PublicKey *)

Module Curve25519PublicKey.

(* type Curve25519PublicKey []byte *)
Definition t : Type := list byte.

(** Modelled from the spec: Curve25519PubKeyLength is declared in the
    package goolm/crypto, which is not part of the sources at hand.  Spec 3:
    "32-byte Curve25519 public-key". *)
Definition Curve25519PubKeyLength : nat := 32.

(** Modelled from the spec: Curve25519PublicKey.PickleLibOlm.  Spec 4.1:
    "encode(value, buffer) -> bytes_written | error(BufferTooShort)";
    "fixed-length key material is copied verbatim - if supplied key
    material is the wrong length, it is replaced with a same-length
    all-zero placeholder". *)
Definition PickleLibOlm (c : t) (target : list byte)
  : list byte * result nat :=
  if (length target <? Curve25519PubKeyLength)%nat
  then (target, Err (Errorf "pickle curve25519 public key: " ErrValueTooShort))
  else if negb (length c =? Curve25519PubKeyLength)%nat
  then let (target', n) :=
         libolmpickle.PickleBytes (make Curve25519PubKeyLength) target in
       (target', Ok n)
  else let (target', n) := libolmpickle.PickleBytes c target in
       (target', Ok n).

(** Modelled from the spec: Curve25519PublicKey.UnpickleLibOlm.  Spec 4.1:
    "decode(buffer) -> (value, bytes_consumed) | error(Truncated |
    Malformed)"; the receiver is written only when the bytes were read, with
    what UnpickleBytes made of them: nil for 32 zero bytes. *)
Definition UnpickleLibOlm (c : t) (value : list byte) : t * result nat :=
  match libolmpickle.UnpickleBytes value Curve25519PubKeyLength with
  | (_, _, Some err) => (c, Err err)
  | (unpickled, readBytes, None) => (unpickled, Ok readBytes)
  end.

End Curve25519PublicKey.

(** The 32 bytes that stand for key material [c] in a pickle: [c] itself,
    or the all-zero placeholder when [c] has another length. *)
Definition keyMaterial (c : list byte) : list byte :=
  if (length c =? 32)%nat then c else make 32.

(** What the bytes [k] of a pickle are read back as: nil when they are all
    zero, and [k] itself otherwise. *)
Definition decodedKey (k : list byte) : list byte :=
  if libolmpickle.isZeroByteSlice k then [] else k.

(** ** chain.go *)

Definition chainKeySeed : byte := x02.
Definition messageKeyLength : nat := 32.

Module chainKey.

Record t : Type := mk { Index : Z; Key : Curve25519PublicKey.t }.

Definition chainKeyPickleLength : nat :=
  (Curve25519PublicKey.Curve25519PubKeyLength
   + libolmpickle.PickleUInt32Length)%nat.

Section Advance.
(* crypto.HMACSHA256(key, input), from the package goolm/crypto. *)
Variable HMACSHA256 : list byte -> list byte -> list byte.

Definition advance (c : t) : t :=
  let c1 := {| Index := Index c; Key := HMACSHA256 (Key c) [chainKeySeed] |} in
  {| Index := wrap32 (Index c1 + 1); Key := Key c1 |}.
End Advance.

Definition UnpickleLibOlm (r : t) (value : list byte) : t * result nat :=
  let curPos := 0%nat in
  match Curve25519PublicKey.UnpickleLibOlm (Key r) value with
  | (key, Fault) => ({| Index := Index r; Key := key |}, Fault)
  | (key, Err err) => ({| Index := Index r; Key := key |}, Err err)
  | (key, Ok readBytes) =>
      let r := {| Index := Index r; Key := key |} in
      let curPos := (curPos + readBytes)%nat in
      match slice_from curPos value with
      | None => (r, Fault)
      | Some rest =>
          let '(index, readBytes, err) := libolmpickle.UnpickleUInt32 rest in
          let r := {| Index := index; Key := Key r |} in
          match err with
          | Some err => (r, Err err)
          | None => (r, Ok (curPos + readBytes)%nat)
          end
      end
  end.

Definition PickleLibOlm (r : t) (target : list byte)
  : list byte * result nat :=
  if (length target <? chainKeyPickleLength)%nat
  then (target, Err (Errorf "pickle chain key: " ErrValueTooShort))
  else
    match Curve25519PublicKey.PickleLibOlm (Key r) target with
    | (target, Fault) => (target, Fault)
    | (target, Err err) => (target, Err (Errorf "pickle chain key: " err))
    | (target, Ok written) =>
        on_suffix written
          (fun tail =>
             match libolmpickle.PickleUInt32 (Index r) tail with
             | None => (tail, Fault)
             | Some (tail', n) => (tail', Ok (written + n)%nat)
             end)
          target
    end.

End chainKey.

Module senderChain.

Section KeyPair.
(* crypto.Curve25519KeyPair and its two pickle methods, from the package
   goolm/crypto. *)
Variable Curve25519KeyPair : Type.
Variable KeyPair_PickleLibOlm :
  Curve25519KeyPair -> list byte -> list byte * result nat.
Variable KeyPair_UnpickleLibOlm :
  Curve25519KeyPair -> list byte -> Curve25519KeyPair * result nat.

Record t : Type :=
  mk { RKey : Curve25519KeyPair; CKey : chainKey.t; IsSet : bool }.

Definition senderChainPickleLength : nat :=
  (chainKey.chainKeyPickleLength + chainKey.chainKeyPickleLength)%nat.

Definition newSenderChain (key : Curve25519PublicKey.t)
    (ratchet : Curve25519KeyPair) : t :=
  {| RKey := ratchet;
     CKey := {| chainKey.Index := 0; chainKey.Key := key |};
     IsSet := true |}.

Definition advance (HMACSHA256 : list byte -> list byte -> list byte)
    (s : t) : t :=
  {| RKey := RKey s; CKey := chainKey.advance HMACSHA256 (CKey s);
     IsSet := IsSet s |}.

Definition ratchetKey (s : t) : Curve25519KeyPair := RKey s.

Definition chainKey (s : t) : chainKey.t := CKey s.

Definition UnpickleLibOlm (r : t) (value : list byte) : t * result nat :=
  let curPos := 0%nat in
  match KeyPair_UnpickleLibOlm (RKey r) value with
  | (rkey, Fault) => ({| RKey := rkey; CKey := CKey r; IsSet := IsSet r |}, Fault)
  | (rkey, Err err) =>
      ({| RKey := rkey; CKey := CKey r; IsSet := IsSet r |}, Err err)
  | (rkey, Ok readBytes) =>
      let r := {| RKey := rkey; CKey := CKey r; IsSet := IsSet r |} in
      let curPos := (curPos + readBytes)%nat in
      match slice_from curPos value with
      | None => (r, Fault)
      | Some rest =>
          match chainKey.UnpickleLibOlm (CKey r) rest with
          | (ckey, Fault) =>
              ({| RKey := RKey r; CKey := ckey; IsSet := IsSet r |}, Fault)
          | (ckey, Err err) =>
              ({| RKey := RKey r; CKey := ckey; IsSet := IsSet r |}, Err err)
          | (ckey, Ok readBytes) =>
              ({| RKey := RKey r; CKey := ckey; IsSet := IsSet r |},
               Ok (curPos + readBytes)%nat)
          end
      end
  end.

Definition PickleLibOlm (r : t) (target : list byte)
  : list byte * result nat :=
  if (length target <? senderChainPickleLength)%nat
  then (target, Err (Errorf "pickle sender chain: " ErrValueTooShort))
  else
    match KeyPair_PickleLibOlm (RKey r) target with
    | (target, Fault) => (target, Fault)
    | (target, Err err) => (target, Err (Errorf "pickle sender chain: " err))
    | (target, Ok written) =>
        on_suffix written
          (fun tail =>
             match chainKey.PickleLibOlm (CKey r) tail with
             | (tail', Fault) => (tail', Fault)
             | (tail', Err err) =>
                 (tail', Err (Errorf "pickle sender chain: " err))
             | (tail', Ok writtenChain) =>
                 (tail', Ok (written + writtenChain)%nat)
             end)
          target
    end.
End KeyPair.

End senderChain.

Module receiverChain.

Record t : Type := mk { RKey : Curve25519PublicKey.t; CKey : chainKey.t }.

Definition receiverChainPickleLength : nat :=
  (Curve25519PublicKey.Curve25519PubKeyLength
   + chainKey.chainKeyPickleLength)%nat.

Definition newReceiverChain (chain ratchet : Curve25519PublicKey.t) : t :=
  {| RKey := ratchet;
     CKey := {| chainKey.Index := 0; chainKey.Key := chain |} |}.

Definition advance (HMACSHA256 : list byte -> list byte -> list byte)
    (s : t) : t :=
  {| RKey := RKey s; CKey := chainKey.advance HMACSHA256 (CKey s) |}.

Definition ratchetKey (s : t) : Curve25519PublicKey.t := RKey s.

Definition chainKey (s : t) : chainKey.t := CKey s.

Definition UnpickleLibOlm (r : t) (value : list byte) : t * result nat :=
  let curPos := 0%nat in
  match Curve25519PublicKey.UnpickleLibOlm (RKey r) value with
  | (rkey, Fault) => ({| RKey := rkey; CKey := CKey r |}, Fault)
  | (rkey, Err err) => ({| RKey := rkey; CKey := CKey r |}, Err err)
  | (rkey, Ok readBytes) =>
      let r := {| RKey := rkey; CKey := CKey r |} in
      let curPos := (curPos + readBytes)%nat in
      match slice_from curPos value with
      | None => (r, Fault)
      | Some rest =>
          match chainKey.UnpickleLibOlm (CKey r) rest with
          | (ckey, Fault) => ({| RKey := RKey r; CKey := ckey |}, Fault)
          | (ckey, Err err) => ({| RKey := RKey r; CKey := ckey |}, Err err)
          | (ckey, Ok readBytes) =>
              ({| RKey := RKey r; CKey := ckey |}, Ok (curPos + readBytes)%nat)
          end
      end
  end.

(* The chain key is pickled into [target], not into [target[written:]]. *)
Definition PickleLibOlm (r : t) (target : list byte)
  : list byte * result nat :=
  if (length target <? receiverChainPickleLength)%nat
  then (target, Err (Errorf "pickle sender chain: " ErrValueTooShort))
  else
    match Curve25519PublicKey.PickleLibOlm (RKey r) target with
    | (target, Fault) => (target, Fault)
    | (target, Err err) => (target, Err (Errorf "pickle sender chain: " err))
    | (target, Ok written) =>
        match chainKey.PickleLibOlm (CKey r) target with
        | (target, Fault) => (target, Fault)
        | (target, Err err) =>
            (target, Err (Errorf "pickle sender chain: " err))
        | (target, Ok writtenChain) =>
            (target, Ok (written + writtenChain)%nat)
        end
    end.

End receiverChain.

Module messageKey.

Record t : Type := mk { Index : Z; Key : list byte }.

Definition messageKeyPickleLength : nat :=
  (messageKeyLength + libolmpickle.PickleUInt32Length)%nat.

(* The index is read from [value[:curPos]], not from [value[curPos:]]. *)
Definition UnpickleLibOlm (m : t) (value : list byte) : t * result nat :=
  let curPos := 0%nat in
  let '(ratchetKey, readBytes, err) :=
    libolmpickle.UnpickleBytes value messageKeyLength in
  match err with
  | Some err => (m, Err err)
  | None =>
      let m := {| Index := Index m; Key := ratchetKey |} in
      let curPos := (curPos + readBytes)%nat in
      match slice_to curPos value with
      | None => (m, Fault)
      | Some front =>
          let '(keyID, readBytes, err) := libolmpickle.UnpickleUInt32 front in
          match err with
          | Some err => (m, Err err)
          | None =>
              let curPos := (curPos + readBytes)%nat in
              ({| Index := keyID; Key := Key m |}, Ok curPos)
          end
      end
  end.

Definition PickleLibOlm (m : t) (target : list byte)
  : list byte * result nat :=
  if (length target <? messageKeyPickleLength)%nat
  then (target, Err (Errorf "pickle message key: " ErrValueTooShort))
  else
    let written := 0%nat in
    let (target, n) :=
      if negb (length (Key m) =? messageKeyLength)%nat
      then libolmpickle.PickleBytes (make messageKeyLength) target
      else libolmpickle.PickleBytes (Key m) target in
    let written := (written + n)%nat in
    on_suffix written
      (fun tail =>
         match libolmpickle.PickleUInt32 (Index m) tail with
         | None => (tail, Fault)
         | Some (tail', n) => (tail', Ok (written + n)%nat)
         end)
      target.

End messageKey.

(** ** skipped_message.go *)

Module skippedMessageKey.

Record t : Type := mk { RKey : Curve25519PublicKey.t; MKey : messageKey.t }.

Definition skippedMessageKeyPickleLen : nat :=
  (Curve25519PublicKey.Curve25519PubKeyLength
   + messageKey.messageKeyPickleLength)%nat.

Definition UnpickleLibOlm (r : t) (value : list byte) : t * result nat :=
  let curPos := 0%nat in
  match Curve25519PublicKey.UnpickleLibOlm (RKey r) value with
  | (rkey, Fault) => ({| RKey := rkey; MKey := MKey r |}, Fault)
  | (rkey, Err err) => ({| RKey := rkey; MKey := MKey r |}, Err err)
  | (rkey, Ok readBytes) =>
      let r := {| RKey := rkey; MKey := MKey r |} in
      let curPos := (curPos + readBytes)%nat in
      match slice_from curPos value with
      | None => (r, Fault)
      | Some rest =>
          match messageKey.UnpickleLibOlm (MKey r) rest with
          | (mkey, Fault) => ({| RKey := RKey r; MKey := mkey |}, Fault)
          | (mkey, Err err) => ({| RKey := RKey r; MKey := mkey |}, Err err)
          | (mkey, Ok readBytes) =>
              ({| RKey := RKey r; MKey := mkey |}, Ok (curPos + readBytes)%nat)
          end
      end
  end.

(* The message key is pickled into [target], not into [target[written:]]. *)
Definition PickleLibOlm (r : t) (target : list byte)
  : list byte * result nat :=
  if (length target <? skippedMessageKeyPickleLen)%nat
  then (target, Err (Errorf "pickle sender chain: " ErrValueTooShort))
  else
    match Curve25519PublicKey.PickleLibOlm (RKey r) target with
    | (target, Fault) => (target, Fault)
    | (target, Err err) => (target, Err (Errorf "pickle sender chain: " err))
    | (target, Ok written) =>
        match messageKey.PickleLibOlm (MKey r) target with
        | (target, Fault) => (target, Fault)
        | (target, Err err) =>
            (target, Err (Errorf "pickle sender chain: " err))
        | (target, Ok writtenChain) =>
            (target, Ok (written + writtenChain)%nat)
        end
    end.

End skippedMessageKey.

(** ** keybackup.go *)

Module keybackup.

Open Scope string_scope.

(* The string types of the package id. *)
Definition UserID : Type := string.
Definition DeviceID : Type := string.
Definition KeyID : Type := string.
Definition KeyAlgorithm : Type := string.
Definition RoomID : Type := string.
Definition SessionID : Type := string.
Definition KeyBackupVersion : Type := string.
Definition Ed25519 : Type := string.
Definition Curve25519 : Type := string.

Definition KeyBackupAlgorithmMegolmBackupV1 : string :=
  "m.megolm_backup.v1.curve25519-aes-sha2".
Definition AlgorithmMegolmV1 : string := "m.megolm.v1.aes-sha2".
Definition KeyAlgorithmEd25519 : KeyAlgorithm := "ed25519".

(* backup.MegolmAuthData *)
Record MegolmAuthData : Type :=
  { PublicKey : Ed25519;
    Signatures : list (UserID * list (KeyID * string)) }.

(* mautrix.RespRoomKeysVersion[backup.MegolmAuthData] *)
Record RespRoomKeysVersion : Type :=
  { Algorithm : string;
    AuthData : MegolmAuthData;
    Count : Z;
    ETag : string;
    Version : KeyBackupVersion }.

Record CrossSigningPublicKeysCache : Type :=
  { MasterKey : Ed25519; SelfSigningKey : Ed25519; UserSigningKey : Ed25519 }.

Record Device : Type :=
  { DeviceUserID : UserID;
    DeviceDeviceID : DeviceID;
    IdentityKey : Curve25519;
    SigningKey : Ed25519 }.

(* olm.InboundGroupSession, seen through the two methods called here. *)
Record InternalSession : Type :=
  { ID : SessionID; FirstKnownIndex : Z }.

(* backup.MegolmSessionData *)
Record MegolmSessionData : Type :=
  { SessionAlgorithm : string;
    ForwardingKeyChain : list string;
    SenderClaimedKeysEd25519 : Ed25519;
    SenderKey : Curve25519;
    SessionKey : string }.

(* event.EncryptionEventContent, the two rotation fields. *)
Record EncryptionEventContent : Type :=
  { RotationPeriodMillis : Z; RotationPeriodMessages : Z }.

Record InboundGroupSession : Type :=
  { igs_Internal : InternalSession;
    igs_SigningKey : Ed25519;
    igs_SenderKey : Curve25519;
    igs_RoomID : RoomID;
    igs_ForwardingChains : list string;
    igs_id : SessionID;
    igs_ReceivedAt : Z;
    igs_MaxAge : Z;
    igs_MaxMessages : Z;
    igs_KeyBackupVersion : KeyBackupVersion }.

Inductive level : Type := Debug | Info | Warn | Error.

Inductive event : Type :=
| Log (l : level) (msg : string) (ints : list (string * Z))
| CallVerifySignatureJSON (keyName : string) (key : Ed25519)
| CallDecrypt (roomID : RoomID) (sessionID : SessionID)
| CallInboundGroupSessionImport (sessionKey : string)
| CallPutGroupSession (igs : InboundGroupSession)
| CallMarkSessionReceived (roomID : RoomID) (sessionID : SessionID)
    (firstKnownIndex : Z).

(* The machine's collaborators.  [World] is the state behind them. *)
Class Machine : Type :=
  { World : Type;
    MegolmBackupKey : Type;
    EncryptedSessionData : Type;
    Client_UserID : UserID;
    (* mach.Client *)
    GetKeyBackupLatestVersion : World -> RespRoomKeysVersion + error;
    GetKeyBackup :
      World -> KeyBackupVersion ->
      list (RoomID * list (SessionID * EncryptedSessionData)) + error;
    (* backup, encoding/base64, id *)
    PublicKeyBytes : MegolmBackupKey -> list byte;
    EncodeToString : list byte -> string;
    Parse : KeyID -> KeyAlgorithm * string;
    Decrypt :
      EncryptedSessionData -> option MegolmBackupKey ->
      MegolmSessionData + error;
    (* cross-signing and the crypto store *)
    GetOwnCrossSigningPublicKeys : World -> option CrossSigningPublicKeysCache;
    GetDevice : World -> UserID -> DeviceID -> option Device + error;
    IsDeviceTrusted : World -> Device -> bool;
    PutGroupSession : World -> InboundGroupSession -> World * option error;
    (* signatures, olm *)
    VerifySignatureJSON :
      MegolmAuthData -> UserID -> string -> Ed25519 -> bool * option error;
    InboundGroupSessionImport : string -> InternalSession + error;
    (* the state store, the clock, the machine's session waiters *)
    GetEncryptionEvent :
      World -> RoomID -> option EncryptionEventContent + error;
    Now : World -> Z;
    markSessionReceived : World -> RoomID -> SessionID -> Z -> World }.

(* m[k] with the comma-ok form, on the entries of the map. *)
Fixpoint lookup {A : Type} (k : string) (m : list (string * A)) : option A :=
  match m with
  | [] => None
  | (k', v) :: m' => if (k' =? k)%string then Some v else lookup k m'
  end.

(* int64 arithmetic of time.Duration *)
Definition wrap_int64 (z : Z) : Z := (z + 2 ^ 63) mod 2 ^ 64 - 2 ^ 63.
Definition Millisecond : Z := 1000000.
Definition Milliseconds (d : Z) : Z := Z.quot d Millisecond.

Section WithMachine.
Context {mach : Machine}.

(* How one pass through the body of the signature loop ends. *)
Inductive control : Type :=
| Continue                 (* continue *)
| Break                    (* signatureVerified = true; break *)
| ReturnErr (err : error). (* return nil, err *)

(* ok, err = signatures.VerifySignatureJSON(...) and what follows it *)
Definition verifyWith (versionInfo : RespRoomKeysVersion)
    (keyName : string) (key : Ed25519) : control * list event :=
  let (ok, err) :=
    VerifySignatureJSON (AuthData versionInfo) Client_UserID keyName key in
  let call := CallVerifySignatureJSON keyName key in
  match err, ok with
  | None, true =>
      (Break,
       [call;
        Log Debug "key backup is trusted based on matching signature" []])
  | _, _ => (Continue, [call; Log Warn "Signature verification failed" []])
  end.

(* The body of: for keyID := range userSignatures { ... } *)
Definition verifyBody (w : World) (versionInfo : RespRoomKeysVersion)
    (crossSigningPubkeys : CrossSigningPublicKeysCache) (keyID : KeyID)
  : control * list event :=
  let (keyAlg, keyName) := Parse keyID in
  if negb (keyAlg =? KeyAlgorithmEd25519) then (Continue, [])
  else if keyName =? MasterKey crossSigningPubkeys
  then verifyWith versionInfo keyName (MasterKey crossSigningPubkeys)
  else
    match GetDevice w Client_UserID keyName with
    | inr err =>
        (ReturnErr
           (Errorf
              ("failed to get device " ++ Client_UserID ++ "/" ++ keyName
               ++ " from store: ") err), [])
    | inl None =>
        (Continue, [Log Warn "Device does not exist, ignoring signature" []])
    | inl (Some device) =>
        if negb (IsDeviceTrusted w device)
        then (Continue, [Log Warn "Device is not trusted" []])
        else verifyWith versionInfo keyName (SigningKey device)
    end.

(* What the signature loop as a whole decides. *)
Inductive pass : Type :=
| Return (err : error)             (* the function returned from inside *)
| Done (signatureVerified : bool). (* the loop was left *)

Fixpoint verifyLoop (w : World) (versionInfo : RespRoomKeysVersion)
    (crossSigningPubkeys : CrossSigningPublicKeysCache)
    (userSignatures : list (KeyID * string)) : pass * list event :=
  match userSignatures with
  | [] => (Done false, [])
  | (keyID, _) :: rest =>
      match verifyBody w versionInfo crossSigningPubkeys keyID with
      | (Continue, evs) =>
          let (p, evs') :=
            verifyLoop w versionInfo crossSigningPubkeys rest in
          (p, (evs ++ evs')%list)
      | (Break, evs) => (Done true, evs)
      | (ReturnErr err, evs) => (Return err, evs)
      end
  end.

Definition GetAndVerifyLatestKeyBackupVersion (w : World)
    (megolmBackupKey : option MegolmBackupKey)
  : result RespRoomKeysVersion * list event :=
  match GetKeyBackupLatestVersion w with
  | inr err => (Err err, [])
  | inl versionInfo =>
      if negb (Algorithm versionInfo =? KeyBackupAlgorithmMegolmBackupV1)
      then
        (Err (ErrorString ("unsupported key backup algorithm: "
                           ++ Algorithm versionInfo)), [])
      else
        (* megolmBackupKey.PublicKey() reads through the pointer before
           the test megolmBackupKey != nil is made. *)
        match megolmBackupKey with
        | None => (Fault, [])
        | Some key =>
            let megolmBackupDerivedPublicKey : Ed25519 :=
              EncodeToString (PublicKeyBytes key) in
            let isNotNil := true in
            if isNotNil
               && (PublicKey (AuthData versionInfo)
                   =? megolmBackupDerivedPublicKey)
            then
              (Ok versionInfo,
               [Log Debug
                  "key backup is trusted based on derived public key" []])
            else
              let evs0 :=
                [Log Debug
                   "key backup public keys do not match, proceeding to check device signatures"
                   []] in
              match lookup Client_UserID
                      (Signatures (AuthData versionInfo)) with
              | None =>
                  (Err (ErrorString ("no signature from user "
                                     ++ Client_UserID
                                     ++ " found in key backup")), evs0)
              | Some userSignatures =>
                  match GetOwnCrossSigningPublicKeys w with
                  | None => (Err ErrCrossSigningPubkeysNotCached, evs0)
                  | Some crossSigningPubkeys =>
                      match verifyLoop w versionInfo crossSigningPubkeys
                              userSignatures with
                      | (Return err, evs) => (Err err, (evs0 ++ evs)%list)
                      | (Done signatureVerified, evs) =>
                          if negb signatureVerified
                          then
                            (Err (ErrorString
                                    ("no valid signature from user "
                                     ++ Client_UserID
                                     ++ " found in key backup")),
                             (evs0 ++ evs)%list)
                          else (Ok versionInfo, (evs0 ++ evs)%list)
                      end
                  end
              end
        end
  end.

Definition ImportRoomKeyFromBackup (w : World) (version : KeyBackupVersion)
    (roomID : RoomID) (sessionID : SessionID)
    (keyBackupData : MegolmSessionData)
  : (InboundGroupSession + error) * World * list event :=
  if negb (SessionAlgorithm keyBackupData =? AlgorithmMegolmV1)
  then
    (inr (ErrorString ("ignoring room key in backup with weird algorithm "
                       ++ SessionAlgorithm keyBackupData)), w, [])
  else
    let call := CallInboundGroupSessionImport (SessionKey keyBackupData) in
    match InboundGroupSessionImport (SessionKey keyBackupData) with
    | inr err =>
        (inr (Errorf "failed to import inbound group session: " err),
         w, [call])
    | inl igsInternal =>
        if negb (ID igsInternal =? sessionID)
        then
          (inr (ErrorString
                  "mismatched session ID while creating inbound group session from key backup"),
           w,
           [call;
            Log Warn
              "Mismatched session ID while creating inbound group session from key backup"
              []])
        else
          let '(maxAge, maxMessages, evs1) :=
            match GetEncryptionEvent w roomID with
            | inr err =>
                (0%Z, 0%Z,
                 [Log Error "Failed to get encryption event for room" []])
            | inl None => (0%Z, 0%Z, [])
            | inl (Some config) =>
                (wrap_int64 (RotationPeriodMillis config * Millisecond),
                 RotationPeriodMessages config, [])
            end in
          let firstKnownIndex := FirstKnownIndex igsInternal in
          let evs2 :=
            if (0 <? firstKnownIndex)%Z
            then [Log Warn "Importing partial session"
                    [("first_known_index", firstKnownIndex)]]
            else [] in
          let igs :=
            {| igs_Internal := igsInternal;
               igs_SigningKey := SenderClaimedKeysEd25519 keyBackupData;
               igs_SenderKey := SenderKey keyBackupData;
               igs_RoomID := roomID;
               igs_ForwardingChains :=
                 (ForwardingKeyChain keyBackupData
                  ++ [SenderKey keyBackupData])%list;
               igs_id := sessionID;
               igs_ReceivedAt := Now w;
               igs_MaxAge := Milliseconds maxAge;
               igs_MaxMessages := maxMessages;
               igs_KeyBackupVersion := version |} in
          let (w, err) := PutGroupSession w igs in
          let evs := (call :: evs1 ++ evs2 ++ [CallPutGroupSession igs])%list in
          match err with
          | Some err =>
              (inr (Errorf "failed to store new inbound group session: " err),
               w, evs)
          | None =>
              let w := markSessionReceived w roomID sessionID firstKnownIndex in
              (inl igs, w,
               (evs ++ [CallMarkSessionReceived roomID sessionID
                          firstKnownIndex])%list)
          end
    end.

(* The variables of GetAndStoreKeyBackup that its loops update. *)
Record progress : Type :=
  { world : World; count : Z; failedCount : Z; trace : list event }.

(* The body of the inner loop, for one entry of backup.Sessions. *)
Definition importSession (version : KeyBackupVersion)
    (megolmBackupKey : option MegolmBackupKey) (roomID : RoomID)
    (st : progress) (entry : SessionID * EncryptedSessionData) : progress :=
  let (sessionID, keyBackupData) := entry in
  let call := CallDecrypt roomID sessionID in
  match Decrypt keyBackupData megolmBackupKey with
  | inr err =>
      {| world := world st; count := count st;
         failedCount := failedCount st + 1;
         trace := (trace st
                   ++ [call; Log Warn "Failed to decrypt session data" []])%list |}
  | inl sessionData =>
      let '(res, w, evs) :=
        ImportRoomKeyFromBackup (world st) version roomID sessionID
          sessionData in
      match res with
      | inr err =>
          {| world := w; count := count st;
             failedCount := failedCount st + 1;
             trace := (trace st ++ call :: evs
                       ++ [Log Warn "Failed to import room key from backup"
                             []])%list |}
      | inl _ =>
          {| world := w; count := count st + 1;
             failedCount := failedCount st;
             trace := (trace st ++ call :: evs)%list |}
      end
  end.

(* The body of the outer loop, for one entry of keys.Rooms. *)
Definition importRoom (version : KeyBackupVersion)
    (megolmBackupKey : option MegolmBackupKey) (st : progress)
    (room : RoomID * list (SessionID * EncryptedSessionData)) : progress :=
  let (roomID, sessions) := room in
  fold_left (importSession version megolmBackupKey roomID) sessions st.

Definition GetAndStoreKeyBackup (w : World) (version : KeyBackupVersion)
    (megolmBackupKey : option MegolmBackupKey)
  : option error * World * list event :=
  match GetKeyBackup w version with
  | inr err => (Some err, w, [])
  | inl keys =>
      let st :=
        fold_left (importRoom version megolmBackupKey) keys
          {| world := w; count := 0; failedCount := 0; trace := [] |} in
      (None, world st,
       (trace st
        ++ [Log Info "successfully imported sessions from backup"
              [("count", count st); ("failed_count", failedCount st)]])%list)
  end.

(* Both results of the Go function can be set at once: [Ok (version, err)]
   is the return of the pair, [Fault] a panic.  GetAndVerify returns a nil
   version info only next to an error, so the test versionInfo == nil that
   follows the test of the error is never met. *)
Definition DownloadAndStoreLatestKeyBackup (w : World)
    (megolmBackupKey : option MegolmBackupKey)
  : result (KeyBackupVersion * option error) * World * list event :=
  match GetAndVerifyLatestKeyBackupVersion w megolmBackupKey with
  | (Fault, evs) => (Fault, w, evs)
  | (Err err, evs) => (Ok ("", Some err), w, evs)
  | (Ok versionInfo, evs) =>
      let '(err, w, evs') :=
        GetAndStoreKeyBackup w (Version versionInfo) megolmBackupKey in
      (Ok (Version versionInfo, err), w, (evs ++ evs')%list)
  end.

(* The rotation settings ImportRoomKeyFromBackup reads for a room: maxAge
   as a time.Duration, maxMessages, and the line logged when the lookup
   fails. *)
Definition rotationOf (w : World) (roomID : RoomID) : Z * Z * list event :=
  match GetEncryptionEvent w roomID with
  | inr err =>
      (0%Z, 0%Z, [Log Error "Failed to get encryption event for room" []])
  | inl None => (0%Z, 0%Z, [])
  | inl (Some config) =>
      (wrap_int64 (RotationPeriodMillis config * Millisecond),
       RotationPeriodMessages config, [])
  end.

(* The session ImportRoomKeyFromBackup builds and hands to the store. *)
Definition sessionFromBackup (w : World) (version : KeyBackupVersion)
    (roomID : RoomID) (sessionID : SessionID)
    (keyBackupData : MegolmSessionData) (igsInternal : InternalSession)
  : InboundGroupSession :=
  {| igs_Internal := igsInternal;
     igs_SigningKey := SenderClaimedKeysEd25519 keyBackupData;
     igs_SenderKey := SenderKey keyBackupData;
     igs_RoomID := roomID;
     igs_ForwardingChains :=
       (ForwardingKeyChain keyBackupData ++ [SenderKey keyBackupData])%list;
     igs_id := sessionID;
     igs_ReceivedAt := Now w;
     igs_MaxAge := Milliseconds (fst (fst (rotationOf w roomID)));
     igs_MaxMessages := snd (fst (rotationOf w roomID));
     igs_KeyBackupVersion := version |}.

(* The entries of a backup in the order the two loops reach them. *)
Definition backupEntries
    (keys : list (RoomID * list (SessionID * EncryptedSessionData)))
  : list (RoomID * SessionID * EncryptedSessionData) :=
  flat_map
    (fun room =>
       map (fun entry => (fst room, fst entry, snd entry)) (snd room))
    keys.

(* The body of the inner loop at an entry of [backupEntries]. *)
Definition importEntry (version : KeyBackupVersion)
    (megolmBackupKey : option MegolmBackupKey) (st : progress)
    (e : RoomID * SessionID * EncryptedSessionData) : progress :=
  importSession version megolmBackupKey (fst (fst e)) st (snd (fst e), snd e).

End WithMachine.

(* The entries for which a trace records a decryption. *)
Fixpoint decryptCalls (evs : list event) : list (RoomID * SessionID) :=
  match evs with
  | [] => []
  | CallDecrypt roomID sessionID :: evs' =>
      (roomID, sessionID) :: decryptCalls evs'
  | _ :: evs' => decryptCalls evs'
  end.

(* The sessions a trace records as announced to the machine's waiters. *)
Fixpoint markCalls (evs : list event) : list (RoomID * SessionID * Z) :=
  match evs with
  | [] => []
  | CallMarkSessionReceived roomID sessionID firstKnownIndex :: evs' =>
      (roomID, sessionID, firstKnownIndex) :: markCalls evs'
  | _ :: evs' => markCalls evs'
  end.

(* The signature checks a trace records. *)
Fixpoint verifyCalls (evs : list event) : list (string * Ed25519) :=
  match evs with
  | [] => []
  | CallVerifySignatureJSON keyName key :: evs' =>
      (keyName, key) :: verifyCalls evs'
  | _ :: evs' => verifyCalls evs'
  end.

(* The sessions a trace records as handed to the crypto store. *)
Fixpoint putCalls (evs : list event) : list InboundGroupSession :=
  match evs with
  | [] => []
  | CallPutGroupSession igs :: evs' => igs :: putCalls evs'
  | _ :: evs' => putCalls evs'
  end.

End keybackup.

(** ** Contracts of picklers and unpicklers *)

(* A pickler of declared length [L]: it never panics and never changes the
   length of its target nor a byte from offset [L] on; on a target shorter
   than [L] it fails and leaves the target as it was, on any other it
   returns [L]. *)
Definition pickles_within (L : nat)
    (f : list byte -> list byte * result nat) : Prop :=
  forall target,
    length (fst (f target)) = length target
    /\ skipn L (fst (f target)) = skipn L target
    /\ if (length target <? L)%nat
       then fst (f target) = target /\ exists e, snd (f target) = Err e
       else snd (f target) = Ok L.



(** ** Sample values *)

Definition sample_chainKey : chainKey.t :=
  {| chainKey.Index := 7; chainKey.Key := repeat x01 32 |}.

(* A chain key whose 32 key bytes are all zero. *)
Definition sample_zeroChainKey : chainKey.t :=
  {| chainKey.Index := 7; chainKey.Key := repeat x00 32 |}.

Definition sample_receiverChain : receiverChain.t :=
  {| receiverChain.RKey := repeat x01 32;
     receiverChain.CKey :=
       {| chainKey.Index := 7; chainKey.Key := repeat x02 32 |} |}.

Definition sample_messageKey : messageKey.t :=
  {| messageKey.Index := 7; messageKey.Key := repeat x03 32 |}.

Definition sample_skippedMessageKey : skippedMessageKey.t :=
  {| skippedMessageKey.RKey := repeat x01 32;
     skippedMessageKey.MKey := sample_messageKey |}.

Definition sample_shortMessageKey : messageKey.t :=
  {| messageKey.Index := 258; messageKey.Key := [x0a; x0b] |}.

(* A key pair as its public and private halves, each unpickled as 32 bytes. *)
Definition sample_KeyPair : Type := (list byte * list byte)%type.

Definition sample_KeyPair_PickleLibOlm (c : sample_KeyPair)
    (target : list byte) : list byte * result nat :=
  if (length target <? 64)%nat then (target, Err ErrValueTooShort)
  else (keyMaterial (fst c) ++ keyMaterial (snd c) ++ skipn 64 target,
        Ok 64%nat).

Definition sample_KeyPair_UnpickleLibOlm (c : sample_KeyPair)
    (value : list byte) : sample_KeyPair * result nat :=
  if (length value <? 64)%nat then (c, Err ErrValueTooShort)
  else ((firstn 32 value, firstn 32 (skipn 32 value)), Ok 64%nat).

Definition sample_senderChain : senderChain.t sample_KeyPair :=
  {| senderChain.RKey := (repeat x01 32, repeat x02 32);
     senderChain.CKey := sample_chainKey;
     senderChain.IsSet := true |}.

Module keybackup_samples.
Import keybackup.
Open Scope string_scope.

Fixpoint splitColon (s : string) : option (string * string) :=
  match s with
  | EmptyString => None
  | String c rest =>
      if (c =? ":")%char then Some ("", rest)
      else match splitColon rest with
           | Some (a, b) => Some (String c a, b)
           | None => None
           end
  end.

Definition sample_Parse (keyID : KeyID) : KeyAlgorithm * string :=
  match splitColon keyID with
  | Some (alg, name) => if name =? "" then ("", "") else (alg, name)
  | None => ("", "")
  end.

Definition sample_user : UserID := "@alice:example.org".

Definition sample_device (name : DeviceID) : Device :=
  {| DeviceUserID := sample_user; DeviceDeviceID := name;
     IdentityKey := "curve-" ++ name; SigningKey := "ed-" ++ name |}.

(* A machine whose server answers are fixed: [latest] for the backup version,
   [payload] for the backup itself, each entry carrying what decrypting it
   gives.  The device PHONE is known and trusted, LAPTOP is known and not
   trusted, the lookup of BROKEN fails in the store, no other device is
   known; a signature is valid when it reads "signed by <key>"; a session
   key imports to the session whose ID it spells; the room !full cannot be
   stored. *)
Definition sampleMachine (latest : RespRoomKeysVersion + error)
    (payload :
       list (RoomID * list (SessionID * (MegolmSessionData + error))) + error)
  : Machine :=
  {| World := list InboundGroupSession;
     MegolmBackupKey := list byte;
     EncryptedSessionData := (MegolmSessionData + error)%type;
     Client_UserID := sample_user;
     GetKeyBackupLatestVersion := fun _ => latest;
     GetKeyBackup := fun _ _ => payload;
     PublicKeyBytes := fun k => k;
     EncodeToString := string_of_list_byte;
     Parse := sample_Parse;
     Decrypt := fun d _ => d;
     GetOwnCrossSigningPublicKeys := fun _ =>
       Some {| MasterKey := "MASTER"; SelfSigningKey := "SELF";
               UserSigningKey := "USER" |};
     GetDevice := fun _ _ name =>
       if name =? "BROKEN" then inr (ErrorString "database is closed")
       else if (name =? "PHONE") || (name =? "LAPTOP")
       then inl (Some (sample_device name))
       else inl None;
     IsDeviceTrusted := fun _ d => DeviceDeviceID d =? "PHONE";
     PutGroupSession := fun w igs =>
       if igs_RoomID igs =? "!full"
       then (w, Some (ErrorString "disk full"))
       else (igs :: w, None);
     VerifySignatureJSON := fun auth user keyName key =>
       (match lookup user (Signatures auth) with
        | Some sigs =>
            match lookup ("ed25519:" ++ keyName) sigs with
            | Some sig => sig =? "signed by " ++ key
            | None => false
            end
        | None => false
        end, None);
     InboundGroupSessionImport := fun sessionKey =>
       if sessionKey =? "" then inr (ErrorString "invalid session key")
       else inl {| ID := sessionKey; FirstKnownIndex := 0 |};
     GetEncryptionEvent := fun _ _ => inl None;
     Now := fun _ => 0%Z;
     markSessionReceived := fun w _ _ _ => w |}.

Definition sample_version (publicKey : Ed25519)
    (signatures : list (KeyID * string)) : RespRoomKeysVersion :=
  {| Algorithm := KeyBackupAlgorithmMegolmBackupV1;
     AuthData := {| PublicKey := publicKey;
                    Signatures := [(sample_user, signatures)] |};
     Count := 1; ETag := "1"; Version := "1" |}.

Definition sample_session (algorithm : string) (sessionKey : string)
  : MegolmSessionData :=
  {| SessionAlgorithm := algorithm;
     ForwardingKeyChain := [];
     SenderClaimedKeysEd25519 := "ed-PHONE";
     SenderKey := "curve-PHONE";
     SessionKey := sessionKey |}.

(* The master key has signed this version. *)
Definition master_signed_version : RespRoomKeysVersion :=
  sample_version "backup-public-key"
    [("ed25519:MASTER", "signed by MASTER")].

(* Entries the loop passes over, then a valid signature of the trusted
   device PHONE, then the device whose lookup fails. *)
Definition mixed_signatures : list (KeyID * string) :=
  [("curve25519:X", "s"); ("ed25519:GHOST", "s"); ("ed25519:LAPTOP", "s");
   ("ed25519:PHONE", "signed by ed-PHONE"); ("ed25519:BROKEN", "x")].

Definition mixed_version : RespRoomKeysVersion :=
  sample_version "backup-public-key" mixed_signatures.

(* The backup key is the public key of the recovery key [x01]; nobody has
   signed the version. *)
Definition key_matching_version : RespRoomKeysVersion :=
  sample_version (string_of_list_byte [x01]) [].

(* The only signature is by the device whose lookup fails in the store. *)
Definition broken_version : RespRoomKeysVersion :=
  sample_version "backup-public-key" [("ed25519:BROKEN", "x")].

(* Five sessions in two rooms: s2 does not decrypt, s3 spells another
   session ID than claimed, s4 has another algorithm. *)
Definition sample_payload
  : list (RoomID * list (SessionID * (MegolmSessionData + error))) :=
  [("!a", [("s1", inl (sample_session AlgorithmMegolmV1 "s1"));
           ("s2", inr (ErrorString "bad MAC"))]);
   ("!b", [("s3", inl (sample_session AlgorithmMegolmV1 "other"));
           ("s4", inl (sample_session "m.weird" "s4"));
           ("s5", inl (sample_session AlgorithmMegolmV1 "s5"))])].

Definition machine_of (latest : RespRoomKeysVersion) : Machine :=
  sampleMachine (inl latest) (inl sample_payload).

(* The machine of [mixed_version] in which every room has an encryption
   event with the rotation settings [config]. *)
Definition rotatingMachine (config : EncryptionEventContent) : Machine :=
  let m := machine_of mixed_version in
  {| World := @World m;
     MegolmBackupKey := @MegolmBackupKey m;
     EncryptedSessionData := @EncryptedSessionData m;
     Client_UserID := @Client_UserID m;
     GetKeyBackupLatestVersion := @GetKeyBackupLatestVersion m;
     GetKeyBackup := @GetKeyBackup m;
     PublicKeyBytes := @PublicKeyBytes m;
     EncodeToString := @EncodeToString m;
     Parse := @Parse m;
     Decrypt := @Decrypt m;
     GetOwnCrossSigningPublicKeys := @GetOwnCrossSigningPublicKeys m;
     GetDevice := @GetDevice m;
     IsDeviceTrusted := @IsDeviceTrusted m;
     PutGroupSession := @PutGroupSession m;
     VerifySignatureJSON := @VerifySignatureJSON m;
     InboundGroupSessionImport := @InboundGroupSessionImport m;
     GetEncryptionEvent := fun _ _ => inl (Some config);
     Now := @Now m;
     markSessionReceived := @markSessionReceived m |}.

Definition sample_crossSigning : CrossSigningPublicKeysCache :=
  {| MasterKey := "MASTER"; SelfSigningKey := "SELF";
     UserSigningKey := "USER" |}.

End keybackup_samples.

(** * Properties of the pickle codec *)

Section PickleFacts.

Import libolmpickle.

Lemma Z_of_byte_of_Z (z : Z) : Z_of_byte (byte_of_Z z) = z mod 256.
Proof.
  unfold Z_of_byte, byte_of_Z.
  assert (Hr : 0 <= z mod 256 < 256) by (apply Z.mod_pos_bound; lia).
  destruct (Byte.of_N (Z.to_N (z mod 256))) as [b|] eqn:E.
  - apply Byte.to_of_N in E. rewrite E. lia.
  - apply Byte.of_N_None_iff in E. lia.
Qed.

Lemma be32_decode_encode (v : Z) (rest : list byte) :
  0 <= v < 2 ^ 32 -> be32_decode (be32_encode v ++ rest) = v.
Proof.
  intros Hv. unfold be32_encode, be32_decode. cbn [app].
  rewrite !Z_of_byte_of_Z.
  change (2 ^ 24) with 16777216. change (2 ^ 16) with 65536.
  change (2 ^ 8) with 256. change (2 ^ 32) with 4294967296 in Hv.
  Z.to_euclidean_division_equations. lia.
Qed.

Lemma length_be32_encode (v : Z) : length (be32_encode v) = 4%nat.
Proof. reflexivity. Qed.

Lemma copy_fits (dst src : list byte) :
  (length src <= length dst)%nat ->
  copy dst src = (src ++ skipn (length src) dst, length src).
Proof.
  intros H. unfold copy. rewrite Nat.min_r by exact H.
  now rewrite firstn_all.
Qed.

Lemma length_make (n : nat) : length (make n) = n.
Proof. apply repeat_length. Qed.

End PickleFacts.

Section PickleLayout.

Import libolmpickle.

Lemma length_keyMaterial (c : list byte) : length (keyMaterial c) = 32%nat.
Proof.
  unfold keyMaterial. destruct (Nat.eqb_spec (length c) 32) as [H|H].
  - exact H.
  - apply length_make.
Qed.

Lemma keyMaterial_fixed (c : list byte) :
  length c = 32%nat -> keyMaterial c = c.
Proof. intros H. unfold keyMaterial. now rewrite H. Qed.

Lemma keyMaterial_placeholder (c : list byte) :
  length c <> 32%nat -> keyMaterial c = repeat x00 32.
Proof.
  intros H. unfold keyMaterial.
  destruct (Nat.eqb_spec (length c) 32); [contradiction | reflexivity].
Qed.

Lemma PickleBytes_keyMaterial (c target : list byte) :
  (32 <= length target)%nat ->
  (if negb (length c =? 32)%nat
   then PickleBytes (make 32) target
   else PickleBytes c target)
  = (keyMaterial c ++ skipn 32 target, 32%nat).
Proof.
  intros Ht. unfold keyMaterial, PickleBytes.
  destruct (Nat.eqb_spec (length c) 32) as [H|H]; cbn [negb].
  - rewrite copy_fits by lia. now rewrite H.
  - rewrite copy_fits by (rewrite length_make; lia).
    now rewrite length_make.
Qed.

Lemma PublicKey_PickleLibOlm_layout (c target : list byte) :
  (32 <= length target)%nat ->
  Curve25519PublicKey.PickleLibOlm c target
  = (keyMaterial c ++ skipn 32 target, Ok 32%nat).
Proof.
  intros Ht. unfold Curve25519PublicKey.PickleLibOlm.
  change Curve25519PublicKey.Curve25519PubKeyLength with 32%nat.
  destruct (Nat.ltb_spec (length target) 32) as [H|_]; [lia|].
  pose proof (PickleBytes_keyMaterial c target Ht) as E.
  destruct (negb (length c =? 32)%nat); now rewrite E.
Qed.

Lemma PublicKey_UnpickleLibOlm_short (c value : list byte) :
  (length value < 32)%nat ->
  Curve25519PublicKey.UnpickleLibOlm c value
  = (c, Err (Errorf "unpickle bytes: " ErrValueTooShort)).
Proof.
  intros H. unfold Curve25519PublicKey.UnpickleLibOlm, UnpickleBytes.
  change Curve25519PublicKey.Curve25519PubKeyLength with 32%nat.
  destruct (Nat.ltb_spec (length value) 32); [reflexivity | lia].
Qed.

Lemma UnpickleBytes_long (value : list byte) (n : nat) :
  (n <= length value)%nat ->
  UnpickleBytes value n = (decodedKey (firstn n value), n, None).
Proof.
  intros H. unfold UnpickleBytes, decodedKey.
  destruct (Nat.ltb_spec (length value) n); [lia|].
  cbv zeta. now destruct (isZeroByteSlice (firstn n value)).
Qed.

Lemma PublicKey_UnpickleLibOlm_long (c value : list byte) :
  (32 <= length value)%nat ->
  Curve25519PublicKey.UnpickleLibOlm c value
  = (decodedKey (firstn 32 value), Ok 32%nat).
Proof.
  intros H. unfold Curve25519PublicKey.UnpickleLibOlm.
  change Curve25519PublicKey.Curve25519PubKeyLength with 32%nat.
  now rewrite UnpickleBytes_long by exact H.
Qed.

Lemma PickleUInt32_layout (v : Z) (target : list byte) :
  (4 <= length target)%nat ->
  PickleUInt32 v target = Some (be32_encode v ++ skipn 4 target, 4%nat).
Proof.
  intros H. unfold PickleUInt32. change PickleUInt32Length with 4%nat.
  destruct (Nat.ltb_spec (length target) 4); [lia | reflexivity].
Qed.

Lemma slice_from_fits (n : nat) (s : list byte) :
  (n <= length s)%nat -> slice_from n s = Some (skipn n s).
Proof.
  intros H. unfold slice_from.
  destruct (Nat.leb_spec n (length s)); [reflexivity | lia].
Qed.

Lemma slice_to_fits (n : nat) (s : list byte) :
  (n <= length s)%nat -> slice_to n s = Some (firstn n s).
Proof.
  intros H. unfold slice_to.
  destruct (Nat.leb_spec n (length s)); [reflexivity | lia].
Qed.

Lemma firstn_app_exact (n : nat) (k rest : list byte) :
  length k = n -> firstn n (k ++ rest) = k.
Proof.
  intros <-. rewrite firstn_app, Nat.sub_diag, firstn_O, app_nil_r.
  apply firstn_all.
Qed.

Lemma skipn_app_exact (n : nat) (k rest : list byte) :
  length k = n -> skipn n (k ++ rest) = rest.
Proof.
  intros <-. rewrite skipn_app, Nat.sub_diag, skipn_all. reflexivity.
Qed.

Lemma firstn_keyMaterial_app (c rest : list byte) :
  firstn 32 (keyMaterial c ++ rest) = keyMaterial c.
Proof. apply firstn_app_exact, length_keyMaterial. Qed.

Lemma skipn_keyMaterial_app (c rest : list byte) :
  skipn 32 (keyMaterial c ++ rest) = rest.
Proof. apply skipn_app_exact, length_keyMaterial. Qed.

(** What chainKey.PickleLibOlm leaves in a target that is long enough. *)
Lemma chainKey_PickleLibOlm_layout (r : chainKey.t) (target : list byte) :
  (36 <= length target)%nat ->
  chainKey.PickleLibOlm r target
  = (keyMaterial (chainKey.Key r) ++ be32_encode (chainKey.Index r)
     ++ skipn 36 target, Ok 36%nat).
Proof.
  intros Ht. unfold chainKey.PickleLibOlm.
  change chainKey.chainKeyPickleLength with 36%nat.
  destruct (Nat.ltb_spec (length target) 36) as [H|_]; [lia|].
  rewrite PublicKey_PickleLibOlm_layout by lia.
  unfold on_suffix.
  rewrite slice_from_fits
    by (rewrite length_app, length_keyMaterial; lia).
  rewrite skipn_keyMaterial_app, firstn_keyMaterial_app.
  rewrite PickleUInt32_layout by (rewrite length_skipn; lia).
  rewrite skipn_skipn. reflexivity.
Qed.

(** What messageKey.PickleLibOlm leaves in a target that is long enough. *)
Lemma messageKey_PickleLibOlm_layout (m : messageKey.t) (target : list byte) :
  (36 <= length target)%nat ->
  messageKey.PickleLibOlm m target
  = (keyMaterial (messageKey.Key m) ++ be32_encode (messageKey.Index m)
     ++ skipn 36 target, Ok 36%nat).
Proof.
  intros Ht. unfold messageKey.PickleLibOlm.
  change messageKey.messageKeyPickleLength with 36%nat.
  change messageKeyLength with 32%nat.
  destruct (Nat.ltb_spec (length target) 36) as [H|_]; [lia|].
  rewrite PickleBytes_keyMaterial by lia.
  unfold on_suffix. cbn [Nat.add].
  rewrite slice_from_fits
    by (rewrite length_app, length_keyMaterial; lia).
  rewrite skipn_keyMaterial_app, firstn_keyMaterial_app.
  rewrite PickleUInt32_layout by (rewrite length_skipn; lia).
  rewrite skipn_skipn. reflexivity.
Qed.

End PickleLayout.

Section PickleRoundTrip.

Import libolmpickle.

Lemma UnpickleUInt32_encoded (v : Z) (rest : list byte) :
  0 <= v < 2 ^ 32 ->
  UnpickleUInt32 (be32_encode v ++ rest) = (v, 4%nat, None).
Proof.
  intros Hv. unfold UnpickleUInt32.
  destruct (Nat.ltb_spec (length (be32_encode v ++ rest)) PickleUInt32Length)
    as [H|_].
  - rewrite length_app, length_be32_encode in H.
    change PickleUInt32Length with 4%nat in H. lia.
  - now rewrite be32_decode_encode.
Qed.

Lemma UnpickleUInt32_short (value : list byte) :
  (length value < 4)%nat ->
  UnpickleUInt32 value
  = (0, 0%nat, Some (Errorf "unpickle uint32: " ErrValueTooShort)).
Proof.
  intros H. unfold UnpickleUInt32. change PickleUInt32Length with 4%nat.
  destruct (Nat.ltb_spec (length value) 4); [reflexivity | lia].
Qed.

Lemma UnpickleUInt32_long (value : list byte) :
  (4 <= length value)%nat ->
  UnpickleUInt32 value = (be32_decode value, 4%nat, None).
Proof.
  intros H. unfold UnpickleUInt32. change PickleUInt32Length with 4%nat.
  destruct (Nat.ltb_spec (length value) 4); [lia | reflexivity].
Qed.

Lemma decodedKey_set (k : list byte) :
  isZeroByteSlice k = false -> decodedKey k = k.
Proof. intros H. unfold decodedKey. now rewrite H. Qed.

Lemma decodedKey_unset (k : list byte) :
  isZeroByteSlice k = true -> decodedKey k = [].
Proof. intros H. unfold decodedKey. now rewrite H. Qed.

(** Decoding the layout [key ++ index ++ rest] gives the index back, and
    the key as it is read back. *)
Lemma chainKey_UnpickleLibOlm_layout (r0 : chainKey.t) (key : list byte)
    (index : Z) (rest : list byte) :
  length key = 32%nat -> 0 <= index < 2 ^ 32 ->
  chainKey.UnpickleLibOlm r0 (key ++ be32_encode index ++ rest)
  = ({| chainKey.Index := index; chainKey.Key := decodedKey key |},
     Ok 36%nat).
Proof.
  intros Hk Hi. unfold chainKey.UnpickleLibOlm.
  rewrite PublicKey_UnpickleLibOlm_long by (rewrite length_app; lia).
  rewrite firstn_app_exact by exact Hk.
  cbn [Nat.add].
  rewrite slice_from_fits by (rewrite length_app; lia).
  rewrite skipn_app_exact by exact Hk.
  rewrite UnpickleUInt32_encoded by exact Hi.
  reflexivity.
Qed.

End PickleRoundTrip.

(** C6, as stated, fails: a chain key whose 32 key bytes are all zero is
    pickled as 32 zero bytes and the index, and these bytes are read back as
    a chain key with no key at all. *)
Lemma chainKey_zero_key_not_restored :
  length (chainKey.Key sample_zeroChainKey) = 32%nat
  /\ 0 <= chainKey.Index sample_zeroChainKey < 2 ^ 32
  /\ chainKey.PickleLibOlm sample_zeroChainKey (repeat xff 36)
     = (repeat x00 32 ++ [x00; x00; x00; x07], Ok 36%nat)
  /\ chainKey.UnpickleLibOlm sample_chainKey
       (repeat x00 32 ++ [x00; x00; x00; x07])
     = ({| chainKey.Index := 7; chainKey.Key := [] |}, Ok 36%nat)
  /\ {| chainKey.Index := 7; chainKey.Key := [] |} <> sample_zeroChainKey.
Proof.
  split; [reflexivity|]. split; [simpl; lia|].
  split; [vm_compute; reflexivity|]. split; [vm_compute; reflexivity|].
  discriminate.
Qed.

(** C6, amended.  For every chain key with a 32-byte key and a uint32 index,
    and every target of at least [chainKeyPickleLength] bytes,
    [PickleLibOlm] succeeds and writes exactly 36 bytes, the 32 bytes of the
    key followed by the 4 bytes of the index, leaving the rest of the target
    as it was.  [UnpickleLibOlm], applied to the target or to just those 36
    bytes, reports 36 bytes and returns the original chain key when its key
    is not all zero, whatever the receiver held before; a key that is all
    zero comes back as nil, next to the original index. *)
Theorem chainKey_pickle_roundtrip (r : chainKey.t) (target : list byte) :
  length (chainKey.Key r) = 32%nat ->
  0 <= chainKey.Index r < 2 ^ 32 ->
  (chainKey.chainKeyPickleLength <= length target)%nat ->
  chainKey.chainKeyPickleLength = 36%nat
  /\ exists pickled,
      chainKey.PickleLibOlm r target = (pickled, Ok 36%nat)
      /\ pickled
         = chainKey.Key r ++ libolmpickle.be32_encode (chainKey.Index r)
           ++ skipn 36 target
      /\ length pickled = length target
      /\ (libolmpickle.isZeroByteSlice (chainKey.Key r) = false ->
          forall r0,
            chainKey.UnpickleLibOlm r0 pickled = (r, Ok 36%nat)
            /\ chainKey.UnpickleLibOlm r0 (firstn 36 pickled)
               = (r, Ok 36%nat))
      /\ (libolmpickle.isZeroByteSlice (chainKey.Key r) = true ->
          forall r0,
            chainKey.UnpickleLibOlm r0 pickled
            = ({| chainKey.Index := chainKey.Index r; chainKey.Key := [] |},
               Ok 36%nat)
            /\ chainKey.UnpickleLibOlm r0 (firstn 36 pickled)
               = ({| chainKey.Index := chainKey.Index r;
                     chainKey.Key := [] |}, Ok 36%nat)).
Proof.
  intros Hk Hi Ht. split; [reflexivity|].
  change chainKey.chainKeyPickleLength with 36%nat in Ht.
  eexists. split; [apply chainKey_PickleLibOlm_layout; exact Ht|].
  rewrite keyMaterial_fixed by exact Hk.
  split; [reflexivity|].
  split; [rewrite !length_app, length_skipn, Hk, length_be32_encode; lia|].
  assert (F : firstn 36 (chainKey.Key r
                         ++ libolmpickle.be32_encode (chainKey.Index r)
                         ++ skipn 36 target)
              = chainKey.Key r
                ++ libolmpickle.be32_encode (chainKey.Index r) ++ []).
  { rewrite app_nil_r, app_assoc. apply firstn_app_exact.
    rewrite length_app, Hk, length_be32_encode. reflexivity. }
  rewrite F.
  split; intros Hz r0;
    rewrite !chainKey_UnpickleLibOlm_layout by assumption.
  - rewrite decodedKey_set by exact Hz. now destruct r.
  - rewrite decodedKey_unset by exact Hz. split; reflexivity.
Qed.

Lemma chainKey_pickle_roundtrip_witness :
  chainKey.chainKeyPickleLength = 36%nat
  /\ exists pickled,
      chainKey.PickleLibOlm sample_chainKey (repeat xff 40)
      = (pickled, Ok 36%nat)
      /\ pickled
         = chainKey.Key sample_chainKey
           ++ libolmpickle.be32_encode (chainKey.Index sample_chainKey)
           ++ skipn 36 (repeat xff 40)
      /\ length pickled = length (repeat xff 40)
      /\ (libolmpickle.isZeroByteSlice (chainKey.Key sample_chainKey) = false ->
          forall r0,
            chainKey.UnpickleLibOlm r0 pickled = (sample_chainKey, Ok 36%nat)
            /\ chainKey.UnpickleLibOlm r0 (firstn 36 pickled)
               = (sample_chainKey, Ok 36%nat))
      /\ (libolmpickle.isZeroByteSlice (chainKey.Key sample_chainKey) = true ->
          forall r0,
            chainKey.UnpickleLibOlm r0 pickled
            = ({| chainKey.Index := chainKey.Index sample_chainKey;
                  chainKey.Key := [] |}, Ok 36%nat)
            /\ chainKey.UnpickleLibOlm r0 (firstn 36 pickled)
               = ({| chainKey.Index := chainKey.Index sample_chainKey;
                     chainKey.Key := [] |}, Ok 36%nat)).
Proof.
  apply (chainKey_pickle_roundtrip sample_chainKey (repeat xff 40)).
  - reflexivity.
  - simpl. lia.
  - vm_compute. lia.
Defined.

(** C8.  For every message key whose [Key] is not exactly 32 bytes long and
    every target of at least [messageKeyPickleLength] bytes, [PickleLibOlm]
    succeeds with 36 bytes written: 32 zero bytes in place of the key
    material, then the 4 bytes of the index; the rest of the target is as it
    was. *)
Theorem messageKey_pickle_placeholder (m : messageKey.t) (target : list byte) :
  length (messageKey.Key m) <> messageKeyLength ->
  (messageKey.messageKeyPickleLength <= length target)%nat ->
  messageKey.PickleLibOlm m target
  = (repeat x00 32 ++ libolmpickle.be32_encode (messageKey.Index m)
     ++ skipn 36 target, Ok 36%nat).
Proof.
  intros Hk Ht.
  change messageKey.messageKeyPickleLength with 36%nat in Ht.
  rewrite messageKey_PickleLibOlm_layout by exact Ht.
  now rewrite keyMaterial_placeholder by exact Hk.
Qed.

Lemma messageKey_pickle_placeholder_witness :
  messageKey.PickleLibOlm sample_shortMessageKey (repeat xff 40)
  = (repeat x00 32
     ++ libolmpickle.be32_encode (messageKey.Index sample_shortMessageKey)
     ++ skipn 36 (repeat xff 40), Ok 36%nat).
Proof.
  apply (messageKey_pickle_placeholder sample_shortMessageKey (repeat xff 40)).
  - simpl. discriminate.
  - vm_compute. lia.
Defined.

Section Advance.

Variable HMACSHA256 : list byte -> list byte -> list byte.

Lemma wrap32_range (z : Z) : 0 <= wrap32 z < 2 ^ 32.
Proof. unfold wrap32. apply Z.mod_pos_bound. lia. Qed.

Lemma wrap32_twice_moves (i : Z) : wrap32 (wrap32 (i + 1) + 1) <> i.
Proof.
  unfold wrap32. change (2 ^ 32) with 4294967296. intros H.
  pose proof (Z.mod_pos_bound (i + 1) 4294967296 ltac:(lia)) as B1.
  pose proof (Z.mod_pos_bound ((i + 1) mod 4294967296 + 1) 4294967296
                ltac:(lia)) as B2.
  assert (Hi : 0 <= i < 4294967296) by lia.
  destruct (Z.eq_dec i 4294967295) as [->|N1].
  - vm_compute in H. discriminate.
  - rewrite (Z.mod_small (i + 1)) in H by lia.
    destruct (Z.eq_dec i 4294967294) as [->|N2].
    + vm_compute in H. discriminate.
    + rewrite Z.mod_small in H by lia. lia.
Qed.

(** C7.  [advance] replaces the key with the HMAC-SHA256 of the old key over
    the single byte 0x02 and adds one to the index, modulo 2^32; it is a
    total function of the chain key (no error result, equal states give
    equal states), and two advances leave an index different from the one
    they started from. *)
Theorem chainKey_advance_spec (c : chainKey.t) :
  chainKey.advance HMACSHA256 c
  = {| chainKey.Index := (chainKey.Index c + 1) mod 2 ^ 32;
       chainKey.Key := HMACSHA256 (chainKey.Key c) [x02] |}
  /\ (forall c', c' = c ->
        chainKey.advance HMACSHA256 c' = chainKey.advance HMACSHA256 c)
  /\ chainKey.Index
       (chainKey.advance HMACSHA256 (chainKey.advance HMACSHA256 c))
     <> chainKey.Index c.
Proof.
  split; [reflexivity|]. split; [now intros c' ->|].
  apply wrap32_twice_moves.
Qed.

(** C10.  Advancing a chain key whose index is 4294967295 leaves the index
    0; and for every index the result of [advance] is a chain key whose
    index is again a uint32: there is no error result. *)
Theorem chainKey_advance_wraps (key : list byte) :
  chainKey.advance HMACSHA256
    {| chainKey.Index := 4294967295; chainKey.Key := key |}
  = {| chainKey.Index := 0; chainKey.Key := HMACSHA256 key [x02] |}
  /\ forall c, 0 <= chainKey.Index (chainKey.advance HMACSHA256 c) < 2 ^ 32.
Proof.
  split; [reflexivity|]. intros c. cbn. apply wrap32_range.
Qed.

End Advance.

Section CompositePickles.

Import libolmpickle.

Lemma skipn_past_key (n : nat) (k rest : list byte) :
  length k = 32%nat -> skipn (32 + n) (k ++ rest) = skipn n rest.
Proof.
  intros Hk. rewrite skipn_app, Hk.
  rewrite skipn_all2 by lia.
  now replace (32 + n - 32)%nat with n by lia.
Qed.

(** receiverChain.PickleLibOlm pickles the chain key over the ratchet key:
    the target starts with the chain key's 36 bytes, nothing is written
    behind them, and 68 is returned. *)
Lemma receiverChain_PickleLibOlm_layout (r : receiverChain.t)
    (target : list byte) :
  (68 <= length target)%nat ->
  receiverChain.PickleLibOlm r target
  = (keyMaterial (chainKey.Key (receiverChain.CKey r))
     ++ be32_encode (chainKey.Index (receiverChain.CKey r))
     ++ skipn 36 target, Ok 68%nat).
Proof.
  intros Ht. unfold receiverChain.PickleLibOlm.
  change receiverChain.receiverChainPickleLength with 68%nat.
  destruct (Nat.ltb_spec (length target) 68) as [H|_]; [lia|].
  rewrite PublicKey_PickleLibOlm_layout by lia.
  rewrite chainKey_PickleLibOlm_layout
    by (rewrite length_app, length_keyMaterial, length_skipn; lia).
  rewrite (skipn_past_key 4) by apply length_keyMaterial.
  rewrite skipn_skipn. reflexivity.
Qed.

(** skippedMessageKey.PickleLibOlm does the same with the message key. *)
Lemma skippedMessageKey_PickleLibOlm_layout (r : skippedMessageKey.t)
    (target : list byte) :
  (68 <= length target)%nat ->
  skippedMessageKey.PickleLibOlm r target
  = (keyMaterial (messageKey.Key (skippedMessageKey.MKey r))
     ++ be32_encode (messageKey.Index (skippedMessageKey.MKey r))
     ++ skipn 36 target, Ok 68%nat).
Proof.
  intros Ht. unfold skippedMessageKey.PickleLibOlm.
  change skippedMessageKey.skippedMessageKeyPickleLen with 68%nat.
  destruct (Nat.ltb_spec (length target) 68) as [H|_]; [lia|].
  rewrite PublicKey_PickleLibOlm_layout by lia.
  rewrite messageKey_PickleLibOlm_layout
    by (rewrite length_app, length_keyMaterial, length_skipn; lia).
  rewrite (skipn_past_key 4) by apply length_keyMaterial.
  rewrite skipn_skipn. reflexivity.
Qed.

(** messageKey.UnpickleLibOlm takes the index from the first four bytes of
    the key, and reports 36 bytes read whatever follows the key. *)
Lemma messageKey_UnpickleLibOlm_index (m : messageKey.t) (value : list byte) :
  (32 <= length value)%nat ->
  messageKey.UnpickleLibOlm m value
  = ({| messageKey.Index := be32_decode value;
        messageKey.Key := decodedKey (firstn 32 value) |}, Ok 36%nat).
Proof.
  intros Hv. unfold messageKey.UnpickleLibOlm.
  change messageKeyLength with 32%nat.
  rewrite UnpickleBytes_long by exact Hv.
  cbn [Nat.add]. rewrite slice_to_fits by exact Hv.
  rewrite UnpickleUInt32_long by (rewrite length_firstn; lia).
  cbn [messageKey.Key].
  do 4 (destruct value as [|? value]; [cbn in Hv; lia|]).
  reflexivity.
Qed.

End CompositePickles.

(** C1.  The pickles of sample values, each into a target of exactly the
    declared length filled with 0xff.  The receiver chain and the skipped
    message key leave the 36 bytes of their second field at the front of the
    target, over the ratchet key, and the 32 bytes behind untouched, while
    they return 68: the target is not the first field's bytes followed by
    the second field's.  Unpickling gives back another value.  The message
    key is pickled as declared, but unpickled with the index taken from the
    first four bytes of the key. *)
Theorem composite_pickles_at_samples :
  receiverChain.PickleLibOlm sample_receiverChain (repeat xff 68)
  = (repeat x02 32 ++ [x00; x00; x00; x07] ++ repeat xff 32, Ok 68%nat)
  /\ repeat x02 32 ++ [x00; x00; x00; x07] ++ repeat xff 32
     <> receiverChain.RKey sample_receiverChain
        ++ (chainKey.Key (receiverChain.CKey sample_receiverChain)
            ++ libolmpickle.be32_encode
                 (chainKey.Index (receiverChain.CKey sample_receiverChain)))
  /\ fst (receiverChain.UnpickleLibOlm sample_receiverChain
            (repeat x02 32 ++ [x00; x00; x00; x07] ++ repeat xff 32))
     = {| receiverChain.RKey := repeat x02 32;
          receiverChain.CKey :=
            {| chainKey.Index := 4294967295;
               chainKey.Key := [x00; x00; x00; x07] ++ repeat xff 28 |} |}
  /\ skippedMessageKey.PickleLibOlm sample_skippedMessageKey (repeat xff 68)
     = (repeat x03 32 ++ [x00; x00; x00; x07] ++ repeat xff 32, Ok 68%nat)
  /\ fst (skippedMessageKey.UnpickleLibOlm sample_skippedMessageKey
            (repeat x03 32 ++ [x00; x00; x00; x07] ++ repeat xff 32))
     <> sample_skippedMessageKey
  /\ messageKey.PickleLibOlm sample_messageKey (repeat xff 36)
     = (repeat x03 32 ++ [x00; x00; x00; x07], Ok 36%nat)
  /\ messageKey.UnpickleLibOlm sample_messageKey
       (repeat x03 32 ++ [x00; x00; x00; x07])
     = ({| messageKey.Index := 50529027; messageKey.Key := repeat x03 32 |},
        Ok 36%nat).
Proof.
  repeat split; try (vm_compute; reflexivity);
    vm_compute; intros H; discriminate H.
Qed.

(** C9, as stated, fails: a buffer of 33 bytes holds the key and not the
    index; the chain key's decoder returns an error and has replaced the
    receiver's key by then. *)
Lemma chainKey_unpickle_error_modifies_receiver :
  ~ (forall (r r' : chainKey.t) (value : list byte) (e : error),
       chainKey.UnpickleLibOlm r value = (r', Err e) -> r' = r).
Proof.
  intros H.
  specialize (H sample_chainKey
                {| chainKey.Index := 0; chainKey.Key := repeat xff 32 |}
                (repeat xff 33)
                (Errorf "unpickle uint32: " ErrValueTooShort)).
  specialize (H eq_refl). vm_compute in H. discriminate H.
Qed.

(** C9, amended.  An error of chainKey.UnpickleLibOlm wraps the
    value-too-short error.  With fewer than 32 bytes in the buffer it is the
    error of the key's bytes and the receiver is as it was; with the key
    present and the index truncated it is the error of the counter, and the
    receiver's key is already the key decoded: the 32 bytes read, or nil
    when they are all zero.  For senderChain.UnpickleLibOlm: when the key
    pair's decoder fails, the chain key and the flag are as they were and
    the ratchet key is what that decoder left; when the chain key's decoder
    fails after it, the ratchet key is already the decoded pair, the flag is
    as it was, and the chain key is as the first part says. *)
Theorem unpickle_error_keeps_decoded_fields :
  (forall (r r' : chainKey.t) (value : list byte) (e : error),
      chainKey.UnpickleLibOlm r value = (r', Err e) ->
      (length value < 32)%nat
      /\ e = Errorf "unpickle bytes: " ErrValueTooShort /\ r' = r
      \/ (32 <= length value < 36)%nat
         /\ e = Errorf "unpickle uint32: " ErrValueTooShort
         /\ chainKey.Key r' = decodedKey (firstn 32 value))
  /\ (forall (KeyPair : Type)
        (KeyPair_UnpickleLibOlm :
           KeyPair -> list byte -> KeyPair * result nat)
        (r r' : senderChain.t KeyPair) (value : list byte) (e : error),
        senderChain.UnpickleLibOlm KeyPair KeyPair_UnpickleLibOlm r value
        = (r', Err e) ->
        senderChain.IsSet _ r' = senderChain.IsSet _ r
        /\ (KeyPair_UnpickleLibOlm (senderChain.RKey _ r) value
            = (senderChain.RKey _ r', Err e)
            /\ senderChain.CKey _ r' = senderChain.CKey _ r
            \/ exists n,
              KeyPair_UnpickleLibOlm (senderChain.RKey _ r) value
              = (senderChain.RKey _ r', Ok n)
              /\ (n <= length value)%nat
              /\ chainKey.UnpickleLibOlm (senderChain.CKey _ r) (skipn n value)
                 = (senderChain.CKey _ r', Err e))).
Proof.
  split.
  - intros r r' value e. unfold chainKey.UnpickleLibOlm.
    destruct (Nat.lt_ge_cases (length value) 32) as [Hs|Hl].
    + rewrite PublicKey_UnpickleLibOlm_short by exact Hs.
      intros H. injection H as <- <-.
      left. split; [exact Hs|]. split; [reflexivity | now destruct r].
    + rewrite PublicKey_UnpickleLibOlm_long by exact Hl.
      cbn [Nat.add]. rewrite slice_from_fits by exact Hl.
      destruct (Nat.lt_ge_cases (length (skipn 32 value)) 4) as [Hs|Hl'].
      * rewrite UnpickleUInt32_short by exact Hs.
        intros H. injection H as <- <-.
        right. rewrite length_skipn in Hs.
        split; [lia|]. split; reflexivity.
      * rewrite UnpickleUInt32_long by exact Hl'. discriminate.
  - intros KeyPair kpU r r' value e. unfold senderChain.UnpickleLibOlm.
    destruct (kpU (senderChain.RKey _ r) value) as [rkey [n|e0|]] eqn:Ekp.
    + cbn [Nat.add]. unfold slice_from.
      destruct (Nat.leb_spec n (length value)) as [Hn|Hn]; [|discriminate].
      cbn [senderChain.CKey senderChain.RKey senderChain.IsSet].
      destruct (chainKey.UnpickleLibOlm (senderChain.CKey _ r) (skipn n value))
        as [ckey [m|e1|]] eqn:Eck; try discriminate.
      intros H. injection H as <- <-. cbn. split; [reflexivity|].
      right. exists n. split; [reflexivity|]. split; [exact Hn | exact Eck].
    + intros H. injection H as <- <-. cbn. split; [reflexivity|].
      left. split; reflexivity.
    + discriminate.
Qed.

Lemma unpickle_error_keeps_decoded_fields_witness :
  (length (repeat xff 33) < 32)%nat
  /\ Errorf "unpickle uint32: " ErrValueTooShort
     = Errorf "unpickle bytes: " ErrValueTooShort
  /\ {| chainKey.Index := 0; chainKey.Key := repeat xff 32 |}
     = sample_chainKey
  \/ (32 <= length (repeat xff 33) < 36)%nat
     /\ Errorf "unpickle uint32: " ErrValueTooShort
        = Errorf "unpickle uint32: " ErrValueTooShort
     /\ chainKey.Key {| chainKey.Index := 0; chainKey.Key := repeat xff 32 |}
        = decodedKey (firstn 32 (repeat xff 33)).
Proof.
  apply (proj1 unpickle_error_keeps_decoded_fields sample_chainKey
           {| chainKey.Index := 0; chainKey.Key := repeat xff 32 |}
           (repeat xff 33) (Errorf "unpickle uint32: " ErrValueTooShort)).
  reflexivity.
Defined.

(** * Properties of the key-backup trust check and import *)

Section KeyBackupTrust.

Import keybackup.
Open Scope string_scope.
Context {mach : Machine}.

Variable w : World.
Variable versionInfo : RespRoomKeysVersion.
Variable crossSigningPubkeys : CrossSigningPublicKeysCache.

Lemma verifyLoop_all_continue (sigs : list (KeyID * string)) :
  Forall (fun e =>
            fst (verifyBody w versionInfo crossSigningPubkeys (fst e))
            = Continue) sigs ->
  fst (verifyLoop w versionInfo crossSigningPubkeys sigs) = Done false.
Proof.
  induction 1 as [|[keyID sg] rest Hc _ IH]; [reflexivity|].
  cbn [verifyLoop]. cbn [fst] in Hc.
  destruct (verifyBody w versionInfo crossSigningPubkeys keyID) as [c evs].
  cbn [fst] in Hc. subst c.
  destruct (verifyLoop w versionInfo crossSigningPubkeys rest) as [p evs'].
  exact IH.
Qed.

Lemma verifyLoop_first_break (pre post : list (KeyID * string))
    (e : KeyID * string) :
  Forall (fun e =>
            fst (verifyBody w versionInfo crossSigningPubkeys (fst e))
            = Continue) pre ->
  fst (verifyBody w versionInfo crossSigningPubkeys (fst e)) = Break ->
  fst (verifyLoop w versionInfo crossSigningPubkeys (pre ++ e :: post))
  = Done true
  /\ verifyLoop w versionInfo crossSigningPubkeys (pre ++ e :: post)
     = verifyLoop w versionInfo crossSigningPubkeys (pre ++ [e]).
Proof.
  intros Hpre He.
  induction Hpre as [|[keyID sg] rest Hc _ IH].
  - destruct e as [keyID sg]. cbn [fst] in He.
    cbn [app verifyLoop].
    destruct (verifyBody w versionInfo crossSigningPubkeys keyID) as [c evs].
    cbn [fst] in He. subst c. split; reflexivity.
  - cbn [fst] in Hc.
    rewrite <- !app_comm_cons. cbn [verifyLoop].
    destruct (verifyBody w versionInfo crossSigningPubkeys keyID) as [c evs].
    cbn [fst] in Hc. subst c.
    destruct IH as [IH1 IH2]. rewrite IH2.
    destruct (verifyLoop w versionInfo crossSigningPubkeys (rest ++ [e]))
      as [p evs'] eqn:E.
    rewrite IH2 in IH1. cbn [fst] in IH1. subst p. split; reflexivity.
Qed.

Lemma verifyLoop_first_return (pre post : list (KeyID * string))
    (e : KeyID * string) (err : error) :
  Forall (fun e =>
            fst (verifyBody w versionInfo crossSigningPubkeys (fst e))
            = Continue) pre ->
  fst (verifyBody w versionInfo crossSigningPubkeys (fst e)) = ReturnErr err ->
  fst (verifyLoop w versionInfo crossSigningPubkeys (pre ++ e :: post))
  = Return err.
Proof.
  intros Hpre He.
  induction Hpre as [|[keyID sg] rest Hc _ IH].
  - destruct e as [keyID sg]. cbn [fst] in He.
    cbn [app verifyLoop].
    destruct (verifyBody w versionInfo crossSigningPubkeys keyID) as [c evs].
    cbn [fst] in He. subst c. reflexivity.
  - cbn [fst] in Hc.
    rewrite <- !app_comm_cons. cbn [verifyLoop].
    destruct (verifyBody w versionInfo crossSigningPubkeys keyID) as [c evs].
    cbn [fst] in Hc. subst c.
    destruct (verifyLoop w versionInfo crossSigningPubkeys
                (rest ++ e :: post)) as [p evs'].
    exact IH.
Qed.

(** What GetAndVerifyLatestKeyBackupVersion returns once the recovery key
    did not match and the signature loop is entered. *)
Lemma GetAndVerify_by_loop (key : MegolmBackupKey)
    (sigs : list (KeyID * string)) :
  GetKeyBackupLatestVersion w = inl versionInfo ->
  Algorithm versionInfo = KeyBackupAlgorithmMegolmBackupV1 ->
  PublicKey (AuthData versionInfo) <> EncodeToString (PublicKeyBytes key) ->
  lookup Client_UserID (Signatures (AuthData versionInfo)) = Some sigs ->
  GetOwnCrossSigningPublicKeys w = Some crossSigningPubkeys ->
  fst (GetAndVerifyLatestKeyBackupVersion w (Some key))
  = match fst (verifyLoop w versionInfo crossSigningPubkeys sigs) with
    | Return err => Err err
    | Done true => Ok versionInfo
    | Done false =>
        Err (ErrorString ("no valid signature from user " ++ Client_UserID
                          ++ " found in key backup"))
    end.
Proof.
  intros Hf Ha Hp Hs Hc. unfold GetAndVerifyLatestKeyBackupVersion.
  rewrite Hf, Ha, String.eqb_refl. cbn [negb andb].
  apply String.eqb_neq in Hp. rewrite Hp, Hs, Hc.
  destruct (verifyLoop w versionInfo crossSigningPubkeys sigs) as [[err|[|]] evs];
    reflexivity.
Qed.

(** The same when the owner has no signatures on the backup at all. *)
Lemma GetAndVerify_no_signatures (key : MegolmBackupKey) :
  GetKeyBackupLatestVersion w = inl versionInfo ->
  Algorithm versionInfo = KeyBackupAlgorithmMegolmBackupV1 ->
  PublicKey (AuthData versionInfo) <> EncodeToString (PublicKeyBytes key) ->
  lookup Client_UserID (Signatures (AuthData versionInfo)) = None ->
  fst (GetAndVerifyLatestKeyBackupVersion w (Some key))
  = Err (ErrorString ("no signature from user " ++ Client_UserID
                      ++ " found in key backup")).
Proof.
  intros Hf Ha Hp Hs. unfold GetAndVerifyLatestKeyBackupVersion.
  rewrite Hf, Ha, String.eqb_refl. cbn [negb andb].
  apply String.eqb_neq in Hp. now rewrite Hp, Hs.
Qed.

End KeyBackupTrust.

Section KeyBackupClaims.

Import keybackup.
Open Scope string_scope.
Context {mach : Machine}.

(** The ways in which the loop body passes over an entry or stops at it. *)
Lemma verifyBody_cases (w : World) (versionInfo : RespRoomKeysVersion)
    (cs : CrossSigningPublicKeysCache) (keyID : KeyID) :
  let alg := fst (Parse keyID) in
  let name := snd (Parse keyID) in
  let body := verifyBody w versionInfo cs keyID in
  (alg <> KeyAlgorithmEd25519 -> body = (Continue, []))
  /\ (alg = KeyAlgorithmEd25519 -> name <> MasterKey cs ->
      GetDevice w Client_UserID name = inl None ->
      body
      = (Continue, [Log Warn "Device does not exist, ignoring signature" []]))
  /\ (forall device,
        alg = KeyAlgorithmEd25519 -> name <> MasterKey cs ->
        GetDevice w Client_UserID name = inl (Some device) ->
        IsDeviceTrusted w device = false ->
        body = (Continue, [Log Warn "Device is not trusted" []]))
  /\ (forall err,
        alg = KeyAlgorithmEd25519 -> name <> MasterKey cs ->
        GetDevice w Client_UserID name = inr err ->
        body
        = (ReturnErr
             (Errorf ("failed to get device " ++ Client_UserID ++ "/" ++ name
                      ++ " from store: ") err), []))
  /\ (forall key,
        alg = KeyAlgorithmEd25519 ->
        (name = MasterKey cs /\ key = MasterKey cs
         \/ name <> MasterKey cs
            /\ exists device,
                GetDevice w Client_UserID name = inl (Some device)
                /\ IsDeviceTrusted w device = true
                /\ key = SigningKey device) ->
        body = verifyWith versionInfo name key).
Proof.
  cbv zeta. unfold verifyBody.
  destruct (Parse keyID) as [alg name]. cbn [fst snd].
  repeat split.
  - intros Ha. apply String.eqb_neq in Ha. now rewrite Ha.
  - intros -> Hn Hd. apply String.eqb_neq in Hn.
    now rewrite String.eqb_refl, Hn, Hd.
  - intros device -> Hn Hd Ht. apply String.eqb_neq in Hn.
    now rewrite String.eqb_refl, Hn, Hd, Ht.
  - intros err -> Hn Hd. apply String.eqb_neq in Hn.
    now rewrite String.eqb_refl, Hn, Hd.
  - intros key -> [[-> ->]|[Hn (device & Hd & Ht & ->)]].
    + now rewrite !String.eqb_refl.
    + apply String.eqb_neq in Hn.
      now rewrite String.eqb_refl, Hn, Hd, Ht.
Qed.

(** A verification breaks the loop exactly when it reports [true] without an
    error; every other answer is logged as a warning and passed over. *)
Lemma verifyWith_cases (versionInfo : RespRoomKeysVersion) (name : string)
    (key : Ed25519) :
  (VerifySignatureJSON (AuthData versionInfo) Client_UserID name key
   = (true, None) ->
   verifyWith versionInfo name key
   = (Break,
      [CallVerifySignatureJSON name key;
       Log Debug "key backup is trusted based on matching signature" []]))
  /\ (VerifySignatureJSON (AuthData versionInfo) Client_UserID name key
      <> (true, None) ->
      verifyWith versionInfo name key
      = (Continue,
         [CallVerifySignatureJSON name key;
          Log Warn "Signature verification failed" []])).
Proof.
  unfold verifyWith.
  destruct (VerifySignatureJSON (AuthData versionInfo) Client_UserID name key)
    as [[|] [err|]]; split; intros H; try reflexivity; try discriminate;
    now contradiction H.
Qed.

(** C4, amended.  The backup's public key differs from the one derived from
    the supplied recovery key and the cross-signing keys are cached.  Then:
    - if the owner has no signatures on the backup, the call fails with the
      no-signature-from-user error;
    - if the loop body passes over every entry of the owner's signatures,
      the call fails with the no-valid-signature error;
    - if it passes over the entries before some entry and verifies that one,
      the call returns the version info, and the entries behind it are not
      looked at;
    - if it passes over the entries before some entry and the device lookup
      for that one fails in the store, the call fails with the
      failed-to-get-device error, whatever the entries behind it hold.
    The body passes over an entry whose algorithm is not ed25519 silently,
    and with a warning over an unknown device, an untrusted device and a
    failed verification. *)
Theorem backup_trust_by_signatures (w : World) (key : MegolmBackupKey)
    (versionInfo : RespRoomKeysVersion) (cs : CrossSigningPublicKeysCache) :
  GetKeyBackupLatestVersion w = inl versionInfo ->
  Algorithm versionInfo = KeyBackupAlgorithmMegolmBackupV1 ->
  PublicKey (AuthData versionInfo) <> EncodeToString (PublicKeyBytes key) ->
  GetOwnCrossSigningPublicKeys w = Some cs ->
  (lookup Client_UserID (Signatures (AuthData versionInfo)) = None ->
   fst (GetAndVerifyLatestKeyBackupVersion w (Some key))
   = Err (ErrorString ("no signature from user " ++ Client_UserID
                       ++ " found in key backup")))
  /\ (forall sigs,
        lookup Client_UserID (Signatures (AuthData versionInfo)) = Some sigs ->
        (Forall (fun e => fst (verifyBody w versionInfo cs (fst e)) = Continue)
           sigs ->
         fst (GetAndVerifyLatestKeyBackupVersion w (Some key))
         = Err (ErrorString ("no valid signature from user " ++ Client_UserID
                             ++ " found in key backup")))
        /\ (forall pre e post,
              sigs = (pre ++ e :: post)%list ->
              Forall
                (fun e => fst (verifyBody w versionInfo cs (fst e)) = Continue)
                pre ->
              (fst (verifyBody w versionInfo cs (fst e)) = Break ->
               fst (GetAndVerifyLatestKeyBackupVersion w (Some key))
               = Ok versionInfo
               /\ verifyLoop w versionInfo cs sigs
                  = verifyLoop w versionInfo cs (pre ++ [e])%list)
              /\ (forall err,
                    fst (verifyBody w versionInfo cs (fst e)) = ReturnErr err ->
                    fst (GetAndVerifyLatestKeyBackupVersion w (Some key))
                    = Err err)))
  /\ (forall keyID,
        let alg := fst (Parse keyID) in
        let name := snd (Parse keyID) in
        let body := verifyBody w versionInfo cs keyID in
        (alg <> KeyAlgorithmEd25519 -> body = (Continue, []))
        /\ (alg = KeyAlgorithmEd25519 -> name <> MasterKey cs ->
            GetDevice w Client_UserID name = inl None ->
            body
            = (Continue,
               [Log Warn "Device does not exist, ignoring signature" []]))
        /\ (forall device,
              alg = KeyAlgorithmEd25519 -> name <> MasterKey cs ->
              GetDevice w Client_UserID name = inl (Some device) ->
              IsDeviceTrusted w device = false ->
              body = (Continue, [Log Warn "Device is not trusted" []]))
        /\ (forall err,
              alg = KeyAlgorithmEd25519 -> name <> MasterKey cs ->
              GetDevice w Client_UserID name = inr err ->
              body
              = (ReturnErr
                   (Errorf ("failed to get device " ++ Client_UserID ++ "/"
                            ++ name ++ " from store: ") err), []))
        /\ (forall k,
              alg = KeyAlgorithmEd25519 ->
              (name = MasterKey cs /\ k = MasterKey cs
               \/ name <> MasterKey cs
                  /\ exists device,
                      GetDevice w Client_UserID name = inl (Some device)
                      /\ IsDeviceTrusted w device = true
                      /\ k = SigningKey device) ->
              (VerifySignatureJSON (AuthData versionInfo) Client_UserID name k
               = (true, None) ->
               body
               = (Break,
                  [CallVerifySignatureJSON name k;
                   Log Debug
                     "key backup is trusted based on matching signature" []]))
              /\ (VerifySignatureJSON (AuthData versionInfo) Client_UserID
                    name k <> (true, None) ->
                  body
                  = (Continue,
                     [CallVerifySignatureJSON name k;
                      Log Warn "Signature verification failed" []])))).
Proof.
  intros Hf Ha Hp Hc. split; [|split].
  - intros Hs. exact (GetAndVerify_no_signatures w versionInfo key Hf Ha Hp Hs).
  - intros sigs Hs.
    pose proof (GetAndVerify_by_loop w versionInfo cs key sigs Hf Ha Hp Hs Hc)
      as E.
    split.
    + intros Hall. rewrite E.
      now rewrite (verifyLoop_all_continue w versionInfo cs sigs Hall).
    + intros pre e post -> Hpre. split.
      * intros Hb.
        destruct (verifyLoop_first_break w versionInfo cs pre post e Hpre Hb)
          as [H1 H2].
        rewrite E, H1. split; [reflexivity | exact H2].
      * intros err Hr. rewrite E.
        now rewrite (verifyLoop_first_return w versionInfo cs pre post e err
                       Hpre Hr).
  - intros keyID.
    destruct (verifyBody_cases w versionInfo cs keyID)
      as (C1 & C2 & C3 & C4 & C5).
    cbv zeta in *.
    split; [exact C1|]. split; [exact C2|]. split; [exact C3|].
    split; [exact C4|].
    intros k Halg Hkey. rewrite (C5 k Halg Hkey).
    exact (verifyWith_cases versionInfo _ k).
Qed.

End KeyBackupClaims.

Section KeyBackupImport.

Import keybackup.
Open Scope string_scope.
Context {mach : Machine}.

Lemma decryptCalls_app (evs evs' : list event) :
  decryptCalls (evs ++ evs') = (decryptCalls evs ++ decryptCalls evs')%list.
Proof.
  induction evs as [|ev evs IH]; [reflexivity|].
  destruct ev; cbn; now rewrite IH.
Qed.

Lemma putCalls_app (evs evs' : list event) :
  putCalls (evs ++ evs') = (putCalls evs ++ putCalls evs')%list.
Proof.
  induction evs as [|ev evs IH]; [reflexivity|].
  destruct ev; cbn; now rewrite IH.
Qed.

Lemma putCalls_none (evs : list event) :
  putCalls evs = [] <-> forall igs, ~ In (CallPutGroupSession igs) evs.
Proof.
  induction evs as [|ev evs IH]; [cbn; tauto|].
  destruct ev; cbn; rewrite ?IH; split;
    try (intros H igs [E|I]; [discriminate E | exact (H igs I)]);
    try (intros H igs; exact (fun I => H igs (or_intror I)));
    try discriminate.
  intros H. exfalso. apply (H igs). now left.
Qed.

(** The session key is imported exactly for the entries of the Megolm
    algorithm: the others are turned away before. *)
Lemma import_called_iff (w : World) (version : KeyBackupVersion)
    (roomID : RoomID) (sessionID : SessionID) (data : MegolmSessionData) :
  In (CallInboundGroupSessionImport (SessionKey data))
     (snd (ImportRoomKeyFromBackup w version roomID sessionID data))
  <-> SessionAlgorithm data = AlgorithmMegolmV1.
Proof.
  unfold ImportRoomKeyFromBackup.
  destruct (String.eqb_spec (SessionAlgorithm data) AlgorithmMegolmV1)
    as [Ha|Ha]; cbn [negb].
  - split; [intros _; exact Ha | intros _].
    destruct (InboundGroupSessionImport (SessionKey data)) as [igs|err].
    + destruct (negb (ID igs =? sessionID)); [now left|].
      destruct (GetEncryptionEvent w roomID) as [[config|]|err];
        destruct (0 <? FirstKnownIndex igs)%Z;
        destruct (PutGroupSession w _) as [w' [err'|]]; now left.
    + now left.
  - split; [intros [] | intros H; contradiction].
Qed.

(** An entry of another algorithm is refused with the error that names the
    algorithm; nothing is imported and nothing is stored. *)
Lemma import_weird_algorithm (w : World) (version : KeyBackupVersion)
    (roomID : RoomID) (sessionID : SessionID) (data : MegolmSessionData) :
  SessionAlgorithm data <> AlgorithmMegolmV1 ->
  ImportRoomKeyFromBackup w version roomID sessionID data
  = (inr (ErrorString ("ignoring room key in backup with weird algorithm "
                       ++ SessionAlgorithm data)), w, []).
Proof.
  intros Ha. unfold ImportRoomKeyFromBackup.
  apply String.eqb_neq in Ha. now rewrite Ha.
Qed.

(** C3.  When ImportRoomKeyFromBackup imports the entry's session key, the
    import succeeds, and the session it gives has another ID than the one
    claimed, the call returns the mismatched-session-ID error, no call to
    PutGroupSession is made, and the world behind the stores is as it
    was. *)
Theorem import_mismatch_not_persisted (w : World) (version : KeyBackupVersion)
    (roomID : RoomID) (sessionID : SessionID) (data : MegolmSessionData)
    (igsInternal : InternalSession) :
  In (CallInboundGroupSessionImport (SessionKey data))
     (snd (ImportRoomKeyFromBackup w version roomID sessionID data)) ->
  InboundGroupSessionImport (SessionKey data) = inl igsInternal ->
  ID igsInternal <> sessionID ->
  fst (fst (ImportRoomKeyFromBackup w version roomID sessionID data))
  = inr (ErrorString
           "mismatched session ID while creating inbound group session from key backup")
  /\ (forall igs,
        ~ In (CallPutGroupSession igs)
            (snd (ImportRoomKeyFromBackup w version roomID sessionID data)))
  /\ snd (fst (ImportRoomKeyFromBackup w version roomID sessionID data)) = w.
Proof.
  intros Hcall Himp Hid. apply import_called_iff in Hcall.
  unfold ImportRoomKeyFromBackup.
  rewrite Hcall, String.eqb_refl, Himp. cbn [negb].
  apply String.eqb_neq in Hid. rewrite Hid. cbn [negb fst snd].
  split; [reflexivity|]. split; [|reflexivity].
  intros igs [E|[E|[]]]; discriminate E.
Qed.

End KeyBackupImport.

Section KeyBackupRestore.

Import keybackup.
Open Scope string_scope.
Context {mach : Machine}.

Variable version : KeyBackupVersion.
Variable megolmBackupKey : option MegolmBackupKey.

Lemma import_makes_no_decrypt_call (w : World) (roomID : RoomID)
    (sessionID : SessionID) (data : MegolmSessionData) :
  decryptCalls (snd (ImportRoomKeyFromBackup w version roomID sessionID data))
  = [].
Proof.
  unfold ImportRoomKeyFromBackup.
  destruct (negb (SessionAlgorithm data =? AlgorithmMegolmV1)); [reflexivity|].
  destruct (InboundGroupSessionImport (SessionKey data)) as [igs|err];
    [|reflexivity].
  destruct (negb (ID igs =? sessionID)); [reflexivity|].
  destruct (GetEncryptionEvent w roomID) as [[config|]|err];
    destruct (0 <? FirstKnownIndex igs)%Z;
    destruct (PutGroupSession w _) as [w' [err'|]]; reflexivity.
Qed.

(** One pass of the inner loop: exactly one of the two counters goes up by
    one, [failedCount] when decrypting or importing the entry fails and
    [count] otherwise, and one decryption is recorded. *)
Lemma importSession_step (roomID : RoomID) (st : progress)
    (sessionID : SessionID) (data : EncryptedSessionData) :
  let st' := importSession version megolmBackupKey roomID st (sessionID, data) in
  decryptCalls (trace st')
  = (decryptCalls (trace st) ++ [(roomID, sessionID)])%list
  /\ match Decrypt data megolmBackupKey with
     | inr _ =>
         world st' = world st /\ count st' = count st
         /\ failedCount st' = (failedCount st + 1)%Z
     | inl sessionData =>
         match ImportRoomKeyFromBackup (world st) version roomID sessionID
                 sessionData with
         | (inr _, w', _) =>
             world st' = w' /\ count st' = count st
             /\ failedCount st' = (failedCount st + 1)%Z
         | (inl _, w', _) =>
             world st' = w' /\ count st' = (count st + 1)%Z
             /\ failedCount st' = failedCount st
         end
     end.
Proof.
  cbv zeta. unfold importSession.
  destruct (Decrypt data megolmBackupKey) as [sessionData|err].
  - pose proof (import_makes_no_decrypt_call (world st) roomID sessionID
                  sessionData) as Hd.
    destruct (ImportRoomKeyFromBackup (world st) version roomID sessionID
                sessionData) as [[[igs|err] w'] evs]; cbn [snd] in Hd;
      cbn [trace world count failedCount].
    + rewrite decryptCalls_app. cbn [decryptCalls]. rewrite Hd. now repeat split.
    + rewrite decryptCalls_app. cbn [decryptCalls].
      rewrite decryptCalls_app, Hd. now repeat split.
  - cbn [trace world count failedCount].
    rewrite decryptCalls_app. now repeat split.
Qed.

Lemma importRooms_by_entries
    (keys : list (RoomID * list (SessionID * EncryptedSessionData)))
    (st : progress) :
  fold_left (importRoom version megolmBackupKey) keys st
  = fold_left (importEntry version megolmBackupKey) (backupEntries keys) st.
Proof.
  revert st. induction keys as [|[roomID sessions] keys IH]; intros st.
  - reflexivity.
  - cbn [fold_left backupEntries flat_map]. rewrite fold_left_app.
    fold (backupEntries keys). rewrite <- IH. f_equal.
    unfold importRoom. cbn [fst snd].
    clear IH. revert st.
    induction sessions as [|[sessionID data] sessions IHs]; intros st.
    + reflexivity.
    + cbn [map fold_left]. rewrite <- IHs. reflexivity.
Qed.

Lemma importEntries_tally
    (entries : list (RoomID * SessionID * EncryptedSessionData))
    (st : progress) :
  let st' := fold_left (importEntry version megolmBackupKey) entries st in
  (count st' + failedCount st'
   = count st + failedCount st + Z.of_nat (length entries))%Z
  /\ (count st <= count st')%Z
  /\ (failedCount st <= failedCount st')%Z
  /\ decryptCalls (trace st')
     = (decryptCalls (trace st) ++ map fst entries)%list.
Proof.
  cbv zeta. revert st.
  induction entries as [|[[roomID sessionID] data] entries IH]; intros st.
  - cbn [fold_left length map]. rewrite app_nil_r. repeat split; lia.
  - cbn [fold_left].
    set (st1 := importEntry version megolmBackupKey st
                  (roomID, sessionID, data)).
    destruct (IH st1) as (I1 & I2 & I3 & I4).
    assert (S :
      decryptCalls (trace st1)
      = (decryptCalls (trace st) ++ [(roomID, sessionID)])%list
      /\ (count st1 + failedCount st1 = count st + failedCount st + 1)%Z
      /\ (count st <= count st1)%Z /\ (failedCount st <= failedCount st1)%Z).
    { subst st1. unfold importEntry. cbn [fst snd].
      destruct (importSession_step roomID st sessionID data) as [S1 S2].
      cbv zeta in S1, S2. split; [exact S1|].
      destruct (Decrypt data megolmBackupKey) as [sessionData|err].
      - destruct (ImportRoomKeyFromBackup (world st) version roomID sessionID
                    sessionData) as [[[igs|err] w'] evs];
          destruct S2 as (_ & -> & ->); lia.
      - destruct S2 as (_ & -> & ->); lia. }
    destruct S as (S1 & S2 & S3 & S4).
    rewrite S1, <- app_assoc in I4. cbn [length map fst].
    repeat split; try lia. exact I4.
Qed.

(** C5.  When the backup cannot be fetched, GetAndStoreKeyBackup returns the
    fetch error and does nothing else.  Otherwise it returns no error, after
    running the loop body once for every (room, session) entry of the
    payload, in the order of the iteration: one decryption is recorded per
    entry, the two counters it logs add up to the number of entries, and a
    pass raises [failedCount] alone when decrypting or importing its entry
    fails and [count] alone otherwise, then goes on to the next entry. *)
Theorem GetAndStoreKeyBackup_counts (w : World) :
  match GetKeyBackup w version with
  | inr err =>
      GetAndStoreKeyBackup w version megolmBackupKey = (Some err, w, [])
  | inl keys =>
      let st :=
        fold_left (importEntry version megolmBackupKey) (backupEntries keys)
          {| world := w; count := 0; failedCount := 0; trace := [] |} in
      GetAndStoreKeyBackup w version megolmBackupKey
      = (None, world st,
         (trace st
          ++ [Log Info "successfully imported sessions from backup"
                [("count", count st); ("failed_count", failedCount st)]])%list)
      /\ decryptCalls (trace st) = map fst (backupEntries keys)
      /\ (count st + failedCount st
          = Z.of_nat (length (backupEntries keys)))%Z
      /\ (0 <= count st)%Z /\ (0 <= failedCount st)%Z
  end
  /\ forall (st : progress) (roomID : RoomID) (sessionID : SessionID)
       (data : EncryptedSessionData),
      let st' :=
        importEntry version megolmBackupKey st (roomID, sessionID, data) in
      match Decrypt data megolmBackupKey with
      | inr _ =>
          world st' = world st /\ count st' = count st
          /\ failedCount st' = (failedCount st + 1)%Z
      | inl sessionData =>
          match ImportRoomKeyFromBackup (world st) version roomID sessionID
                  sessionData with
          | (inr _, w', _) =>
              world st' = w' /\ count st' = count st
              /\ failedCount st' = (failedCount st + 1)%Z
          | (inl _, w', _) =>
              world st' = w' /\ count st' = (count st + 1)%Z
              /\ failedCount st' = failedCount st
          end
      end.
Proof.
  split.
  - unfold GetAndStoreKeyBackup.
    destruct (GetKeyBackup w version) as [keys|err]; [|reflexivity].
    cbv zeta. rewrite importRooms_by_entries.
    destruct (importEntries_tally (backupEntries keys)
                {| world := w; count := 0; failedCount := 0; trace := [] |})
      as (T1 & T2 & T3 & T4).
    cbv zeta in T1, T2, T3, T4. cbn [count failedCount trace] in T1, T2, T3, T4.
    cbn [decryptCalls app] in T4.
    split; [reflexivity|]. split; [exact T4|].
    split; [rewrite T1; lia|]. split; assumption.
  - intros st roomID sessionID data. cbv zeta.
    exact (proj2 (importSession_step roomID st sessionID data)).
Qed.

End KeyBackupRestore.

Section KeyBackupAtSamples.

Import keybackup keybackup_samples.
Open Scope string_scope.

(** Without a recovery key the call faults as soon as the backup version was
    fetched and its algorithm accepted. *)
Lemma GetAndVerify_nil_key {mach : Machine} (w : World)
    (versionInfo : RespRoomKeysVersion) :
  GetKeyBackupLatestVersion w = inl versionInfo ->
  Algorithm versionInfo = KeyBackupAlgorithmMegolmBackupV1 ->
  GetAndVerifyLatestKeyBackupVersion w None = (Fault, []).
Proof.
  intros Hf Ha. unfold GetAndVerifyLatestKeyBackupVersion.
  now rewrite Hf, Ha, String.eqb_refl.
Qed.

(** C2.  A backup version of the supported algorithm that the owner's master
    key has validly signed: with a recovery key that does not match, the
    signature path returns the version info; with no recovery key (nil) the
    call does not reach the signature path, it faults on the nil pointer. *)
Theorem nil_recovery_key_faults :
  Algorithm master_signed_version = KeyBackupAlgorithmMegolmBackupV1
  /\ fst (GetAndVerifyLatestKeyBackupVersion
            (mach := machine_of master_signed_version) [] (Some [x01]))
     = Ok master_signed_version
  /\ GetAndVerifyLatestKeyBackupVersion
       (mach := machine_of master_signed_version) [] None
     = (Fault, []).
Proof.
  split; [reflexivity|]. split; [vm_compute; reflexivity|].
  apply (GetAndVerify_nil_key (mach := machine_of master_signed_version) []
           master_signed_version); reflexivity.
Qed.

Lemma import_mismatch_not_persisted_witness :
  fst (fst (ImportRoomKeyFromBackup (mach := machine_of mixed_version)
              [] "1" "!b" "s3" (sample_session AlgorithmMegolmV1 "other")))
  = inr (ErrorString
           "mismatched session ID while creating inbound group session from key backup")
  /\ (forall igs,
        ~ In (CallPutGroupSession igs)
            (snd (ImportRoomKeyFromBackup (mach := machine_of mixed_version)
                    [] "1" "!b" "s3"
                    (sample_session AlgorithmMegolmV1 "other"))))
  /\ snd (fst (ImportRoomKeyFromBackup (mach := machine_of mixed_version)
                 [] "1" "!b" "s3" (sample_session AlgorithmMegolmV1 "other")))
     = [].
Proof.
  apply (import_mismatch_not_persisted (mach := machine_of mixed_version)
           [] "1" "!b" "s3" (sample_session AlgorithmMegolmV1 "other")
           {| ID := "other"; FirstKnownIndex := 0 |}).
  - vm_compute. left. reflexivity.
  - reflexivity.
  - vm_compute. intros H. discriminate H.
Defined.

(** C4, as stated, fails: the recovery key does not match, the cross-signing
    keys are cached, and no signature verifies, whatever key it is checked
    with; yet the call does not fail with the no-valid-signature error: the
    lookup of the signing device fails in the store, and the call returns
    that failure. *)
Lemma device_store_error_is_not_untrusted :
  GetKeyBackupLatestVersion (Machine := machine_of broken_version) []
  = inl broken_version
  /\ Algorithm broken_version = KeyBackupAlgorithmMegolmBackupV1
  /\ PublicKey (AuthData broken_version)
     <> EncodeToString (Machine := machine_of broken_version)
          (PublicKeyBytes (Machine := machine_of broken_version) [x01])
  /\ GetOwnCrossSigningPublicKeys (Machine := machine_of broken_version) []
     = Some sample_crossSigning
  /\ (forall name key,
        VerifySignatureJSON (Machine := machine_of broken_version)
          (AuthData broken_version) sample_user name key
        = (false, None))
  /\ GetAndVerifyLatestKeyBackupVersion (mach := machine_of broken_version)
       [] (Some [x01])
     = (Err (Errorf "failed to get device @alice:example.org/BROKEN from store: "
               (ErrorString "database is closed")),
        [Log Debug
           "key backup public keys do not match, proceeding to check device signatures"
           []])
  /\ Errorf "failed to get device @alice:example.org/BROKEN from store: "
       (ErrorString "database is closed")
     <> ErrorString ("no valid signature from user " ++ sample_user
                     ++ " found in key backup").
Proof.
  split; [reflexivity|]. split; [reflexivity|].
  split; [vm_compute; intros H; discriminate H|].
  split; [reflexivity|]. split; [|split; [vm_compute; reflexivity|discriminate]].
  intros name key.
  change (VerifySignatureJSON (Machine := machine_of broken_version)
            (AuthData broken_version) sample_user name key)
    with (match lookup ("ed25519:" ++ name) [("ed25519:BROKEN", "x")] with
          | Some sig => sig =? "signed by " ++ key
          | None => false
          end, @None error).
  unfold lookup.
  destruct ("ed25519:BROKEN" =? "ed25519:" ++ name); reflexivity.
Qed.

Lemma backup_trust_by_signatures_witness :
  fst (GetAndVerifyLatestKeyBackupVersion (mach := machine_of mixed_version)
         [] (Some [x01]))
  = Ok mixed_version
  /\ verifyLoop (mach := machine_of mixed_version) [] mixed_version
       sample_crossSigning mixed_signatures
     = verifyLoop (mach := machine_of mixed_version) [] mixed_version
         sample_crossSigning
         [("curve25519:X", "s"); ("ed25519:GHOST", "s");
          ("ed25519:LAPTOP", "s"); ("ed25519:PHONE", "signed by ed-PHONE")].
Proof.
  refine (proj1
            (proj2 (proj1 (proj2 (backup_trust_by_signatures
                                    (mach := machine_of mixed_version)
                                    [] [x01] mixed_version sample_crossSigning
                                    eq_refl eq_refl _ eq_refl))
                      mixed_signatures eq_refl)
               [("curve25519:X", "s"); ("ed25519:GHOST", "s");
                ("ed25519:LAPTOP", "s")]
               ("ed25519:PHONE", "signed by ed-PHONE")
               [("ed25519:BROKEN", "x")] eq_refl _) _).
  - vm_compute. intros H. discriminate H.
  - repeat constructor.
  - reflexivity.
Defined.

(** The restore of the sample payload: s1 and s5 are imported, s2, s3 and
    s4 fail, each in its own way, and the call succeeds. *)
Example GetAndStoreKeyBackup_sample :
  let '(err, w, evs) :=
    GetAndStoreKeyBackup (mach := machine_of mixed_version) [] "1"
      (Some [x01]) in
  err = None
  /\ map igs_id w = ["s5"; "s1"]
  /\ decryptCalls evs
     = [("!a", "s1"); ("!a", "s2"); ("!b", "s3"); ("!b", "s4"); ("!b", "s5")]
  /\ map igs_id (putCalls evs) = ["s1"; "s5"]
  /\ last evs (Log Info "" [])
     = Log Info "successfully imported sessions from backup"
         [("count", 2%Z); ("failed_count", 3%Z)].
Proof. vm_compute. repeat split. Qed.

End KeyBackupAtSamples.

(** * Further properties of the pickle codec *)

Section CounterBytes.

Import libolmpickle.

Lemma Z_of_byte_range (b : byte) : 0 <= Z_of_byte b < 256.
Proof.
  unfold Z_of_byte. pose proof (Byte.to_N_bounded b) as H. lia.
Qed.

Lemma byte_of_Z_eq (z : Z) (b : byte) :
  z mod 256 = Z_of_byte b -> byte_of_Z z = b.
Proof.
  intros H. unfold byte_of_Z. rewrite H. unfold Z_of_byte.
  now rewrite N2Z.id, Byte.of_to_N.
Qed.

Lemma be32_decode_range (bs : list byte) : 0 <= be32_decode bs < 2 ^ 32.
Proof.
  unfold be32_decode.
  destruct bs as [|b0 [|b1 [|b2 [|b3 bs]]]]; try (cbn; lia).
  pose proof (Z_of_byte_range b0). pose proof (Z_of_byte_range b1).
  pose proof (Z_of_byte_range b2). pose proof (Z_of_byte_range b3).
  change (2 ^ 24) with 16777216. change (2 ^ 16) with 65536.
  change (2 ^ 8) with 256. change (2 ^ 32) with 4294967296. lia.
Qed.

Lemma be32_encode_decode (bs : list byte) :
  (4 <= length bs)%nat -> be32_encode (be32_decode bs) = firstn 4 bs.
Proof.
  intros H.
  destruct bs as [|b0 [|b1 [|b2 [|b3 bs]]]]; try (cbn in H; lia).
  unfold be32_decode, be32_encode. cbn [firstn].
  pose proof (Z_of_byte_range b0). pose proof (Z_of_byte_range b1).
  pose proof (Z_of_byte_range b2). pose proof (Z_of_byte_range b3).
  change (2 ^ 24) with 16777216. change (2 ^ 16) with 65536.
  change (2 ^ 8) with 256.
  repeat f_equal; apply byte_of_Z_eq;
    Z.to_euclidean_division_equations; lia.
Qed.

End CounterBytes.

Section PickleContracts.

Import libolmpickle.

Lemma length_layout36 (k : list byte) (v : Z) (target : list byte) :
  length k = 32%nat -> (36 <= length target)%nat ->
  length (k ++ be32_encode v ++ skipn 36 target) = length target.
Proof.
  intros Hk Ht. rewrite !length_app, length_skipn, Hk, length_be32_encode. lia.
Qed.

Lemma skipn_layout36 (n : nat) (k : list byte) (v : Z) (target : list byte) :
  length k = 32%nat ->
  skipn (36 + n) (k ++ be32_encode v ++ skipn 36 target)
  = skipn (36 + n) target.
Proof.
  intros Hk. rewrite app_assoc.
  rewrite skipn_app, length_app, Hk, length_be32_encode.
  rewrite skipn_all2 by (rewrite length_app, Hk, length_be32_encode; lia).
  replace (36 + n - (32 + 4))%nat with n by lia.
  cbn [app]. rewrite skipn_skipn. f_equal. lia.
Qed.

Lemma chainKey_PickleLibOlm_short (r : chainKey.t) (target : list byte) :
  (length target < 36)%nat ->
  chainKey.PickleLibOlm r target
  = (target, Err (Errorf "pickle chain key: " ErrValueTooShort)).
Proof.
  intros H. unfold chainKey.PickleLibOlm.
  change chainKey.chainKeyPickleLength with 36%nat.
  destruct (Nat.ltb_spec (length target) 36); [reflexivity | lia].
Qed.

Lemma messageKey_PickleLibOlm_short (m : messageKey.t) (target : list byte) :
  (length target < 36)%nat ->
  messageKey.PickleLibOlm m target
  = (target, Err (Errorf "pickle message key: " ErrValueTooShort)).
Proof.
  intros H. unfold messageKey.PickleLibOlm.
  change messageKey.messageKeyPickleLength with 36%nat.
  destruct (Nat.ltb_spec (length target) 36); [reflexivity | lia].
Qed.

Lemma receiverChain_PickleLibOlm_short (r : receiverChain.t)
    (target : list byte) :
  (length target < 68)%nat ->
  receiverChain.PickleLibOlm r target
  = (target, Err (Errorf "pickle sender chain: " ErrValueTooShort)).
Proof.
  intros H. unfold receiverChain.PickleLibOlm.
  change receiverChain.receiverChainPickleLength with 68%nat.
  destruct (Nat.ltb_spec (length target) 68); [reflexivity | lia].
Qed.

Lemma skippedMessageKey_PickleLibOlm_short (r : skippedMessageKey.t)
    (target : list byte) :
  (length target < 68)%nat ->
  skippedMessageKey.PickleLibOlm r target
  = (target, Err (Errorf "pickle sender chain: " ErrValueTooShort)).
Proof.
  intros H. unfold skippedMessageKey.PickleLibOlm.
  change skippedMessageKey.skippedMessageKeyPickleLen with 68%nat.
  destruct (Nat.ltb_spec (length target) 68); [reflexivity | lia].
Qed.

(** X1.  The four picklers keep to their declared lengths (36, 36, 68, 68) for
    every value, also one whose key material has the wrong length, and every
    target: no panic, no change of the target's length nor of a byte behind
    the declared length; on a target that is too short an error and the
    target untouched, on any other the declared length returned. *)
Theorem PickleLibOlm_within_declared_length :
  (forall r, pickles_within 36 (chainKey.PickleLibOlm r))
  /\ (forall m, pickles_within 36 (messageKey.PickleLibOlm m))
  /\ (forall r, pickles_within 68 (receiverChain.PickleLibOlm r))
  /\ (forall r, pickles_within 68 (skippedMessageKey.PickleLibOlm r)).
Proof.
  split; [|split; [|split]]; intros r target.
  - destruct (Nat.ltb_spec (length target) 36) as [H|H].
    + rewrite chainKey_PickleLibOlm_short by exact H. cbn [fst snd].
      repeat split; eauto.
    + rewrite chainKey_PickleLibOlm_layout by exact H. cbn [fst snd].
      split; [apply length_layout36; [apply length_keyMaterial | exact H]|].
      split; [|reflexivity].
      apply (skipn_layout36 0), length_keyMaterial.
  - destruct (Nat.ltb_spec (length target) 36) as [H|H].
    + rewrite messageKey_PickleLibOlm_short by exact H. cbn [fst snd].
      repeat split; eauto.
    + rewrite messageKey_PickleLibOlm_layout by exact H. cbn [fst snd].
      split; [apply length_layout36; [apply length_keyMaterial | exact H]|].
      split; [|reflexivity].
      apply (skipn_layout36 0), length_keyMaterial.
  - destruct (Nat.ltb_spec (length target) 68) as [H|H].
    + rewrite receiverChain_PickleLibOlm_short by exact H. cbn [fst snd].
      repeat split; eauto.
    + rewrite receiverChain_PickleLibOlm_layout by exact H. cbn [fst snd].
      split; [apply length_layout36; [apply length_keyMaterial | lia]|].
      split; [|reflexivity].
      apply (skipn_layout36 32), length_keyMaterial.
  - destruct (Nat.ltb_spec (length target) 68) as [H|H].
    + rewrite skippedMessageKey_PickleLibOlm_short by exact H. cbn [fst snd].
      repeat split; eauto.
    + rewrite skippedMessageKey_PickleLibOlm_layout by exact H. cbn [fst snd].
      split; [apply length_layout36; [apply length_keyMaterial | lia]|].
      split; [|reflexivity].
      apply (skipn_layout36 32), length_keyMaterial.
Qed.

(** X2.  On a target of at least 68 bytes a receiver chain, and a skipped message
    key, leave exactly what their second field alone would have left: the
    ratchet key has no part in the result. *)
Theorem composite_pickle_is_second_field (target : list byte) :
  (68 <= length target)%nat ->
  (forall r : receiverChain.t,
      fst (receiverChain.PickleLibOlm r target)
      = fst (chainKey.PickleLibOlm (receiverChain.CKey r) target))
  /\ (forall r : skippedMessageKey.t,
        fst (skippedMessageKey.PickleLibOlm r target)
        = fst (messageKey.PickleLibOlm (skippedMessageKey.MKey r) target)).
Proof.
  intros H. split; intros r.
  - rewrite receiverChain_PickleLibOlm_layout by exact H.
    now rewrite chainKey_PickleLibOlm_layout by lia.
  - rewrite skippedMessageKey_PickleLibOlm_layout by exact H.
    now rewrite messageKey_PickleLibOlm_layout by lia.
Qed.

Lemma composite_pickle_is_second_field_witness :
  (forall r : receiverChain.t,
      fst (receiverChain.PickleLibOlm r (repeat xff 68))
      = fst (chainKey.PickleLibOlm (receiverChain.CKey r) (repeat xff 68)))
  /\ (forall r : skippedMessageKey.t,
        fst (skippedMessageKey.PickleLibOlm r (repeat xff 68))
        = fst (messageKey.PickleLibOlm (skippedMessageKey.MKey r)
                 (repeat xff 68))).
Proof.
  apply (composite_pickle_is_second_field (repeat xff 68)).
  vm_compute. lia.
Defined.

End PickleContracts.

Section UnpickleContracts.

Import libolmpickle.

Lemma isZeroByteSlice_zeros (k : list byte) :
  isZeroByteSlice k = true -> k = repeat x00 (length k).
Proof.
  induction k as [|b k IH]; [reflexivity|]. cbn [isZeroByteSlice forallb].
  intros H. apply andb_prop in H. destruct H as [Hb Hk].
  apply Byte.byte_dec_bl in Hb. subst b. cbn [length repeat].
  f_equal. apply IH, Hk.
Qed.

(** Key material that was read back pickles to the bytes it was read
    from. *)
Lemma keyMaterial_decodedKey (k : list byte) :
  length k = 32%nat -> keyMaterial (decodedKey k) = k.
Proof.
  intros Hk. unfold decodedKey.
  destruct (isZeroByteSlice k) eqn:Hz.
  - apply isZeroByteSlice_zeros in Hz. rewrite Hk in Hz. now rewrite Hz.
  - apply keyMaterial_fixed, Hk.
Qed.

Lemma be32_decode_decodedKey (k : list byte) :
  (4 <= length k)%nat -> be32_decode (decodedKey k) = be32_decode k.
Proof.
  intros Hk. unfold decodedKey.
  destruct (isZeroByteSlice k) eqn:Hz; [|reflexivity].
  apply isZeroByteSlice_zeros in Hz. rewrite Hz.
  remember (length k) as n eqn:En. clear En Hz.
  do 4 (destruct n as [|n]; [lia|]). reflexivity.
Qed.

Lemma chainKey_UnpickleLibOlm_long (r : chainKey.t) (value : list byte) :
  (36 <= length value)%nat ->
  chainKey.UnpickleLibOlm r value
  = ({| chainKey.Index := be32_decode (skipn 32 value);
        chainKey.Key := decodedKey (firstn 32 value) |}, Ok 36%nat).
Proof.
  intros H. unfold chainKey.UnpickleLibOlm.
  rewrite PublicKey_UnpickleLibOlm_long by lia. cbn [Nat.add].
  rewrite slice_from_fits by lia.
  rewrite UnpickleUInt32_long by (rewrite length_skipn; lia).
  reflexivity.
Qed.








(** X4.  A chain key decoded from a buffer has a uint32 index, and pickling it
    back into the buffer it came from changes nothing: decoding loses no
    information of the 36 bytes. *)
Theorem chainKey_unpickle_then_pickle (r0 : chainKey.t) (value : list byte) :
  (36 <= length value)%nat ->
  0 <= chainKey.Index (fst (chainKey.UnpickleLibOlm r0 value)) < 2 ^ 32
  /\ chainKey.PickleLibOlm (fst (chainKey.UnpickleLibOlm r0 value)) value
     = (value, Ok 36%nat).
Proof.
  intros H. rewrite chainKey_UnpickleLibOlm_long by exact H. cbn [fst].
  split; [apply be32_decode_range|].
  rewrite chainKey_PickleLibOlm_layout by exact H.
  cbn [chainKey.Key chainKey.Index].
  rewrite keyMaterial_decodedKey by (rewrite length_firstn; lia).
  rewrite be32_encode_decode by (rewrite length_skipn; lia).
  f_equal. symmetry.
  rewrite <- (firstn_skipn 32 value) at 1. f_equal.
  rewrite <- (firstn_skipn 4 (skipn 32 value)) at 1. f_equal.
  now rewrite skipn_skipn.
Qed.

Lemma chainKey_unpickle_then_pickle_witness :
  0 <= chainKey.Index
         (fst (chainKey.UnpickleLibOlm sample_chainKey (repeat xfe 40)))
    < 2 ^ 32
  /\ chainKey.PickleLibOlm
       (fst (chainKey.UnpickleLibOlm sample_chainKey (repeat xfe 40)))
       (repeat xfe 40)
     = (repeat xfe 40, Ok 36%nat).
Proof.
  apply (chainKey_unpickle_then_pickle sample_chainKey (repeat xfe 40)).
  vm_compute. lia.
Defined.

(** X5.  The receiver chain's decoder reads the declared layout: from the
    ratchet key's 32 bytes, the chain key's 32 bytes and the index's 4
    bytes, whatever follows them, it gives the chain with this index, and
    with each key as it is read back: the 32 bytes themselves unless they
    are all zero, and nil if they are; it reports 68 bytes.  So it is the
    inverse of the declared layout for keys that are not all zero. *)
Theorem receiverChain_unpickle_declared_layout (r0 : receiverChain.t)
    (rkey key : list byte) (index : Z) (rest : list byte) :
  length rkey = 32%nat -> length key = 32%nat -> 0 <= index < 2 ^ 32 ->
  receiverChain.UnpickleLibOlm r0 (rkey ++ key ++ be32_encode index ++ rest)
  = ({| receiverChain.RKey := decodedKey rkey;
        receiverChain.CKey :=
          {| chainKey.Index := index; chainKey.Key := decodedKey key |} |},
     Ok 68%nat)
  /\ (isZeroByteSlice rkey = false -> isZeroByteSlice key = false ->
      receiverChain.UnpickleLibOlm r0
        (rkey ++ key ++ be32_encode index ++ rest)
      = ({| receiverChain.RKey := rkey;
            receiverChain.CKey :=
              {| chainKey.Index := index; chainKey.Key := key |} |},
         Ok 68%nat))
  /\ (isZeroByteSlice rkey = true -> decodedKey rkey = [])
  /\ (isZeroByteSlice key = true -> decodedKey key = []).
Proof.
  intros Hr Hk Hi.
  assert (E : receiverChain.UnpickleLibOlm r0
                (rkey ++ key ++ be32_encode index ++ rest)
              = ({| receiverChain.RKey := decodedKey rkey;
                    receiverChain.CKey :=
                      {| chainKey.Index := index;
                         chainKey.Key := decodedKey key |} |}, Ok 68%nat)).
  { unfold receiverChain.UnpickleLibOlm.
    rewrite PublicKey_UnpickleLibOlm_long by (rewrite length_app; lia).
    rewrite firstn_app_exact by exact Hr. cbn [Nat.add].
    rewrite slice_from_fits by (rewrite length_app; lia).
    rewrite skipn_app_exact by exact Hr.
    cbn [receiverChain.CKey receiverChain.RKey].
    now rewrite chainKey_UnpickleLibOlm_layout by assumption. }
  split; [exact E|]. split; [|split].
  - intros Zr Zk. rewrite E.
    now rewrite (decodedKey_set rkey Zr), (decodedKey_set key Zk).
  - apply decodedKey_unset.
  - apply decodedKey_unset.
Qed.

Lemma receiverChain_unpickle_declared_layout_witness :
  receiverChain.UnpickleLibOlm sample_receiverChain
    (repeat x0a 32 ++ repeat x0b 32 ++ be32_encode 65536 ++ [xff])
  = ({| receiverChain.RKey := repeat x0a 32;
        receiverChain.CKey :=
          {| chainKey.Index := 65536; chainKey.Key := repeat x0b 32 |} |},
     Ok 68%nat).
Proof.
  refine (proj1 (proj2 (receiverChain_unpickle_declared_layout
                          sample_receiverChain
                          (repeat x0a 32) (repeat x0b 32) 65536 [xff]
                          _ _ _)) _ _).
  - reflexivity.
  - reflexivity.
  - lia.
  - reflexivity.
  - reflexivity.
Defined.

(** X6.  The message key's decoder never looks behind the key: two buffers that
    agree on their first 32 bytes decode to the same message key, whose
    index is the number spelled by the first four bytes of the key. *)
Theorem messageKey_unpickle_reads_only_the_key (m : messageKey.t)
    (value value' : list byte) :
  (32 <= length value)%nat -> firstn 32 value = firstn 32 value' ->
  messageKey.UnpickleLibOlm m value = messageKey.UnpickleLibOlm m value'
  /\ messageKey.Index (fst (messageKey.UnpickleLibOlm m value))
     = be32_decode (messageKey.Key (fst (messageKey.UnpickleLibOlm m value))).
Proof.
  intros H E.
  assert (H' : (32 <= length value')%nat).
  { apply (f_equal (@length byte)) in E. rewrite !length_firstn in E. lia. }
  rewrite !messageKey_UnpickleLibOlm_index by assumption. cbn [fst].
  cbn [messageKey.Index messageKey.Key].
  assert (D : forall v : list byte,
             (32 <= length v)%nat -> be32_decode v = be32_decode (firstn 32 v)).
  { intros v Hv. do 4 (destruct v as [|? v]; [cbn in Hv; lia|]). reflexivity. }
  split.
  - rewrite (D value H), (D value' H'), E. reflexivity.
  - rewrite be32_decode_decodedKey by (rewrite length_firstn; lia).
    apply D, H.
Qed.

Lemma messageKey_unpickle_reads_only_the_key_witness :
  messageKey.UnpickleLibOlm sample_messageKey
    (repeat x03 32 ++ [x00; x00; x00; x07])
  = messageKey.UnpickleLibOlm sample_messageKey (repeat x03 32)
  /\ messageKey.Index
       (fst (messageKey.UnpickleLibOlm sample_messageKey
               (repeat x03 32 ++ [x00; x00; x00; x07])))
     = be32_decode
         (messageKey.Key
            (fst (messageKey.UnpickleLibOlm sample_messageKey
                    (repeat x03 32 ++ [x00; x00; x00; x07])))).
Proof.
  apply (messageKey_unpickle_reads_only_the_key sample_messageKey
           (repeat x03 32 ++ [x00; x00; x00; x07]) (repeat x03 32)).
  - vm_compute. lia.
  - reflexivity.
Defined.

End UnpickleContracts.

(** * The sender chain over a key pair codec *)

Section SenderChainPickle.

Import libolmpickle.

Variable KeyPair : Type.
Variable KeyPair_PickleLibOlm : KeyPair -> list byte -> list byte * result nat.
Variable KeyPair_UnpickleLibOlm :
  KeyPair -> list byte -> KeyPair * result nat.

(** X7.  Given a key pair whose pickle is [n] fixed bytes that its unpickler
    reads back, a sender chain with a 32-byte chain key and a uint32 index
    pickles into a target of at least 72 and [n + 36] bytes as the key
    pair's bytes followed by the chain key's, the chain key at offset [n];
    the unpickler gives the ratchet key, the index and the chain key's bytes
    back, the key as nil when its bytes are all zero, and reports [n + 36]
    bytes.  The flag [IsSet] is not part of the pickle: it stays what the
    receiver had. *)
Theorem senderChain_pickle_roundtrip (n : nat) (image : list byte)
    (r r0 : senderChain.t KeyPair) (target : list byte) :
  length image = n ->
  (forall t, (n <= length t)%nat ->
     KeyPair_PickleLibOlm (senderChain.RKey _ r) t
     = (image ++ skipn n t, Ok n)) ->
  (forall k rest,
     KeyPair_UnpickleLibOlm k (image ++ rest) = (senderChain.RKey _ r, Ok n)) ->
  length (chainKey.Key (senderChain.CKey _ r)) = 32%nat ->
  0 <= chainKey.Index (senderChain.CKey _ r) < 2 ^ 32 ->
  (72 <= length target)%nat -> (n + 36 <= length target)%nat ->
  let pickled :=
    image ++ chainKey.Key (senderChain.CKey _ r)
    ++ be32_encode (chainKey.Index (senderChain.CKey _ r))
    ++ skipn (36 + n) target in
  senderChain.PickleLibOlm _ KeyPair_PickleLibOlm r target
  = (pickled, Ok (n + 36)%nat)
  /\ senderChain.UnpickleLibOlm _ KeyPair_UnpickleLibOlm r0 pickled
     = ({| senderChain.RKey := senderChain.RKey _ r;
           senderChain.CKey :=
             {| chainKey.Index := chainKey.Index (senderChain.CKey _ r);
                chainKey.Key :=
                  decodedKey (chainKey.Key (senderChain.CKey _ r)) |};
           senderChain.IsSet := senderChain.IsSet _ r0 |}, Ok (n + 36)%nat)
  /\ (isZeroByteSlice (chainKey.Key (senderChain.CKey _ r)) = false ->
      senderChain.UnpickleLibOlm _ KeyPair_UnpickleLibOlm r0 pickled
      = ({| senderChain.RKey := senderChain.RKey _ r;
            senderChain.CKey := senderChain.CKey _ r;
            senderChain.IsSet := senderChain.IsSet _ r0 |}, Ok (n + 36)%nat))
  /\ (isZeroByteSlice (chainKey.Key (senderChain.CKey _ r)) = true ->
      decodedKey (chainKey.Key (senderChain.CKey _ r)) = []).
Proof.
  intros Hn HP HU Hk Hi H72 Ht. cbv zeta.
  assert (U : senderChain.UnpickleLibOlm _ KeyPair_UnpickleLibOlm r0
                (image ++ chainKey.Key (senderChain.CKey _ r)
                 ++ be32_encode (chainKey.Index (senderChain.CKey _ r))
                 ++ skipn (36 + n) target)
              = ({| senderChain.RKey := senderChain.RKey _ r;
                    senderChain.CKey :=
                      {| chainKey.Index :=
                           chainKey.Index (senderChain.CKey _ r);
                         chainKey.Key :=
                           decodedKey (chainKey.Key (senderChain.CKey _ r)) |};
                    senderChain.IsSet := senderChain.IsSet _ r0 |},
                 Ok (n + 36)%nat)).
  { unfold senderChain.UnpickleLibOlm. rewrite HU. cbn [Nat.add].
    rewrite slice_from_fits by (rewrite length_app; lia).
    rewrite skipn_app_exact by exact Hn.
    cbn [senderChain.CKey senderChain.RKey senderChain.IsSet].
    now rewrite chainKey_UnpickleLibOlm_layout by assumption. }
  split; [|split; [exact U|split]].
  - unfold senderChain.PickleLibOlm.
    change (senderChain.senderChainPickleLength) with 72%nat.
    destruct (Nat.ltb_spec (length target) 72) as [H|_]; [lia|].
    rewrite HP by lia. unfold on_suffix.
    rewrite slice_from_fits by (rewrite length_app; lia).
    rewrite skipn_app_exact, firstn_app_exact by exact Hn.
    rewrite chainKey_PickleLibOlm_layout by (rewrite length_skipn; lia).
    rewrite keyMaterial_fixed by exact Hk.
    now rewrite skipn_skipn.
  - intros Hz. rewrite U, (decodedKey_set _ Hz).
    now destruct (senderChain.CKey _ r).
  - apply decodedKey_unset.
Qed.

(** X8.  The guard of 72 bytes does not cover a key pair of more than 36 bytes:
    when the key pair's pickle takes [n] bytes of a target that passed the
    guard and fewer than 36 bytes are left behind them, the call fails with
    the chain key's too-short error, and the key pair is already written. *)
Theorem senderChain_pickle_guard_too_low (n : nat)
    (r : senderChain.t KeyPair) (target target1 : list byte) :
  (72 <= length target)%nat ->
  KeyPair_PickleLibOlm (senderChain.RKey _ r) target = (target1, Ok n) ->
  (n <= length target1)%nat -> (length target1 < n + 36)%nat ->
  senderChain.PickleLibOlm _ KeyPair_PickleLibOlm r target
  = (target1,
     Err (Errorf "pickle sender chain: "
            (Errorf "pickle chain key: " ErrValueTooShort))).
Proof.
  intros H72 HP Hn Hs. unfold senderChain.PickleLibOlm.
  change (senderChain.senderChainPickleLength) with 72%nat.
  destruct (Nat.ltb_spec (length target) 72) as [H|_]; [lia|].
  rewrite HP. unfold on_suffix. rewrite slice_from_fits by exact Hn.
  rewrite chainKey_PickleLibOlm_short by (rewrite length_skipn; lia).
  now rewrite firstn_skipn.
Qed.

End SenderChainPickle.

Lemma senderChain_pickle_roundtrip_witness :
  senderChain.UnpickleLibOlm _ sample_KeyPair_UnpickleLibOlm
    (senderChain.newSenderChain _ [] ([], []))
    ((repeat x01 32 ++ repeat x02 32) ++ repeat x01 32
     ++ libolmpickle.be32_encode 7 ++ skipn (36 + 64) (repeat xff 100))
  = ({| senderChain.RKey := (repeat x01 32, repeat x02 32);
        senderChain.CKey := sample_chainKey;
        senderChain.IsSet := true |}, Ok (64 + 36)%nat).
Proof.
  refine (proj1 (proj2 (proj2
            (senderChain_pickle_roundtrip sample_KeyPair
               sample_KeyPair_PickleLibOlm sample_KeyPair_UnpickleLibOlm
               64 (repeat x01 32 ++ repeat x02 32) sample_senderChain
               (senderChain.newSenderChain _ [] ([], [])) (repeat xff 100)
               _ _ _ _ _ _ _))) _).
  - reflexivity.
  - intros t Ht. unfold sample_KeyPair_PickleLibOlm.
    destruct (Nat.ltb_spec (length t) 64) as [H|_]; [lia | reflexivity].
  - intros k rest. unfold sample_KeyPair_UnpickleLibOlm.
    destruct (Nat.ltb_spec (length ((repeat x01 32 ++ repeat x02 32) ++ rest))
                64) as [H|_].
    + rewrite length_app in H. simpl in H. lia.
    + reflexivity.
  - reflexivity.
  - simpl. lia.
  - vm_compute. lia.
  - vm_compute. lia.
  - reflexivity.
Defined.

Lemma senderChain_pickle_guard_too_low_witness :
  senderChain.PickleLibOlm _ sample_KeyPair_PickleLibOlm sample_senderChain
    (repeat xff 80)
  = (repeat x01 32 ++ repeat x02 32 ++ repeat xff 16,
     Err (Errorf "pickle sender chain: "
            (Errorf "pickle chain key: " ErrValueTooShort))).
Proof.
  apply (senderChain_pickle_guard_too_low sample_KeyPair
           sample_KeyPair_PickleLibOlm 64 sample_senderChain (repeat xff 80)).
  - vm_compute. lia.
  - reflexivity.
  - vm_compute. lia.
  - vm_compute. lia.
Defined.

(** * Chains under repeated advance *)

Section AdvanceMany.

Variable HMACSHA256 : list byte -> list byte -> list byte.

Lemma chainKey_advance_iter_key (c : chainKey.t) (n : nat) :
  chainKey.Key (Nat.iter n (chainKey.advance HMACSHA256) c)
  = Nat.iter n (fun k => HMACSHA256 k [x02]) (chainKey.Key c).
Proof.
  induction n as [|n IH]; [reflexivity|].
  rewrite !Nat.iter_succ. unfold chainKey.advance at 1. cbn [chainKey.Key].
  now rewrite IH.
Qed.

Lemma chainKey_advance_iter_index (c : chainKey.t) (n : nat) :
  0 <= chainKey.Index c < 2 ^ 32 ->
  chainKey.Index (Nat.iter n (chainKey.advance HMACSHA256) c)
  = (chainKey.Index c + Z.of_nat n) mod 2 ^ 32.
Proof.
  intros Hc. induction n as [|n IH].
  - cbn [Nat.iter nat_rect Z.of_nat]. rewrite Z.add_0_r.
    symmetry. apply Z.mod_small. exact Hc.
  - rewrite Nat.iter_succ. unfold chainKey.advance at 1.
    cbn [chainKey.Index]. rewrite IH. unfold wrap32.
    rewrite Z.add_mod_idemp_l by lia. f_equal. lia.
Qed.

(** X9.  After [n] advances of a chain key with a uint32 index, the key is the
    HMAC chain of length [n] over the byte 0x02 and the index is the old one
    plus [n] modulo 2^32; so the index is back at its start exactly when
    2^32 divides [n]. *)
Theorem chainKey_advance_many (c : chainKey.t) (n : nat) :
  0 <= chainKey.Index c < 2 ^ 32 ->
  chainKey.Key (Nat.iter n (chainKey.advance HMACSHA256) c)
  = Nat.iter n (fun k => HMACSHA256 k [x02]) (chainKey.Key c)
  /\ chainKey.Index (Nat.iter n (chainKey.advance HMACSHA256) c)
     = (chainKey.Index c + Z.of_nat n) mod 2 ^ 32
  /\ (chainKey.Index (Nat.iter n (chainKey.advance HMACSHA256) c)
      = chainKey.Index c
      <-> Z.of_nat n mod 2 ^ 32 = 0).
Proof.
  intros Hc. split; [apply chainKey_advance_iter_key|].
  split; [now apply chainKey_advance_iter_index|].
  rewrite chainKey_advance_iter_index by exact Hc.
  change (2 ^ 32) with 4294967296 in *.
  split; intros H.
  - Z.to_euclidean_division_equations. lia.
  - rewrite <- Z.add_mod_idemp_r, H, Z.add_0_r by lia.
    apply Z.mod_small. exact Hc.
Qed.

(** X10.  A receiver chain and a sender chain start at index 0 and after [n]
    advances stand at index [n mod 2^32] with the HMAC chain of length [n]
    over the chain secret; their ratchet key, and the sender's flag, are
    what they were made with. *)
Theorem new_chains_advance_many (KeyPair : Type)
    (chain ratchet : Curve25519PublicKey.t) (pair : KeyPair) (n : nat) :
  let r := Nat.iter n (receiverChain.advance HMACSHA256)
             (receiverChain.newReceiverChain chain ratchet) in
  let s := Nat.iter n (senderChain.advance KeyPair HMACSHA256)
             (senderChain.newSenderChain KeyPair chain pair) in
  receiverChain.ratchetKey r = ratchet
  /\ receiverChain.chainKey r
     = {| chainKey.Index := Z.of_nat n mod 2 ^ 32;
          chainKey.Key := Nat.iter n (fun k => HMACSHA256 k [x02]) chain |}
  /\ senderChain.ratchetKey _ s = pair
  /\ senderChain.IsSet _ s = true
  /\ senderChain.chainKey _ s = receiverChain.chainKey r.
Proof.
  cbv zeta.
  assert (R : forall m,
    Nat.iter m (receiverChain.advance HMACSHA256)
      (receiverChain.newReceiverChain chain ratchet)
    = {| receiverChain.RKey := ratchet;
         receiverChain.CKey :=
           Nat.iter m (chainKey.advance HMACSHA256)
             {| chainKey.Index := 0; chainKey.Key := chain |} |}).
  { induction m as [|m IH]; [reflexivity|].
    rewrite !Nat.iter_succ, IH. reflexivity. }
  assert (S : forall m,
    Nat.iter m (senderChain.advance KeyPair HMACSHA256)
      (senderChain.newSenderChain KeyPair chain pair)
    = {| senderChain.RKey := pair;
         senderChain.CKey :=
           Nat.iter m (chainKey.advance HMACSHA256)
             {| chainKey.Index := 0; chainKey.Key := chain |};
         senderChain.IsSet := true |}).
  { induction m as [|m IH]; [reflexivity|].
    rewrite !Nat.iter_succ, IH. reflexivity. }
  rewrite R, S.
  unfold receiverChain.ratchetKey, receiverChain.chainKey,
    senderChain.ratchetKey, senderChain.chainKey.
  cbn [receiverChain.RKey receiverChain.CKey senderChain.RKey
       senderChain.CKey senderChain.IsSet].
  repeat split.
  destruct (Nat.iter n (chainKey.advance HMACSHA256)
              {| chainKey.Index := 0; chainKey.Key := chain |})
    as [i k] eqn:E.
  pose proof (chainKey_advance_iter_key
                {| chainKey.Index := 0; chainKey.Key := chain |} n) as Ek.
  pose proof (chainKey_advance_iter_index
                {| chainKey.Index := 0; chainKey.Key := chain |} n
                ltac:(cbn; lia)) as Ei.
  rewrite E in Ek, Ei. cbn in Ek, Ei. now subst.
Qed.

End AdvanceMany.

Lemma chainKey_advance_many_witness :
  chainKey.Key
    (Nat.iter 3 (chainKey.advance (fun k d => d ++ k)) sample_chainKey)
  = Nat.iter 3 (fun k => [x02] ++ k) (chainKey.Key sample_chainKey)
  /\ chainKey.Index
       (Nat.iter 3 (chainKey.advance (fun k d => d ++ k)) sample_chainKey)
     = (chainKey.Index sample_chainKey + Z.of_nat 3) mod 2 ^ 32
  /\ (chainKey.Index
        (Nat.iter 3 (chainKey.advance (fun k d => d ++ k)) sample_chainKey)
      = chainKey.Index sample_chainKey
      <-> Z.of_nat 3 mod 2 ^ 32 = 0).
Proof.
  apply (chainKey_advance_many (fun k d => d ++ k) sample_chainKey 3).
  simpl. lia.
Defined.

(** * Further properties of the key-backup trust check *)

Section TrustSoundness.

Import keybackup.
Open Scope string_scope.
Context {mach : Machine}.

Lemma verifyWith_break_inv (versionInfo : RespRoomKeysVersion)
    (name : string) (key : Ed25519) :
  fst (verifyWith versionInfo name key) = Break ->
  VerifySignatureJSON (AuthData versionInfo) Client_UserID name key
  = (true, None).
Proof.
  unfold verifyWith.
  destruct (VerifySignatureJSON (AuthData versionInfo) Client_UserID name key)
    as [[|] [err|]]; cbn [fst]; intros H; try discriminate H; reflexivity.
Qed.

(** The loop body breaks only at an ed25519 entry whose key, the master key
    or the signing key of a known and trusted device, verified the
    signature. *)
Lemma verifyBody_break_inv (w : World) (versionInfo : RespRoomKeysVersion)
    (cs : CrossSigningPublicKeysCache) (keyID : KeyID) :
  fst (verifyBody w versionInfo cs keyID) = Break ->
  fst (Parse keyID) = KeyAlgorithmEd25519
  /\ exists key,
      (snd (Parse keyID) = MasterKey cs /\ key = MasterKey cs
       \/ snd (Parse keyID) <> MasterKey cs
          /\ exists device,
              GetDevice w Client_UserID (snd (Parse keyID))
              = inl (Some device)
              /\ IsDeviceTrusted w device = true
              /\ key = SigningKey device)
      /\ VerifySignatureJSON (AuthData versionInfo) Client_UserID
           (snd (Parse keyID)) key
         = (true, None).
Proof.
  unfold verifyBody. destruct (Parse keyID) as [alg name]. cbn [fst snd].
  destruct (String.eqb_spec alg KeyAlgorithmEd25519) as [Ha|Ha];
    cbn [negb]; [|discriminate].
  destruct (String.eqb_spec name (MasterKey cs)) as [Hm|Hm].
  - intros H. apply verifyWith_break_inv in H.
    split; [exact Ha|]. exists (MasterKey cs). split; [now left | exact H].
  - destruct (GetDevice w Client_UserID name) as [[device|]|err] eqn:Hd;
      try discriminate.
    destruct (IsDeviceTrusted w device) eqn:Ht; cbn [negb]; [|discriminate].
    intros H. apply verifyWith_break_inv in H.
    split; [exact Ha|]. exists (SigningKey device).
    split; [|exact H]. right. split; [exact Hm|]. now exists device.
Qed.

Lemma verifyLoop_true_inv (w : World) (versionInfo : RespRoomKeysVersion)
    (cs : CrossSigningPublicKeysCache) (sigs : list (KeyID * string)) :
  fst (verifyLoop w versionInfo cs sigs) = Done true ->
  exists e, In e sigs /\ fst (verifyBody w versionInfo cs (fst e)) = Break.
Proof.
  induction sigs as [|[keyID sg] rest IH]; [discriminate|].
  cbn [verifyLoop].
  destruct (verifyBody w versionInfo cs keyID) as [[| |err] evs] eqn:E.
  - destruct (verifyLoop w versionInfo cs rest) as [p evs']. cbn [fst] in *.
    intros H. destruct (IH H) as (e & He & Hb). exists e. split; [now right|].
    exact Hb.
  - intros _. exists (keyID, sg). split; [now left|]. cbn [fst]. now rewrite E.
  - discriminate.
Qed.

(** X11.  The call panics exactly when no recovery key was handed in and the
    backup version was fetched and has the supported algorithm: a failing
    fetch and an unsupported algorithm are reported as errors before the key
    is touched, and with a key the call never panics. *)
Theorem GetAndVerify_faults_iff (w : World)
    (megolmBackupKey : option MegolmBackupKey) :
  fst (GetAndVerifyLatestKeyBackupVersion w megolmBackupKey) = Fault
  <-> megolmBackupKey = None
      /\ exists versionInfo,
          GetKeyBackupLatestVersion w = inl versionInfo
          /\ Algorithm versionInfo = KeyBackupAlgorithmMegolmBackupV1.
Proof.
  unfold GetAndVerifyLatestKeyBackupVersion.
  destruct (GetKeyBackupLatestVersion w) as [versionInfo|err].
  - destruct (String.eqb_spec (Algorithm versionInfo)
                KeyBackupAlgorithmMegolmBackupV1) as [Ha|Ha]; cbn [negb].
    + destruct megolmBackupKey as [key|].
      * split; [|intros [H _]; discriminate H].
        cbn [andb].
        destruct (PublicKey (AuthData versionInfo)
                  =? EncodeToString (PublicKeyBytes key)); [discriminate|].
        destruct (lookup Client_UserID (Signatures (AuthData versionInfo)))
          as [sigs|]; [|discriminate].
        destruct (GetOwnCrossSigningPublicKeys w) as [cs|]; [|discriminate].
        destruct (verifyLoop w versionInfo cs sigs) as [[err|[|]] evs];
          discriminate.
      * split; [intros _|reflexivity].
        split; [reflexivity|]. now exists versionInfo.
    + split; [discriminate|].
      intros (_ & v & Hv & Hv'). injection Hv as <-. contradiction.
  - split; [discriminate|]. intros (_ & v & Hv & _). discriminate Hv.
Qed.

(** X12.  The call returns a version info only with evidence: it is the version
    the server returned, of the supported algorithm, and either its public
    key is the one derived from the recovery key, or the owner's signatures
    hold an ed25519 entry that VerifySignatureJSON accepted under the
    cached master key or under the signing key of a device the store knows
    and the machine trusts. *)
Theorem GetAndVerify_trusts_with_evidence (w : World)
    (megolmBackupKey : option MegolmBackupKey)
    (versionInfo : RespRoomKeysVersion) :
  fst (GetAndVerifyLatestKeyBackupVersion w megolmBackupKey) = Ok versionInfo ->
  GetKeyBackupLatestVersion w = inl versionInfo
  /\ Algorithm versionInfo = KeyBackupAlgorithmMegolmBackupV1
  /\ exists key,
      megolmBackupKey = Some key
      /\ (PublicKey (AuthData versionInfo)
          = EncodeToString (PublicKeyBytes key)
          \/ exists sigs cs keyID sg signingKey,
              lookup Client_UserID (Signatures (AuthData versionInfo))
              = Some sigs
              /\ GetOwnCrossSigningPublicKeys w = Some cs
              /\ In (keyID, sg) sigs
              /\ fst (Parse keyID) = KeyAlgorithmEd25519
              /\ (snd (Parse keyID) = MasterKey cs
                  /\ signingKey = MasterKey cs
                  \/ snd (Parse keyID) <> MasterKey cs
                     /\ exists device,
                         GetDevice w Client_UserID (snd (Parse keyID))
                         = inl (Some device)
                         /\ IsDeviceTrusted w device = true
                         /\ signingKey = SigningKey device)
              /\ VerifySignatureJSON (AuthData versionInfo) Client_UserID
                   (snd (Parse keyID)) signingKey
                 = (true, None)).
Proof.
  unfold GetAndVerifyLatestKeyBackupVersion.
  destruct (GetKeyBackupLatestVersion w) as [v|err]; [|discriminate].
  destruct (String.eqb_spec (Algorithm v) KeyBackupAlgorithmMegolmBackupV1)
    as [Ha|Ha]; cbn [negb]; [|discriminate].
  destruct megolmBackupKey as [key|]; [|discriminate]. cbn [andb].
  destruct (String.eqb_spec (PublicKey (AuthData v))
              (EncodeToString (PublicKeyBytes key))) as [Hp|Hp].
  - cbn [fst]. intros H. injection H as <-.
    split; [reflexivity|]. split; [exact Ha|]. exists key.
    split; [reflexivity | now left].
  - destruct (lookup Client_UserID (Signatures (AuthData v))) as [sigs|] eqn:Hs;
      [|discriminate].
    destruct (GetOwnCrossSigningPublicKeys w) as [cs|] eqn:Hc; [|discriminate].
    destruct (verifyLoop w v cs sigs) as [[err|[|]] evs] eqn:Hl;
      try discriminate.
    cbn [fst]. intros H. injection H as <-.
    split; [reflexivity|]. split; [exact Ha|]. exists key.
    split; [reflexivity|]. right.
    assert (Hl' : fst (verifyLoop w v cs sigs) = Done true) by now rewrite Hl.
    destruct (verifyLoop_true_inv w v cs sigs Hl') as ([keyID sg] & Hin & Hb).
    cbn [fst] in Hb.
    destruct (verifyBody_break_inv w v cs keyID Hb) as (Halg & k & Hk & Hv).
    exists sigs, cs, keyID, sg, k. repeat split; assumption.
Qed.

End TrustSoundness.

Section TrustOrder.

Import keybackup.
Open Scope string_scope.
Context {mach : Machine}.

Lemma verifyLoop_without_return (w : World)
    (versionInfo : RespRoomKeysVersion) (cs : CrossSigningPublicKeysCache)
    (sigs : list (KeyID * string)) :
  (forall e, In e sigs ->
     forall err, fst (verifyBody w versionInfo cs (fst e)) <> ReturnErr err) ->
  fst (verifyLoop w versionInfo cs sigs) = Done true
  /\ (exists e, In e sigs /\ fst (verifyBody w versionInfo cs (fst e)) = Break)
  \/ fst (verifyLoop w versionInfo cs sigs) = Done false
     /\ (forall e, In e sigs ->
           fst (verifyBody w versionInfo cs (fst e)) = Continue).
Proof.
  induction sigs as [|[keyID sg] rest IH]; intros Hno.
  - right. split; [reflexivity | intros e []].
  - cbn [verifyLoop].
    destruct (verifyBody w versionInfo cs keyID) as [[| |err] evs] eqn:E.
    + destruct IH as [[H1 (e & He & Hb)]|[H1 H2]].
      * intros e He. apply Hno. now right.
      * left. destruct (verifyLoop w versionInfo cs rest) as [p evs'].
        split; [exact H1|]. exists e. split; [now right | exact Hb].
      * right. destruct (verifyLoop w versionInfo cs rest) as [p evs'].
        split; [exact H1|]. intros e [<-|He]; [|now apply H2].
        cbn [fst]. now rewrite E.
    + left. split; [reflexivity|]. exists (keyID, sg).
      split; [now left|]. cbn [fst]. now rewrite E.
    + exfalso. apply (Hno (keyID, sg) (or_introl eq_refl) err).
      cbn [fst]. now rewrite E.
Qed.

(** X13.  As long as no device lookup fails in the store, the verdict of the
    signature loop does not depend on the order in which the map of the
    owner's signatures is ranged over. *)
Theorem verifyLoop_order_independent (w : World)
    (versionInfo : RespRoomKeysVersion) (cs : CrossSigningPublicKeysCache)
    (sigs sigs' : list (KeyID * string)) :
  Permutation sigs sigs' ->
  (forall e, In e sigs ->
     forall err, fst (verifyBody w versionInfo cs (fst e)) <> ReturnErr err) ->
  fst (verifyLoop w versionInfo cs sigs')
  = fst (verifyLoop w versionInfo cs sigs).
Proof.
  intros P Hno.
  assert (Hno' : forall e, In e sigs' ->
            forall err,
              fst (verifyBody w versionInfo cs (fst e)) <> ReturnErr err).
  { intros e He. apply Hno. apply (Permutation_in e (Permutation_sym P) He). }
  destruct (verifyLoop_without_return w versionInfo cs sigs Hno)
    as [[H1 (e & He & Hb)]|[H1 H2]];
    destruct (verifyLoop_without_return w versionInfo cs sigs' Hno')
      as [[H1' (e' & He' & Hb')]|[H1' H2']]; rewrite H1, H1'; try reflexivity.
  - exfalso. specialize (H2' e (Permutation_in e P He)).
    rewrite Hb in H2'. discriminate H2'.
  - exfalso. specialize (H2 e' (Permutation_in e' (Permutation_sym P) He')).
    rewrite Hb' in H2. discriminate H2.
Qed.

End TrustOrder.

Lemma GetAndVerify_trusts_with_evidence_witness :
  keybackup.Algorithm keybackup_samples.mixed_version
  = keybackup.KeyBackupAlgorithmMegolmBackupV1.
Proof.
  exact (proj1 (proj2 (GetAndVerify_trusts_with_evidence
                         (mach := keybackup_samples.machine_of
                                    keybackup_samples.mixed_version)
                         [] (Some [x01]) keybackup_samples.mixed_version
                         eq_refl))).
Defined.

Lemma verifyLoop_order_independent_witness :
  fst (keybackup.verifyLoop
         (mach := keybackup_samples.machine_of keybackup_samples.mixed_version)
         [] keybackup_samples.mixed_version
         keybackup_samples.sample_crossSigning
         (rev (firstn 4 keybackup_samples.mixed_signatures)))
  = fst (keybackup.verifyLoop
           (mach := keybackup_samples.machine_of
                      keybackup_samples.mixed_version)
           [] keybackup_samples.mixed_version
           keybackup_samples.sample_crossSigning
           (firstn 4 keybackup_samples.mixed_signatures)).
Proof.
  apply (verifyLoop_order_independent
           (mach := keybackup_samples.machine_of
                      keybackup_samples.mixed_version)).
  - apply Permutation_rev.
  - intros e [<-|[<-|[<-|[<-|[]]]]] err; vm_compute; discriminate.
Defined.

(** * Further properties of the import of a room key *)

Section ImportCases.

Import keybackup.
Open Scope string_scope.
Context {mach : Machine}.

Variable w : World.
Variable version : KeyBackupVersion.
Variable roomID : RoomID.
Variable sessionID : SessionID.
Variable data : MegolmSessionData.

(** The path of ImportRoomKeyFromBackup behind its three checks. *)
Lemma import_stored_path (igsInternal : InternalSession) :
  SessionAlgorithm data = AlgorithmMegolmV1 ->
  InboundGroupSessionImport (SessionKey data) = inl igsInternal ->
  ID igsInternal = sessionID ->
  exists evs0,
    putCalls evs0 = [] /\ markCalls evs0 = []
    /\ ImportRoomKeyFromBackup w version roomID sessionID data
       = let igs :=
           sessionFromBackup w version roomID sessionID data igsInternal in
         match PutGroupSession w igs with
         | (w1, Some err) =>
             (inr (Errorf "failed to store new inbound group session: " err),
              w1, (evs0 ++ [CallPutGroupSession igs])%list)
         | (w1, None) =>
             (inl igs,
              markSessionReceived w1 roomID sessionID
                (FirstKnownIndex igsInternal),
              (evs0
               ++ [CallPutGroupSession igs;
                   CallMarkSessionReceived roomID sessionID
                     (FirstKnownIndex igsInternal)])%list)
         end.
Proof.
  intros Ha Hi Hid.
  exists (CallInboundGroupSessionImport (SessionKey data)
          :: snd (rotationOf w roomID)
          ++ (if (0 <? FirstKnownIndex igsInternal)%Z
              then [Log Warn "Importing partial session"
                      [("first_known_index", FirstKnownIndex igsInternal)]]
              else []))%list.
  unfold ImportRoomKeyFromBackup, sessionFromBackup, rotationOf.
  rewrite Ha, String.eqb_refl, Hi, Hid, String.eqb_refl. cbn [negb].
  destruct (GetEncryptionEvent w roomID) as [[config|]|err];
    destruct (0 <? FirstKnownIndex igsInternal)%Z;
    (split; [reflexivity|]); (split; [reflexivity|]); reflexivity.
Qed.

Lemma import_cases :
  SessionAlgorithm data <> AlgorithmMegolmV1
  /\ ImportRoomKeyFromBackup w version roomID sessionID data
     = (inr (ErrorString ("ignoring room key in backup with weird algorithm "
                          ++ SessionAlgorithm data)), w, [])
  \/ SessionAlgorithm data = AlgorithmMegolmV1
     /\ ((exists err,
            InboundGroupSessionImport (SessionKey data) = inr err
            /\ ImportRoomKeyFromBackup w version roomID sessionID data
               = (inr (Errorf "failed to import inbound group session: " err),
                  w, [CallInboundGroupSessionImport (SessionKey data)]))
         \/ exists igsInternal,
             InboundGroupSessionImport (SessionKey data) = inl igsInternal
             /\ (ID igsInternal <> sessionID
                 /\ ImportRoomKeyFromBackup w version roomID sessionID data
                    = (inr (ErrorString
                              "mismatched session ID while creating inbound group session from key backup"),
                       w,
                       [CallInboundGroupSessionImport (SessionKey data);
                        Log Warn
                          "Mismatched session ID while creating inbound group session from key backup"
                          []])
                 \/ ID igsInternal = sessionID
                    /\ exists evs0,
                        putCalls evs0 = [] /\ markCalls evs0 = []
                        /\ ImportRoomKeyFromBackup w version roomID sessionID
                             data
                           = let igs :=
                               sessionFromBackup w version roomID sessionID
                                 data igsInternal in
                             match PutGroupSession w igs with
                             | (w1, Some err) =>
                                 (inr (Errorf
                                         "failed to store new inbound group session: "
                                         err),
                                  w1, (evs0 ++ [CallPutGroupSession igs])%list)
                             | (w1, None) =>
                                 (inl igs,
                                  markSessionReceived w1 roomID sessionID
                                    (FirstKnownIndex igsInternal),
                                  (evs0
                                   ++ [CallPutGroupSession igs;
                                       CallMarkSessionReceived roomID sessionID
                                         (FirstKnownIndex igsInternal)])%list)
                             end)).
Proof.
  destruct (String.eqb_spec (SessionAlgorithm data) AlgorithmMegolmV1)
    as [Ha|Ha].
  - right. split; [exact Ha|].
    destruct (InboundGroupSessionImport (SessionKey data))
      as [igsInternal|err] eqn:Hi.
    + right. exists igsInternal. split; [reflexivity|].
      destruct (String.eqb_spec (ID igsInternal) sessionID) as [Hid|Hid].
      * right. split; [exact Hid|].
        exact (import_stored_path igsInternal Ha Hi Hid).
      * left. split; [exact Hid|]. unfold ImportRoomKeyFromBackup.
        rewrite Ha, String.eqb_refl, Hi. cbn [negb].
        apply String.eqb_neq in Hid. now rewrite Hid.
    + left. exists err. split; [reflexivity|].
      unfold ImportRoomKeyFromBackup.
      now rewrite Ha, String.eqb_refl, Hi.
  - left. split; [exact Ha|]. now apply import_weird_algorithm.
Qed.

End ImportCases.

Section ImportOutcomes.

Import keybackup.
Open Scope string_scope.
Context {mach : Machine}.

Lemma import_returned_session_built (w : World) (version : KeyBackupVersion)
    (roomID : RoomID) (sessionID : SessionID) (data : MegolmSessionData)
    (igs : InboundGroupSession) :
  fst (fst (ImportRoomKeyFromBackup w version roomID sessionID data)) = inl igs ->
  igs = sessionFromBackup w version roomID sessionID data (igs_Internal igs).
Proof.
  destruct (import_cases w version roomID sessionID data)
    as [[Ha E]|[Ha [(err & Hi & E)|(internal & Hi & [[Hid E]|(Hid & evs0 & _ & _ & E)])]]];
    rewrite E; clear E; try discriminate.
  cbv zeta.
  destruct (PutGroupSession w
              (sessionFromBackup w version roomID sessionID data internal))
    as [w1 [err|]]; [discriminate|].
  cbn [fst]. intros H. injection H as <-. reflexivity.
Qed.

(** X14.  ImportRoomKeyFromBackup returns a session exactly when the entry has the
    Megolm algorithm, its session key imports to a session with the claimed
    ID, and the crypto store accepts the session built from the entry; the
    session returned is that one. *)
Theorem import_returns_session_iff (w : World) (version : KeyBackupVersion)
    (roomID : RoomID) (sessionID : SessionID) (data : MegolmSessionData)
    (igs : InboundGroupSession) :
  fst (fst (ImportRoomKeyFromBackup w version roomID sessionID data)) = inl igs
  <-> SessionAlgorithm data = AlgorithmMegolmV1
      /\ InboundGroupSessionImport (SessionKey data) = inl (igs_Internal igs)
      /\ ID (igs_Internal igs) = sessionID
      /\ igs = sessionFromBackup w version roomID sessionID data
                 (igs_Internal igs)
      /\ snd (PutGroupSession w igs) = None.
Proof.
  destruct (import_cases w version roomID sessionID data)
    as [[Ha E]|[Ha [(err & Hi & E)|(internal & Hi & [[Hid E]|(Hid & evs0 & _ & _ & E)])]]];
    rewrite E; clear E.
  - split; [discriminate | intros (Ha' & _); contradiction].
  - split; [discriminate|]. intros (_ & Hi' & _). rewrite Hi in Hi'.
    discriminate Hi'.
  - split; [discriminate|]. intros (_ & Hi' & Hid' & _). rewrite Hi in Hi'.
    injection Hi' as ->. contradiction.
  - cbv zeta.
    destruct (PutGroupSession w
                (sessionFromBackup w version roomID sessionID data internal))
      as [w1 [err|]] eqn:Hp; cbn [fst].
    + split; [discriminate|]. intros (_ & Hi' & _ & Higs & Hput).
      rewrite Hi in Hi'. injection Hi' as Hint. rewrite <- Hint in Higs.
      rewrite Higs, Hp in Hput. discriminate Hput.
    + split.
      * intros H. injection H as <-. cbn [igs_Internal sessionFromBackup].
        repeat split; try assumption. now rewrite Hp.
      * intros (_ & Hi' & _ & Higs & _). rewrite Hi in Hi'.
        injection Hi' as Hint. rewrite <- Hint in Higs. now rewrite Higs.
Qed.

(** X15.  When ImportRoomKeyFromBackup returns a session, the session carries the
    claimed ID, which is also the ID of its ratchet, the room, the backup
    version and the forwarding chain of the entry with the sender key
    appended; it was handed to the crypto store once, the waiters were told
    once, after the store, and nothing else was done to the world. *)
Theorem import_success_effects (w w' : World) (version : KeyBackupVersion)
    (roomID : RoomID) (sessionID : SessionID) (data : MegolmSessionData)
    (igs : InboundGroupSession) (evs : list event) :
  ImportRoomKeyFromBackup w version roomID sessionID data = (inl igs, w', evs) ->
  igs_id igs = sessionID
  /\ ID (igs_Internal igs) = sessionID
  /\ igs_RoomID igs = roomID
  /\ igs_KeyBackupVersion igs = version
  /\ igs_ForwardingChains igs
     = (ForwardingKeyChain data ++ [SenderKey data])%list
  /\ putCalls evs = [igs]
  /\ markCalls evs
     = [(roomID, sessionID, FirstKnownIndex (igs_Internal igs))]
  /\ w' = markSessionReceived (fst (PutGroupSession w igs)) roomID sessionID
            (FirstKnownIndex (igs_Internal igs)).
Proof.
  destruct (import_cases w version roomID sessionID data)
    as [[Ha E]|[Ha [(err & Hi & E)|(internal & Hi & [[Hid E]|(Hid & evs0 & P0 & M0 & E)])]]];
    rewrite E; clear E; try discriminate.
  cbv zeta.
  destruct (PutGroupSession w
              (sessionFromBackup w version roomID sessionID data internal))
    as [w1 [err|]] eqn:Hp; [discriminate|].
  intros H. injection H as <- <- <-.
  cbn [igs_id igs_Internal igs_RoomID igs_KeyBackupVersion
       igs_ForwardingChains sessionFromBackup].
  rewrite putCalls_app, P0, Hp.
  assert (M : forall a b, markCalls (a ++ b) = (markCalls a ++ markCalls b)%list).
  { induction a as [|ev a IH]; intros b; [reflexivity|].
    destruct ev; cbn; now rewrite IH. }
  rewrite M, M0. repeat split; assumption.
Qed.

(** X16.  When ImportRoomKeyFromBackup returns an error, the waiters were not
    told of any session.  Either nothing was handed to the store and the
    world is as it was, or the store was handed the session built from the
    entry and refused it: the error wraps the store's, and the world is what
    the store left. *)
Theorem import_failure_effects (w w' : World) (version : KeyBackupVersion)
    (roomID : RoomID) (sessionID : SessionID) (data : MegolmSessionData)
    (e : error) (evs : list event) :
  ImportRoomKeyFromBackup w version roomID sessionID data = (inr e, w', evs) ->
  markCalls evs = []
  /\ (putCalls evs = [] /\ w' = w
      \/ exists igsInternal err,
          InboundGroupSessionImport (SessionKey data) = inl igsInternal
          /\ ID igsInternal = sessionID
          /\ putCalls evs
             = [sessionFromBackup w version roomID sessionID data igsInternal]
          /\ PutGroupSession w
               (sessionFromBackup w version roomID sessionID data igsInternal)
             = (w', Some err)
          /\ e = Errorf "failed to store new inbound group session: " err).
Proof.
  assert (M : forall a b, markCalls (a ++ b) = (markCalls a ++ markCalls b)%list).
  { induction a as [|ev a IH]; intros b; [reflexivity|].
    destruct ev; cbn; now rewrite IH. }
  destruct (import_cases w version roomID sessionID data)
    as [[Ha E]|[Ha [(err & Hi & E)|(internal & Hi & [[Hid E]|(Hid & evs0 & P0 & M0 & E)])]]];
    rewrite E; clear E.
  - intros H. injection H as <- <- <-. split; [reflexivity | now left].
  - intros H. injection H as <- <- <-. split; [reflexivity | now left].
  - intros H. injection H as <- <- <-. split; [reflexivity | now left].
  - cbv zeta.
    destruct (PutGroupSession w
                (sessionFromBackup w version roomID sessionID data internal))
      as [w1 [err|]] eqn:Hp; [|discriminate].
    intros H. injection H as <- <- <-.
    rewrite M, M0, putCalls_app, P0. split; [reflexivity|].
    right. exists internal, err. repeat split; assumption.
Qed.

(** X17.  The rotation settings of a session that was imported.  For a room with
    an encryption event, [MaxMessages] is the event's message count, and
    [MaxAge] is its period in milliseconds exactly when the period is at
    most 9223372036854 ms in size: a longer one does not survive the
    conversion to a Duration in nanoseconds and back.  Without an event, and
    when the lookup of the event fails, both are 0. *)
Theorem import_rotation_settings (w w' : World) (version : KeyBackupVersion)
    (roomID : RoomID) (sessionID : SessionID) (data : MegolmSessionData)
    (igs : InboundGroupSession) (evs : list event) :
  ImportRoomKeyFromBackup w version roomID sessionID data = (inl igs, w', evs) ->
  match GetEncryptionEvent w roomID with
  | inl (Some config) =>
      igs_MaxMessages igs = RotationPeriodMessages config
      /\ (igs_MaxAge igs = RotationPeriodMillis config
          <-> (-9223372036854 <= RotationPeriodMillis config
               <= 9223372036854)%Z)
  | _ => igs_MaxAge igs = 0%Z /\ igs_MaxMessages igs = 0%Z
  end.
Proof.
  intros H.
  assert (Higs : fst (fst (ImportRoomKeyFromBackup w version roomID sessionID
                             data)) = inl igs) by now rewrite H.
  apply import_returned_session_built in Higs. rewrite Higs.
  cbn [igs_MaxAge igs_MaxMessages sessionFromBackup]. unfold rotationOf.
  destruct (GetEncryptionEvent w roomID) as [[config|]|err]; cbn [fst snd].
  - split; [reflexivity|].
    unfold Milliseconds, wrap_int64, Millisecond.
    change (2 ^ 63)%Z with 9223372036854775808%Z.
    change (2 ^ 64)%Z with 18446744073709551616%Z.
    split.
    + intros Hq.
      pose proof (Z.mod_pos_bound
                    (RotationPeriodMillis config * 1000000
                     + 9223372036854775808)
                    18446744073709551616 ltac:(lia)) as B.
      set (x := ((RotationPeriodMillis config * 1000000
                  + 9223372036854775808) mod 18446744073709551616
                 - 9223372036854775808)%Z) in *.
      assert (Bx : (-9223372036854775808 <= x < 9223372036854775808)%Z)
        by lia.
      clearbody x. clear B.
      Z.to_euclidean_division_equations. lia.
    + intros Hr. rewrite Z.mod_small by lia.
      replace (RotationPeriodMillis config * 1000000 + 9223372036854775808
               - 9223372036854775808)%Z
        with (RotationPeriodMillis config * 1000000)%Z by lia.
      apply Z.quot_mul. lia.
  - split; reflexivity.
  - split; reflexivity.
Qed.

End ImportOutcomes.

Section ImportAtSamples.

Import keybackup keybackup_samples.
Open Scope string_scope.

Lemma import_success_effects_witness :
  igs_id
    (sessionFromBackup (mach := machine_of mixed_version) [] "1" "!a" "s1"
       (sample_session AlgorithmMegolmV1 "s1")
       {| ID := "s1"; FirstKnownIndex := 0 |})
  = "s1".
Proof.
  exact (proj1 (import_success_effects (mach := machine_of mixed_version)
                  []
                  [sessionFromBackup (mach := machine_of mixed_version)
                     [] "1" "!a" "s1" (sample_session AlgorithmMegolmV1 "s1")
                     {| ID := "s1"; FirstKnownIndex := 0 |}]
                  "1" "!a" "s1" (sample_session AlgorithmMegolmV1 "s1")
                  (sessionFromBackup (mach := machine_of mixed_version)
                     [] "1" "!a" "s1" (sample_session AlgorithmMegolmV1 "s1")
                     {| ID := "s1"; FirstKnownIndex := 0 |})
                  [CallInboundGroupSessionImport "s1";
                   CallPutGroupSession
                     (sessionFromBackup (mach := machine_of mixed_version)
                        [] "1" "!a" "s1"
                        (sample_session AlgorithmMegolmV1 "s1")
                        {| ID := "s1"; FirstKnownIndex := 0 |});
                   CallMarkSessionReceived "!a" "s1" 0]
                  eq_refl)).
Defined.

Lemma import_failure_effects_witness :
  markCalls
    [CallInboundGroupSessionImport "s1";
     CallPutGroupSession
       (sessionFromBackup (mach := machine_of mixed_version)
          [] "1" "!full" "s1" (sample_session AlgorithmMegolmV1 "s1")
          {| ID := "s1"; FirstKnownIndex := 0 |})]
  = [].
Proof.
  exact (proj1 (import_failure_effects (mach := machine_of mixed_version)
                  [] [] "1" "!full" "s1"
                  (sample_session AlgorithmMegolmV1 "s1")
                  (Errorf "failed to store new inbound group session: "
                     (ErrorString "disk full"))
                  [CallInboundGroupSessionImport "s1";
                   CallPutGroupSession
                     (sessionFromBackup (mach := machine_of mixed_version)
                        [] "1" "!full" "s1"
                        (sample_session AlgorithmMegolmV1 "s1")
                        {| ID := "s1"; FirstKnownIndex := 0 |})]
                  eq_refl)).
Defined.

Lemma import_rotation_settings_witness :
  igs_MaxMessages
    (sessionFromBackup
       (mach := rotatingMachine
                  {| RotationPeriodMillis := 604800000;
                     RotationPeriodMessages := 100 |})
       [] "1" "!a" "s1" (sample_session AlgorithmMegolmV1 "s1")
       {| ID := "s1"; FirstKnownIndex := 0 |})
  = 100%Z
  /\ (igs_MaxAge
        (sessionFromBackup
           (mach := rotatingMachine
                      {| RotationPeriodMillis := 604800000;
                         RotationPeriodMessages := 100 |})
           [] "1" "!a" "s1" (sample_session AlgorithmMegolmV1 "s1")
           {| ID := "s1"; FirstKnownIndex := 0 |})
      = 604800000%Z
      <-> (-9223372036854 <= 604800000 <= 9223372036854)%Z).
Proof.
  exact (import_rotation_settings
           (mach := rotatingMachine
                      {| RotationPeriodMillis := 604800000;
                         RotationPeriodMessages := 100 |})
           []
           [sessionFromBackup
              (mach := rotatingMachine
                         {| RotationPeriodMillis := 604800000;
                            RotationPeriodMessages := 100 |})
              [] "1" "!a" "s1" (sample_session AlgorithmMegolmV1 "s1")
              {| ID := "s1"; FirstKnownIndex := 0 |}]
           "1" "!a" "s1" (sample_session AlgorithmMegolmV1 "s1")
           (sessionFromBackup
              (mach := rotatingMachine
                         {| RotationPeriodMillis := 604800000;
                            RotationPeriodMessages := 100 |})
              [] "1" "!a" "s1" (sample_session AlgorithmMegolmV1 "s1")
              {| ID := "s1"; FirstKnownIndex := 0 |})
           [CallInboundGroupSessionImport "s1";
            CallPutGroupSession
              (sessionFromBackup
                 (mach := rotatingMachine
                            {| RotationPeriodMillis := 604800000;
                               RotationPeriodMessages := 100 |})
                 [] "1" "!a" "s1" (sample_session AlgorithmMegolmV1 "s1")
                 {| ID := "s1"; FirstKnownIndex := 0 |});
            CallMarkSessionReceived "!a" "s1" 0]
           eq_refl).
Defined.

End ImportAtSamples.

(** * Further properties of the restore *)

Section RestoreEffects.

Import keybackup.
Open Scope string_scope.
Context {mach : Machine}.

Variable version : KeyBackupVersion.
Variable megolmBackupKey : option MegolmBackupKey.

Lemma markCalls_app (evs evs' : list event) :
  markCalls (evs ++ evs') = (markCalls evs ++ markCalls evs')%list.
Proof.
  induction evs as [|ev evs IH]; [reflexivity|].
  destruct ev; cbn; now rewrite IH.
Qed.

Lemma verifyCalls_app (evs evs' : list event) :
  verifyCalls (evs ++ evs') = (verifyCalls evs ++ verifyCalls evs')%list.
Proof.
  induction evs as [|ev evs IH]; [reflexivity|].
  destruct ev; cbn; now rewrite IH.
Qed.

Ltac import_effects_case :=
  cbn; repeat split; try lia;
  repeat match goal with
    | H : False |- _ => destruct H
    | H : _ = _ \/ False |- _ => destruct H as [<-|[]]
    end;
  cbn; try assumption; try reflexivity.

Lemma import_effects (w : World) (roomID : RoomID) (sessionID : SessionID)
    (data : MegolmSessionData) :
  let '(res, _, evs) :=
    ImportRoomKeyFromBackup w version roomID sessionID data in
  (length (putCalls evs) <= 1)%nat
  /\ (forall igs, In igs (putCalls evs) ->
        igs_KeyBackupVersion igs = version /\ igs_RoomID igs = roomID
        /\ igs_id igs = sessionID /\ ID (igs_Internal igs) = sessionID)
  /\ verifyCalls evs = []
  /\ match res with
     | inl _ => length (markCalls evs) = 1%nat /\ length (putCalls evs) = 1%nat
     | inr _ => markCalls evs = []
     end.
Proof.
  unfold ImportRoomKeyFromBackup.
  destruct (negb (SessionAlgorithm data =? AlgorithmMegolmV1));
    [import_effects_case|].
  destruct (InboundGroupSessionImport (SessionKey data)) as [internal|err];
    [|import_effects_case].
  destruct (String.eqb_spec (ID internal) sessionID) as [Hid|Hid];
    cbn [negb]; [|import_effects_case].
  destruct (GetEncryptionEvent w roomID) as [[config|]|err];
    destruct (0 <? FirstKnownIndex internal)%Z;
    match goal with
    | |- context [PutGroupSession w ?i] =>
        destruct (PutGroupSession w i) as [w1 [err'|]]
    end;
    import_effects_case.
Qed.

Lemma importSession_effects (roomID : RoomID) (st : progress)
    (sessionID : SessionID) (data : EncryptedSessionData) :
  let st' :=
    importSession version megolmBackupKey roomID st (sessionID, data) in
  exists ps ms,
    putCalls (trace st') = (putCalls (trace st) ++ ps)%list
    /\ markCalls (trace st') = (markCalls (trace st) ++ ms)%list
    /\ verifyCalls (trace st') = verifyCalls (trace st)
    /\ count st' = (count st + Z.of_nat (length ms))%Z
    /\ (length ms <= length ps <= 1)%nat
    /\ forall igs, In igs ps ->
         igs_KeyBackupVersion igs = version /\ igs_RoomID igs = roomID
         /\ igs_id igs = sessionID /\ ID (igs_Internal igs) = sessionID.
Proof.
  cbv zeta. unfold importSession.
  destruct (Decrypt data megolmBackupKey) as [sessionData|err].
  - pose proof (import_effects (world st) roomID sessionID sessionData) as E.
    destruct (ImportRoomKeyFromBackup (world st) version roomID sessionID
                sessionData) as [[[igs|err] w'] evs];
      destruct E as (E1 & E2 & E3 & E4); cbn [trace count].
    + destruct E4 as [E4 E5].
      exists (putCalls evs), (markCalls evs).
      rewrite putCalls_app, markCalls_app, verifyCalls_app. cbn.
      rewrite E3, app_nil_r, E4.
      repeat split; try lia; apply E2; assumption.
    + exists (putCalls evs), [].
      rewrite putCalls_app, markCalls_app, verifyCalls_app. cbn.
      rewrite putCalls_app, markCalls_app, verifyCalls_app. cbn.
      rewrite E3, E4, !app_nil_r.
      repeat split; try lia; apply E2; assumption.
  - exists [], []. cbn [trace count].
    rewrite putCalls_app, markCalls_app, verifyCalls_app. cbn.
    rewrite !app_nil_r. repeat split; try lia; contradiction.
Qed.

Lemma importEntries_effects
    (entries : list (RoomID * SessionID * EncryptedSessionData))
    (st : progress) :
  let st' := fold_left (importEntry version megolmBackupKey) entries st in
  exists ps ms,
    putCalls (trace st') = (putCalls (trace st) ++ ps)%list
    /\ markCalls (trace st') = (markCalls (trace st) ++ ms)%list
    /\ verifyCalls (trace st') = verifyCalls (trace st)
    /\ count st' = (count st + Z.of_nat (length ms))%Z
    /\ (length ms <= length ps <= length entries)%nat
    /\ forall igs, In igs ps ->
         igs_KeyBackupVersion igs = version
         /\ In (igs_RoomID igs, igs_id igs) (map fst entries)
         /\ ID (igs_Internal igs) = igs_id igs.
Proof.
  cbv zeta. revert st.
  induction entries as [|[[roomID sessionID] data] entries IH]; intros st.
  - exists [], []. cbn. rewrite !app_nil_r.
    repeat split; try lia; contradiction.
  - cbn [fold_left].
    set (st1 := importEntry version megolmBackupKey st
                  (roomID, sessionID, data)).
    destruct (IH st1) as (ps & ms & P & M & V & C & L & G).
    destruct (importSession_effects roomID st sessionID data)
      as (ps1 & ms1 & P1 & M1 & V1 & C1 & L1 & G1).
    cbv zeta in P1, M1, V1, C1.
    change (importSession version megolmBackupKey roomID st (sessionID, data))
      with st1 in P1, M1, V1, C1.
    exists (ps1 ++ ps)%list, (ms1 ++ ms)%list.
    split; [now rewrite P, P1, app_assoc|].
    split; [now rewrite M, M1, app_assoc|].
    split; [now rewrite V, V1|].
    split; [rewrite C, C1, length_app; lia|].
    split; [rewrite !length_app; cbn [length]; lia|].
    intros igs H. cbn [map fst]. apply in_app_or in H. destruct H as [H|H].
    + destruct (G1 igs H) as (A & B & C' & D). split; [exact A|].
      split; [left; now rewrite B, C' | now rewrite C'].
    + destruct (G igs H) as (A & B & D). split; [exact A|].
      split; [right; exact B | exact D].
Qed.

(** X18.  Every session a restore hands to the crypto store carries the backup
    version being restored, the room and the session ID of an entry of the
    payload, and a ratchet whose own ID is that session ID. *)
Theorem restore_stores_only_payload_sessions (w : World)
    (keys : list (RoomID * list (SessionID * EncryptedSessionData)))
    (igs : InboundGroupSession) :
  GetKeyBackup w version = inl keys ->
  In igs (putCalls (snd (GetAndStoreKeyBackup w version megolmBackupKey))) ->
  igs_KeyBackupVersion igs = version
  /\ In (igs_RoomID igs, igs_id igs) (map fst (backupEntries keys))
  /\ ID (igs_Internal igs) = igs_id igs.
Proof.
  intros Hk. unfold GetAndStoreKeyBackup. rewrite Hk. cbv zeta.
  rewrite importRooms_by_entries. cbn [snd].
  destruct (importEntries_effects (backupEntries keys)
              {| world := w; count := 0; failedCount := 0; trace := [] |})
    as (ps & ms & P & _ & _ & _ & _ & G).
  cbv zeta in P. cbn [trace putCalls app] in P.
  rewrite putCalls_app, P. cbn [putCalls]. rewrite app_nil_r. apply G.
Qed.

(** X19.  The count a restore logs is the number of sessions it announced to the
    waiters, one for each session the store accepted; the failed count is
    the rest of the entries.  No more sessions are handed to the store than
    the payload has entries, and a restore checks no signature. *)
Theorem restore_count_is_sessions_announced (w : World)
    (keys : list (RoomID * list (SessionID * EncryptedSessionData))) :
  GetKeyBackup w version = inl keys ->
  let evs := snd (GetAndStoreKeyBackup w version megolmBackupKey) in
  last evs (Log Info "" [])
  = Log Info "successfully imported sessions from backup"
      [("count", Z.of_nat (length (markCalls evs)));
       ("failed_count",
        (Z.of_nat (length (backupEntries keys))
         - Z.of_nat (length (markCalls evs)))%Z)]
  /\ (length (markCalls evs) <= length (putCalls evs)
      <= length (backupEntries keys))%nat
  /\ verifyCalls evs = [].
Proof.
  intros Hk. unfold GetAndStoreKeyBackup. rewrite Hk. cbv zeta.
  rewrite importRooms_by_entries. cbn [snd].
  destruct (importEntries_effects (backupEntries keys)
              {| world := w; count := 0; failedCount := 0; trace := [] |})
    as (ps & ms & P & M & V & C & L & _).
  destruct (importEntries_tally version megolmBackupKey (backupEntries keys)
              {| world := w; count := 0; failedCount := 0; trace := [] |})
    as (T & _).
  cbv zeta in P, M, V, C, T.
  cbn [trace count failedCount putCalls markCalls verifyCalls app] in P, M, V, C, T.
  rewrite last_last, putCalls_app, markCalls_app, verifyCalls_app, P, M, V.
  cbn [putCalls markCalls verifyCalls]. rewrite !app_nil_r.
  split; [|split; [exact L | reflexivity]].
  do 3 f_equal; [f_equal; lia|]. do 2 f_equal. lia.
Qed.

End RestoreEffects.

(** * Download and store *)

Section Download.

Import keybackup.
Open Scope string_scope.
Context {mach : Machine}.

Lemma verifyLoop_quiet (w : World) (versionInfo : RespRoomKeysVersion)
    (cs : CrossSigningPublicKeysCache) (sigs : list (KeyID * string)) :
  putCalls (snd (verifyLoop w versionInfo cs sigs)) = []
  /\ decryptCalls (snd (verifyLoop w versionInfo cs sigs)) = []
  /\ markCalls (snd (verifyLoop w versionInfo cs sigs)) = [].
Proof.
  induction sigs as [|[keyID sg] rest IH]; [now repeat split|].
  cbn [verifyLoop].
  assert (B : putCalls (snd (verifyBody w versionInfo cs keyID)) = []
              /\ decryptCalls (snd (verifyBody w versionInfo cs keyID)) = []
              /\ markCalls (snd (verifyBody w versionInfo cs keyID)) = []).
  { unfold verifyBody, verifyWith. destruct (Parse keyID) as [alg name].
    destruct (negb (alg =? KeyAlgorithmEd25519)); [now repeat split|].
    destruct (name =? MasterKey cs).
    - destruct (VerifySignatureJSON _ _ _ _) as [[|] [err|]];
        now repeat split.
    - destruct (GetDevice w Client_UserID name) as [[device|]|err];
        try (now repeat split).
      destruct (negb (IsDeviceTrusted w device)); [now repeat split|].
      destruct (VerifySignatureJSON _ _ _ _) as [[|] [err|]];
        now repeat split. }
  destruct (verifyBody w versionInfo cs keyID) as [[| |err] evs];
    cbn [snd] in B; try exact B.
  destruct (verifyLoop w versionInfo cs rest) as [p evs']. cbn [snd] in *.
  rewrite putCalls_app, decryptCalls_app, markCalls_app.
  destruct B as (-> & -> & ->). destruct IH as (-> & -> & ->).
  now repeat split.
Qed.

Lemma GetAndVerify_quiet (w : World)
    (megolmBackupKey : option MegolmBackupKey) :
  putCalls (snd (GetAndVerifyLatestKeyBackupVersion w megolmBackupKey)) = []
  /\ decryptCalls (snd (GetAndVerifyLatestKeyBackupVersion w megolmBackupKey))
     = []
  /\ markCalls (snd (GetAndVerifyLatestKeyBackupVersion w megolmBackupKey))
     = [].
Proof.
  unfold GetAndVerifyLatestKeyBackupVersion.
  destruct (GetKeyBackupLatestVersion w) as [v|err]; [|now repeat split].
  destruct (negb (Algorithm v =? KeyBackupAlgorithmMegolmBackupV1));
    [now repeat split|].
  destruct megolmBackupKey as [key|]; [|now repeat split].
  destruct (true && (PublicKey (AuthData v)
                     =? EncodeToString (PublicKeyBytes key)));
    [now repeat split|].
  destruct (lookup Client_UserID (Signatures (AuthData v))) as [sigs|];
    [|now repeat split].
  destruct (GetOwnCrossSigningPublicKeys w) as [cs|]; [|now repeat split].
  pose proof (verifyLoop_quiet w v cs sigs) as Q.
  destruct (verifyLoop w v cs sigs) as [[err|[|]] evs]; cbn [snd negb] in *;
    rewrite putCalls_app, decryptCalls_app, markCalls_app;
    destruct Q as (-> & -> & ->); now repeat split.
Qed.

Lemma GetAndStore_checks_no_signature (w : World) (version : KeyBackupVersion)
    (megolmBackupKey : option MegolmBackupKey) :
  verifyCalls (snd (GetAndStoreKeyBackup w version megolmBackupKey)) = [].
Proof.
  unfold GetAndStoreKeyBackup.
  destruct (GetKeyBackup w version) as [keys|err]; [|reflexivity].
  cbv zeta. rewrite importRooms_by_entries. cbn [snd].
  destruct (importEntries_effects version megolmBackupKey (backupEntries keys)
              {| world := w; count := 0; failedCount := 0; trace := [] |})
    as (ps & ms & _ & _ & V & _).
  cbv zeta in V. cbn [trace verifyCalls] in V.
  now rewrite verifyCalls_app, V.
Qed.

(** X20.  When the backup cannot be trusted, DownloadAndStoreLatestKeyBackup
    returns the empty version with the error of the trust check; the backup
    is not fetched: nothing is decrypted, nothing handed to the store, no
    waiter told, and the world is as it was. *)
Theorem download_untrusted_does_nothing (w : World)
    (megolmBackupKey : option MegolmBackupKey) (e : error) :
  fst (GetAndVerifyLatestKeyBackupVersion w megolmBackupKey) = Err e ->
  fst (DownloadAndStoreLatestKeyBackup w megolmBackupKey)
  = (Ok ("", Some e), w)
  /\ decryptCalls (snd (DownloadAndStoreLatestKeyBackup w megolmBackupKey))
     = []
  /\ putCalls (snd (DownloadAndStoreLatestKeyBackup w megolmBackupKey)) = []
  /\ markCalls (snd (DownloadAndStoreLatestKeyBackup w megolmBackupKey)) = [].
Proof.
  intros H. unfold DownloadAndStoreLatestKeyBackup.
  pose proof (GetAndVerify_quiet w megolmBackupKey) as Q.
  destruct (GetAndVerifyLatestKeyBackupVersion w megolmBackupKey)
    as [[v|e'|] evs]; cbn [fst snd] in *; try discriminate H.
  injection H as ->. destruct Q as (Q1 & Q2 & Q3). now repeat split.
Qed.

(** X21.  With a recovery key whose derived public key is the backup's,
    DownloadAndStoreLatestKeyBackup goes on to the restore without a single
    signature check, whatever signatures the backup carries and whatever the
    device store holds, and returns the backup's version next to the result
    of the restore: also when the payload cannot be fetched, where the
    version comes back together with the fetch error and the world is as it
    was. *)
Theorem download_with_matching_key (w : World) (key : MegolmBackupKey)
    (versionInfo : RespRoomKeysVersion) :
  GetKeyBackupLatestVersion w = inl versionInfo ->
  Algorithm versionInfo = KeyBackupAlgorithmMegolmBackupV1 ->
  PublicKey (AuthData versionInfo) = EncodeToString (PublicKeyBytes key) ->
  fst (DownloadAndStoreLatestKeyBackup w (Some key))
  = (Ok (Version versionInfo,
         fst (fst (GetAndStoreKeyBackup w (Version versionInfo) (Some key)))),
     snd (fst (GetAndStoreKeyBackup w (Version versionInfo) (Some key))))
  /\ verifyCalls (snd (DownloadAndStoreLatestKeyBackup w (Some key))) = []
  /\ (forall e,
        GetKeyBackup w (Version versionInfo) = inr e ->
        DownloadAndStoreLatestKeyBackup w (Some key)
        = (Ok (Version versionInfo, Some e), w,
           [Log Debug "key backup is trusted based on derived public key" []])).
Proof.
  intros Hf Ha Hp.
  assert (E : GetAndVerifyLatestKeyBackupVersion w (Some key)
              = (Ok versionInfo,
                 [Log Debug "key backup is trusted based on derived public key"
                    []])).
  { unfold GetAndVerifyLatestKeyBackupVersion.
    now rewrite Hf, Ha, String.eqb_refl, Hp, String.eqb_refl. }
  unfold DownloadAndStoreLatestKeyBackup. rewrite E.
  pose proof (GetAndStore_checks_no_signature w (Version versionInfo)
                (Some key)) as V.
  split; [|split].
  - now destruct (GetAndStoreKeyBackup w (Version versionInfo) (Some key))
      as [[err w'] evs].
  - destruct (GetAndStoreKeyBackup w (Version versionInfo) (Some key))
      as [[err w'] evs]. cbn [snd] in *. cbn [app verifyCalls]. exact V.
  - intros e He. unfold GetAndStoreKeyBackup. now rewrite He.
Qed.

End Download.

Section DownloadAtSamples.

Import keybackup keybackup_samples.
Open Scope string_scope.

Lemma download_untrusted_does_nothing_witness :
  fst (DownloadAndStoreLatestKeyBackup (mach := machine_of broken_version)
         [] (Some [x01]))
  = (Ok ("",
         Some (Errorf
                 "failed to get device @alice:example.org/BROKEN from store: "
                 (ErrorString "database is closed"))), []).
Proof.
  exact (proj1 (download_untrusted_does_nothing
                  (mach := machine_of broken_version) [] (Some [x01])
                  (Errorf
                     "failed to get device @alice:example.org/BROKEN from store: "
                     (ErrorString "database is closed"))
                  eq_refl)).
Defined.

Lemma download_with_matching_key_witness :
  verifyCalls
    (snd (DownloadAndStoreLatestKeyBackup
            (mach := machine_of key_matching_version) [] (Some [x01])))
  = [].
Proof.
  exact (proj1 (proj2 (download_with_matching_key
                         (mach := machine_of key_matching_version)
                         [] [x01] key_matching_version
                         eq_refl eq_refl eq_refl))).
Defined.

Lemma restore_stores_only_payload_sessions_witness :
  igs_KeyBackupVersion
    (sessionFromBackup (mach := machine_of mixed_version) [] "1" "!a" "s1"
       (sample_session AlgorithmMegolmV1 "s1")
       {| ID := "s1"; FirstKnownIndex := 0 |})
  = "1".
Proof.
  refine (proj1 (restore_stores_only_payload_sessions
                   (mach := machine_of mixed_version) "1" (Some [x01])
                   [] sample_payload
                   (sessionFromBackup (mach := machine_of mixed_version)
                      [] "1" "!a" "s1" (sample_session AlgorithmMegolmV1 "s1")
                      {| ID := "s1"; FirstKnownIndex := 0 |})
                   eq_refl _)).
  vm_compute. left. reflexivity.
Defined.

Lemma restore_count_is_sessions_announced_witness :
  verifyCalls
    (snd (GetAndStoreKeyBackup (mach := machine_of mixed_version) [] "1"
            (Some [x01])))
  = [].
Proof.
  exact (proj2 (proj2 (restore_count_is_sessions_announced
                         (mach := machine_of mixed_version) "1" (Some [x01])
                         [] sample_payload eq_refl))).
Defined.

End DownloadAtSamples.
